(** * Common API tests: a shallow embedding of the two bundled variants

    The repository ships the same helper library twice:
    - the looser variant, [Commontests.js], written against postman-bdd
      ([it], [response], [responseBody]);
    - the stricter variant, written against the [pm] sandbox API
      ([pm.test], [pm.response], [tv4], [postman.setNextRequest]).

    Both are embedded below, function by function, in modules [Loose] and
    [Strict].  JavaScript values, the coercions the code relies on, the
    host objects it reads and the effects it performs (registering a test,
    signalling the runner, throwing) are modelled explicitly. *)

From Stdlib Require Import List String Ascii Bool Arith ZArith QArith Lia Lqa.
From Stdlib Require Import DecimalString.
Import ListNotations.

Local Close Scope Q_scope.
Local Open Scope list_scope.
Local Open Scope string_scope.

Set Implicit Arguments.
Set Warnings "-register-all".

(** ** JavaScript numbers

    Every finite double is a rational and the comparison operators of the
    language agree with the order of the rationals, so a number is a
    rational, an infinity or NaN.  Both zeros are [Fin 0]. The library only
    compares numbers; the one division it performs ([time / 1000]) only
    feeds the engine's number printing. *)

Inductive number : Type :=
| NaN
| PosInf
| NegInf
| Fin (q : Q).

Definition num (z : Z) : number := Fin (inject_Z z).

(** [a < b]; false as soon as one side is NaN. *)
Definition number_lt (a b : number) : bool :=
  match a, b with
  | NaN, _ | _, NaN => false
  | PosInf, _ => false
  | _, NegInf => false
  | _, PosInf => true
  | NegInf, _ => true
  | Fin x, Fin y => negb (Qle_bool y x)
  end.

Definition number_is_nan (a : number) : bool :=
  match a with NaN => true | _ => false end.

(** [a <= b] is "not [b < a]", except that NaN compares false. *)
Definition number_le (a b : number) : bool :=
  negb (number_is_nan a) && negb (number_is_nan b) && negb (number_lt b a).

(** [a > b]. *)
Definition number_gt (a b : number) : bool := number_lt b a.

(** Numeric equality ([===] on two numbers): NaN differs from itself. *)
Definition number_eq (a b : number) : bool :=
  match a, b with
  | PosInf, PosInf | NegInf, NegInf => true
  | Fin x, Fin y => Qeq_bool x y
  | _, _ => false
  end.

Definition number_div (a b : number) : number :=
  match a, b with
  | Fin x, Fin y => if Qeq_bool y 0 then
                      (if Qeq_bool x 0 then NaN
                       else if Qle_bool 0 x then PosInf else NegInf)
                    else Fin (x / y)
  | NaN, _ | _, NaN => NaN
  | PosInf, Fin y => if Qle_bool 0 y then PosInf else NegInf
  | NegInf, Fin y => if Qle_bool 0 y then NegInf else PosInf
  | Fin _, _ => Fin 0
  | _, _ => NaN
  end.

(** ** JavaScript values

    Objects, arrays, errors and functions are reference types: each carries
    the address of the object, and [===] on them compares addresses.  An
    object keeps its own properties in insertion order.  A string is a
    sequence of code units below 256.  Boxed primitives, dates, symbols,
    getters and user-defined [toString]/[valueOf] are not in this
    universe. *)

Definition addr := nat.

Inductive error_kind : Type := ErrorK | TypeErrorK | RangeErrorK.

Record error_obj : Type := mkError {
  err_kind : error_kind;
  err_message : string;
  err_stack : string
}.

Inductive value : Type :=
| VUndefined
| VNull
| VBool (b : bool)
| VNum (n : number)
| VStr (s : string)
| VArr (a : addr) (items : list value)
| VObj (a : addr) (props : list (string * value))
| VErr (a : addr) (e : error_obj)
| VFun (a : addr).

(** What lives in the engine rather than in the library: printing and
    parsing of numbers, the source text of a function, and the lookup of a
    property that is not an own property of the receiver (the built-in
    prototypes). *)
Record Engine : Type := mkEngine {
  number_to_string : number -> string;
  string_to_number : string -> number;
  function_to_string : addr -> string;
  inherited : value -> string -> value
}.

Definition error_name (k : error_kind) : string :=
  match k with
  | ErrorK => "Error"
  | TypeErrorK => "TypeError"
  | RangeErrorK => "RangeError"
  end.

(** [typeof v]. *)
Definition typeof (v : value) : string :=
  match v with
  | VUndefined => "undefined"
  | VNull => "object"
  | VBool _ => "boolean"
  | VNum _ => "number"
  | VStr _ => "string"
  | VArr _ _ => "object"
  | VObj _ _ => "object"
  | VErr _ _ => "object"
  | VFun _ => "function"
  end.

(** [Array.isArray(v)]. *)
Definition isArray (v : value) : bool :=
  match v with VArr _ _ => true | _ => false end.

(** [Object.prototype.toString.call(v)]. *)
Definition class_of (v : value) : string :=
  match v with
  | VUndefined => "Undefined"
  | VNull => "Null"
  | VBool _ => "Boolean"
  | VNum _ => "Number"
  | VStr _ => "String"
  | VArr _ _ => "Array"
  | VObj _ _ => "Object"
  | VErr _ _ => "Error"
  | VFun _ => "Function"
  end.

Definition object_toString (v : value) : string :=
  "[object " ++ class_of v ++ "]".

(** Truthiness, as tested by [&&], [if] and [?:]. *)
Definition to_boolean (v : value) : bool :=
  match v with
  | VUndefined | VNull => false
  | VBool b => b
  | VNum n => negb (number_is_nan n || number_eq n (num 0))
  | VStr s => negb (String.eqb s "")
  | _ => true
  end.

Section Coercions.

Variable E : Engine.

(** [Error.prototype.toString]. *)
Definition error_toString (e : error_obj) : string :=
  if String.eqb (err_message e) "" then error_name (err_kind e)
  else error_name (err_kind e) ++ ": " ++ err_message e.

(** ToString, as applied by [+] with a string operand and by template
    literals.  An array prints its elements joined by commas, with
    [null] and [undefined] printed as nothing. *)
Fixpoint to_string (v : value) : string :=
  match v with
  | VUndefined => "undefined"
  | VNull => "null"
  | VBool true => "true"
  | VBool false => "false"
  | VNum n => number_to_string E n
  | VStr s => s
  | VArr _ items =>
      let element (x : value) : string :=
        match x with
        | VUndefined | VNull => ""
        | _ => to_string x
        end in
      (fix join (l : list value) : string :=
         match l with
         | [] => ""
         | [x] => element x
         | x :: rest => element x ++ "," ++ join rest
         end) items
  | VObj _ _ => "[object Object]"
  | VErr _ e => error_toString e
  | VFun a => function_to_string E a
  end.

(** ToNumber. Reference types go through their string form. *)
Definition to_number (v : value) : number :=
  match v with
  | VUndefined => NaN
  | VNull => num 0
  | VBool true => num 1
  | VBool false => num 0
  | VNum n => n
  | VStr s => string_to_number E s
  | _ => string_to_number E (to_string v)
  end.

Definition is_reference (v : value) : bool :=
  match v with
  | VArr _ _ | VObj _ _ | VErr _ _ | VFun _ => true
  | _ => false
  end.

(** The relational operators.  Two strings compare as strings; that case
    does not arise in the library, where one side is always a number. *)
Definition string_lt (s t : string) : bool :=
  match String.compare s t with Lt => true | _ => false end.

Definition to_primitive (v : value) : value :=
  if is_reference v then VStr (to_string v) else v.

Definition js_lt (a b : value) : bool :=
  match to_primitive a, to_primitive b with
  | VStr s, VStr t => string_lt s t
  | pa, pb => number_lt (to_number pa) (to_number pb)
  end.

Definition js_le (a b : value) : bool :=
  match to_primitive a, to_primitive b with
  | VStr s, VStr t => negb (string_lt t s)
  | pa, pb => number_le (to_number pa) (to_number pb)
  end.

Definition js_gt (a b : value) : bool := js_lt b a.

Definition address_of (v : value) : option addr :=
  match v with
  | VArr a _ | VObj a _ | VErr a _ | VFun a => Some a
  | _ => None
  end.

(** [a === b]. *)
Definition strict_equals (a b : value) : bool :=
  match a, b with
  | VUndefined, VUndefined => true
  | VNull, VNull => true
  | VBool x, VBool y => Bool.eqb x y
  | VNum x, VNum y => number_eq x y
  | VStr x, VStr y => String.eqb x y
  | _, _ =>
      match address_of a, address_of b with
      | Some x, Some y => Nat.eqb x y
      | _, _ => false
      end
  end.

(** [a == b]. *)
Definition loose_equals (a b : value) : bool :=
  match a, b with
  | (VUndefined | VNull), (VUndefined | VNull) => true
  | (VUndefined | VNull), _ | _, (VUndefined | VNull) => false
  | _, _ =>
      if is_reference a && is_reference b then strict_equals a b
      else
        match to_primitive a, to_primitive b with
        | VStr s, VStr t => String.eqb s t
        | pa, pb => number_eq (to_number pa) (to_number pb)
        end
  end.

End Coercions.

(** ** String methods used by the library *)

Definition LF : ascii := "010"%char.
Definition CR : ascii := "013"%char.

(** White space removed by [trim] (code units below 256). *)
Definition is_white_space (c : ascii) : bool :=
  let n := nat_of_ascii c in
  ((9 <=? n) && (n <=? 13))%nat || (n =? 32)%nat || (n =? 160)%nat.

Fixpoint trim_left (s : string) : string :=
  match s with
  | String c rest => if is_white_space c then trim_left rest else s
  | EmptyString => EmptyString
  end.

Fixpoint trim_right (s : string) : string :=
  match s with
  | String c rest =>
      let rest' := trim_right rest in
      if is_white_space c && String.eqb rest' "" then "" else String c rest'
  | EmptyString => EmptyString
  end.

(** [s.trim()]. *)
Definition trim (s : string) : string := trim_right (trim_left s).

(** [s.split(/\r\n|\r|\n/g)]; [line] is the text read since the last
    break. *)
Fixpoint split_lines_from (line s : string) : list string :=
  match s with
  | EmptyString => [line]
  | String c rest =>
      if Ascii.eqb c CR then
        match rest with
        | String d rest' =>
            if Ascii.eqb d LF then line :: split_lines_from "" rest'
            else line :: split_lines_from "" rest
        | EmptyString => line :: split_lines_from "" rest
        end
      else if Ascii.eqb c LF then line :: split_lines_from "" rest
      else split_lines_from (line ++ String c "") rest
  end.

Definition split_lines (s : string) : list string := split_lines_from "" s.

(** [s.indexOf(t)]: the first position of [t] in [s], or -1. *)
Definition indexOf (s t : string) : Z :=
  match String.index 0 t s with
  | Some i => Z.of_nat i
  | None => (-1)%Z
  end.

(** [s.substr(start, length)] for a start that is not negative. *)
Definition substr (s : string) (start : nat) (length : Z) : string :=
  if (length <=? 0)%Z then ""
  else String.substring start (Z.to_nat length) s.

Fixpoint strip_prefix (p s : string) : option string :=
  match p, s with
  | EmptyString, _ => Some s
  | String a p', String b s' =>
      if Ascii.eqb a b then strip_prefix p' s' else None
  | String _ _, EmptyString => None
  end.

Fixpoint strip_suffix_char (c : ascii) (s : string) : string :=
  match s with
  | EmptyString => EmptyString
  | String a EmptyString => if Ascii.eqb a c then EmptyString else s
  | String a rest => String a (strip_suffix_char c rest)
  end.

(** ** Host objects

    The response under test, as both sandboxes expose it: status code and
    reason phrase, headers, the raw body ([responseBody],
    [pm.response.text()]), the parsed body ([response.body],
    [pm.response.json()]) and the elapsed time in milliseconds
    ([response.time], [pm.response.responseTime]).  The accessors are
    total: reading the response never throws. *)

Record Response : Type := mkResponse {
  code : number;
  status : string;
  headers : list (string * string);
  text : string;
  json : value;
  responseTime : number
}.

(** [tv4.validate(document, schema)] answers [None] when the document
    conforms and otherwise [tv4.error.message] and [tv4.error.dataPath]. *)
Record Host : Type := mkHost {
  engine : Engine;
  response : Response;
  tv4_validate : value -> value -> option (string * string)
}.

(** ** Effects

    A test callback is kept as the list of assertion expressions it
    evaluates when the runner calls it. *)

Inductive assertion : Type :=
| HaveStatus (expected : value)
    (* response.should.have.status(x), pm.response.to.have.status(x) *)
| TimeBelow (bound : value)
    (* response.time.should.be.below(x),
       pm.expect(pm.response.responseTime).to.be.below(x) *)
| TypeEqual (expected : value)
    (* response.type.should.equal(x) *)
| BodyHaveSchema (schema : value)
    (* response.body.should.have.schema(x) *)
| HaveHeader (name : string)
    (* pm.response.to.have.header(name) *)
| HeaderInclude (name : string) (part : value)
    (* pm.expect(pm.response.headers.get(name)).to.include(x) *)
| HaveHeaderValue (name : string) (expected : value)
    (* response.should.have.header(name, x),
       pm.response.to.be.header(name, x) *)
| ExpectTrue (actual : value).
    (* pm.expect(x).to.be.true *)

Inductive event : Type :=
| Test (description : string) (body : list assertion)
    (* it(description, callback), pm.test(description, callback) *)
| SetNextRequest (target : value).
    (* postman.setNextRequest(target) *)

Record state : Type := mkState {
  next_addr : addr;
  events : list event
}.

Inductive completion (A : Type) : Type :=
| Normal (a : A)
| Throw (e : error_obj).

Arguments Normal {A} a.
Arguments Throw {A} e.

Definition M (A : Type) : Type := state -> completion A * state.

Definition ret {A : Type} (a : A) : M A := fun st => (Normal a, st).

Definition bind {A B : Type} (m : M A) (k : A -> M B) : M B :=
  fun st =>
    match m st with
    | (Normal a, st') => k a st'
    | (Throw e, st') => (Throw e, st')
    end.

Definition throw {A : Type} (e : error_obj) : M A := fun st => (Throw e, st).

Definition emit (ev : event) : M unit :=
  fun st => (Normal tt, mkState (next_addr st) (events st ++ [ev])).

Definition fresh : M addr :=
  fun st => (Normal (next_addr st), mkState (S (next_addr st)) (events st)).

Declare Scope js_scope.
Delimit Scope js_scope with js.
Notation "x <- c1 ;; c2" := (bind c1 (fun x => c2))
  (at level 100, c1 at next level, right associativity) : js_scope.
Notation "c1 ;; c2" := (bind c1 (fun _ => c2))
  (at level 100, right associativity) : js_scope.
Local Open Scope js_scope.

(** [v && m;] as a statement. *)
Definition when_truthy (v : value) (m : M unit) : M unit :=
  if to_boolean v then m else ret tt.

(** V8 prints the stack of an error as its heading followed by one line
    per frame, ["    at <function> (<location>)"], innermost first; the
    offset 3 in [COMMON.ERROR.OFFSET] is the length of ["at "].  The
    frame of the function that evaluates [new Error()] is the first one. *)
Definition script_location : string := "eval at <anonymous>".

Definition stack_of (heading fname : string) : string :=
  heading ++ String LF ("    at " ++ fname ++ " (" ++ script_location ++ ")").

(** [new Error()], [new TypeError(msg)], [new RangeError(msg)] evaluated
    inside the function [fname]. *)
Definition new_error (k : error_kind) (msg fname : string) : error_obj :=
  let e := mkError k msg "" in
  mkError k msg (stack_of (error_toString e) fname).

(** The engine's own TypeError for a property read on [null] or
    [undefined]. *)
Definition native_type_error (msg fname : string) : error_obj :=
  new_error TypeErrorK msg fname.

(** Tests registered and abort signals sent, read off a trace. *)
Definition is_test (ev : event) : bool :=
  match ev with Test _ _ => true | _ => false end.

Definition is_abort (ev : event) : bool :=
  match ev with SetNextRequest VNull => true | _ => false end.

Definition registered (tr : list event) : list event := filter is_test tr.

Definition aborts (tr : list event) : nat := List.length (filter is_abort tr).

(** ** Property reads, array methods and literals *)

Definition is_digit (c : ascii) : bool :=
  let n := nat_of_ascii c in ((48 <=? n) && (n <=? 57))%nat.

Fixpoint digits_value (acc : nat) (s : string) : option nat :=
  match s with
  | EmptyString => Some acc
  | String c rest =>
      if is_digit c then digits_value (10 * acc + (nat_of_ascii c - 48)) rest
      else None
  end.

(** A property key that is an array index: decimal digits without a
    leading zero. *)
Definition array_index (p : string) : option nat :=
  match p with
  | EmptyString => None
  | String c EmptyString => digits_value 0 p
  | String c _ => if Ascii.eqb c "0"%char then None else digits_value 0 p
  end.

Fixpoint assoc (p : string) (props : list (string * value)) : option value :=
  match props with
  | [] => None
  | (k, v) :: rest => if String.eqb k p then Some v else assoc p rest
  end.

Definition own_property (v : value) (p : string) : option value :=
  match v with
  | VObj _ props => assoc p props
  | VArr _ items =>
      if String.eqb p "length" then Some (VNum (num (Z.of_nat (List.length items))))
      else match array_index p with
           | Some i => nth_error items i
           | None => None
           end
  | VErr _ e =>
      if String.eqb p "message" then Some (VStr (err_message e))
      else if String.eqb p "stack" then Some (VStr (err_stack e))
      else None
  | _ => None
  end.

(** [new Array], [new Object] by literal: every [LArr] and [LObj] node is a
    fresh object, an [LVal] leaf is a value that already exists. *)
Inductive literal : Type :=
| LVal (v : value)
| LArr (items : list literal)
| LObj (props : list (string * literal)).

Definition LStr (s : string) : literal := LVal (VStr s).
Definition LNum (z : Z) : literal := LVal (VNum (num z)).

Fixpoint build (l : literal) : M value :=
  match l with
  | LVal v => ret v
  | LArr items =>
      a <- fresh ;;
      vs <- (fix each (ls : list literal) : M (list value) :=
               match ls with
               | [] => ret []
               | x :: rest => v <- build x ;; vs <- each rest ;; ret (v :: vs)
               end) items ;;
      ret (VArr a vs)
  | LObj props =>
      a <- fresh ;;
      ps <- (fix each (ls : list (string * literal)) : M (list (string * value)) :=
               match ls with
               | [] => ret []
               | (k, x) :: rest => v <- build x ;; ps <- each rest ;; ret ((k, v) :: ps)
               end) props ;;
      ret (VObj a ps)
  end.

Section Engine_dependent.

Variable E : Engine.

(** [v[p]] evaluated inside the function [fname]. *)
Definition get_property (fname : string) (v : value) (p : string) : M value :=
  match v with
  | VUndefined | VNull =>
      throw (native_type_error
               ("Cannot read properties of " ++ to_string E v) fname)
  | _ =>
      ret (match own_property v p with
           | Some x => x
           | None => inherited E v p
           end)
  end.

(** [items.findIndex(callback)], counting from [i]. *)
Fixpoint findIndex_from (callback : value -> M bool) (items : list value)
         (i : Z) : M Z :=
  match items with
  | [] => ret (-1)%Z
  | x :: rest =>
      found <- callback x ;;
      if found then ret i else findIndex_from callback rest (i + 1)%Z
  end.

Definition findIndex (callback : value -> M bool) (items : list value) : M Z :=
  findIndex_from callback items 0%Z.

Definition array_items (v : value) : list value :=
  match v with VArr _ items => items | _ => [] end.

End Engine_dependent.

Definition dq : string := String "034"%char EmptyString.

(** The two patterns both variants share. *)
Definition regex_GUID : string :=
  "^(?!00000000-0000-0000-0000-000000000000)([0-9a-zA-Z]{8}-[0-9a-zA-Z]{4}-[0-9a-zA-Z]{4}-[0-9a-zA-Z]{4}-[0-9a-zA-Z]{12})$".

Definition regex_ISODateTime : string :=
  "^(?!0001-01-01T00:00:00Z)([0-9]{4}-[0-9]{2}-[0-9]{2}T[0-9]{2}:[0-9]{2}:[0-9]{2}.?[0-9]*Z)$".

(** ** Patterns

    The patterns returned by the library are handed to [new RegExp] by the
    schema validator and applied with [test].  The fragment of the pattern
    language they use: literal characters, [.], escaped punctuation,
    character classes, the quantifiers [*], [+], [?], [{n}], [{n,}] and
    [{n,m}] on a single-character atom, groups, alternation, the negative
    lookahead [(?!...)], and the anchors [^] and [$] (no flags). *)

Inductive atom : Type :=
| AChar (c : ascii)
| AAny
| AClass (negated : bool) (ranges : list (ascii * ascii)).

Inductive regex : Type :=
| Eps
| Atom (a : atom)
| Repeat (a : atom) (min : nat) (max : option nat)
| Seq (r1 r2 : regex)
| Alt (r1 r2 : regex)
| Group (r : regex)
| NegLookahead (r : regex)
| Bol
| Eol.

Definition in_char_range (c : ascii) (range : ascii * ascii) : bool :=
  ((nat_of_ascii (fst range) <=? nat_of_ascii c)
   && (nat_of_ascii c <=? nat_of_ascii (snd range)))%nat.

Definition atom_matches (a : atom) (c : ascii) : bool :=
  match a with
  | AChar x => Ascii.eqb x c
  | AAny => negb (Ascii.eqb c LF || Ascii.eqb c CR)
  | AClass negated ranges => xorb negated (existsb (in_char_range c) ranges)
  end.

(** A position in the input: the number of characters before it and the
    characters after it. *)
Definition position_in : Type := nat * list ascii.

(** The positions reached by matching [a] zero times, once, twice, ...
    from [(i, s)]. *)
Fixpoint runs (a : atom) (i : nat) (s : list ascii) : list position_in :=
  (i, s) :: match s with
            | c :: rest => if atom_matches a c then runs a (S i) rest else []
            | [] => []
            end.

(** The positions at which a match of [r] that starts at [p] can end, in
    the order in which a backtracking matcher tries them (quantifiers are
    greedy). *)
Fixpoint ends (r : regex) (p : position_in) : list position_in :=
  match r with
  | Eps => [p]
  | Atom a =>
      match snd p with
      | c :: rest => if atom_matches a c then [(S (fst p), rest)] else []
      | [] => []
      end
  | Repeat a lo hi =>
      let all := runs a (fst p) (snd p) in
      let bounded := match hi with Some m => firstn (S m) all | None => all end in
      rev (skipn lo bounded)
  | Seq r1 r2 => flat_map (ends r2) (ends r1 p)
  | Alt r1 r2 => (ends r1 p ++ ends r2 p)%list
  | Group r1 => ends r1 p
  | NegLookahead r1 =>
      match ends r1 p with
      | [] => [p]
      | _ :: _ => []
      end
  | Bol => if (fst p =? 0)%nat then [p] else []
  | Eol => match snd p with [] => [p] | _ :: _ => [] end
  end.

(** Every position of the input, from the first. *)
Fixpoint positions (i : nat) (s : list ascii) : list position_in :=
  (i, s) :: match s with
            | _ :: rest => positions (S i) rest
            | [] => []
            end.

Definition can_match (r : regex) (p : position_in) : bool :=
  match ends r p with [] => false | _ :: _ => true end.

(** [regexp.test(s)]. *)
Definition test (r : regex) (s : list ascii) : bool :=
  existsb (can_match r) (positions 0 s).

(** *** Reading a pattern *)

Definition is_syntax_char (c : ascii) : bool :=
  existsb (Ascii.eqb c) (list_ascii_of_string "^$\.*+?()[]{}|").

(** The characters a backslash may precede to stand for themselves. *)
Definition is_escapable (c : ascii) : bool :=
  is_syntax_char c || Ascii.eqb c "/"%char || Ascii.eqb c "-"%char.

Definition is_quantifier_char (c : ascii) : bool :=
  existsb (Ascii.eqb c) (list_ascii_of_string "*+?{").

(** The members of a class, read up to the closing bracket. *)
Fixpoint parse_class (fuel : nat) (s : list ascii)
  : option (list (ascii * ascii) * list ascii) :=
  match fuel with
  | O => None
  | S fuel' =>
      match s with
      | [] => None
      | "]"%char :: rest => Some ([], rest)
      | "\"%char :: c :: rest =>
          if is_escapable c then
            match parse_class fuel' rest with
            | Some (ranges, rest') => Some ((c, c) :: ranges, rest')
            | None => None
            end
          else None
      | lo :: "-"%char :: hi :: rest =>
          if Ascii.eqb hi "]"%char then
            Some ([(lo, lo); ("-"%char, "-"%char)], rest)
          else if Ascii.eqb hi "\"%char then None
          else
            match parse_class fuel' rest with
            | Some (ranges, rest') => Some ((lo, hi) :: ranges, rest')
            | None => None
            end
      | c :: rest =>
          match parse_class fuel' rest with
          | Some (ranges, rest') => Some ((c, c) :: ranges, rest')
          | None => None
          end
      end
  end.

Definition parse_atom (s : list ascii) : option (atom * list ascii) :=
  match s with
  | [] => None
  | "."%char :: rest => Some (AAny, rest)
  | "\"%char :: c :: rest => if is_escapable c then Some (AChar c, rest) else None
  | "["%char :: "^"%char :: rest =>
      match parse_class (S (List.length rest)) rest with
      | Some (ranges, rest') => Some (AClass true ranges, rest')
      | None => None
      end
  | "["%char :: rest =>
      match parse_class (S (List.length rest)) rest with
      | Some (ranges, rest') => Some (AClass false ranges, rest')
      | None => None
      end
  | c :: rest => if is_syntax_char c then None else Some (AChar c, rest)
  end.

(** Decimal digits at the head of [s]. *)
Fixpoint parse_digits (acc : option nat) (s : list ascii) : option nat * list ascii :=
  match s with
  | c :: rest =>
      if is_digit c then
        parse_digits
          (Some (10 * match acc with Some n => n | None => 0 end
                 + (nat_of_ascii c - 48))%nat) rest
      else (acc, s)
  | [] => (acc, s)
  end.

(** The quantifier at the head of [s], if there is one, as its bounds. *)
Definition parse_quantifier (s : list ascii)
  : option (option (nat * option nat) * list ascii) :=
  match s with
  | "*"%char :: rest => Some (Some (0, None), rest)%nat
  | "+"%char :: rest => Some (Some (1, None), rest)%nat
  | "?"%char :: rest => Some (Some (0, Some 1), rest)%nat
  | "{"%char :: rest =>
      match parse_digits None rest with
      | (Some n, "}"%char :: rest') => Some (Some (n, Some n), rest')
      | (Some n, ","%char :: rest') =>
          match parse_digits None rest' with
          | (Some m, "}"%char :: rest'') => Some (Some (n, Some m), rest'')
          | (None, "}"%char :: rest'') => Some (Some (n, None), rest'')
          | _ => None
          end
      | _ => None
      end
  | _ => Some (None, s)
  end.

Definition starts_with_quantifier (s : list ascii) : bool :=
  match s with
  | c :: _ => is_quantifier_char c
  | [] => false
  end.

Fixpoint parse_disjunction (fuel : nat) (s : list ascii) : option (regex * list ascii) :=
  match fuel with
  | O => None
  | S fuel' =>
      match parse_alternative fuel' s with
      | Some (r1, "|"%char :: rest) =>
          match parse_disjunction fuel' rest with
          | Some (r2, rest') => Some (Alt r1 r2, rest')
          | None => None
          end
      | other => other
      end
  end

with parse_alternative (fuel : nat) (s : list ascii) : option (regex * list ascii) :=
  match fuel with
  | O => None
  | S fuel' =>
      match s with
      | [] => Some (Eps, s)
      | c :: _ =>
          if Ascii.eqb c "|"%char || Ascii.eqb c ")"%char then Some (Eps, s)
          else
            match parse_term fuel' s with
            | Some (r1, rest) =>
                match parse_alternative fuel' rest with
                | Some (r2, rest') => Some (Seq r1 r2, rest')
                | None => None
                end
            | None => None
            end
      end
  end

with parse_term (fuel : nat) (s : list ascii) : option (regex * list ascii) :=
  match fuel with
  | O => None
  | S fuel' =>
      match s with
      | "^"%char :: rest => Some (Bol, rest)
      | "$"%char :: rest => Some (Eol, rest)
      | "("%char :: "?"%char :: "!"%char :: rest =>
          match parse_disjunction fuel' rest with
          | Some (r, ")"%char :: rest') =>
              if starts_with_quantifier rest' then None
              else Some (NegLookahead r, rest')
          | _ => None
          end
      | "("%char :: "?"%char :: _ => None
      | "("%char :: rest =>
          match parse_disjunction fuel' rest with
          | Some (r, ")"%char :: rest') =>
              if starts_with_quantifier rest' then None
              else Some (Group r, rest')
          | _ => None
          end
      | _ =>
          match parse_atom s with
          | Some (a, rest) =>
              match parse_quantifier rest with
              | Some (Some (lo, hi), rest') =>
                  if starts_with_quantifier rest' then None
                  else Some (Repeat a lo hi, rest')
              | Some (None, rest') => Some (Atom a, rest')
              | None => None
              end
          | None => None
          end
      end
  end.

(** [new RegExp(pattern)]: [None] for a pattern outside the fragment. *)
Definition compile (pattern : string) : option regex :=
  let s := list_ascii_of_string pattern in
  match parse_disjunction (3 * S (List.length s)) s with
  | Some (r, []) => Some r
  | _ => None
  end.

(** [new RegExp(pattern).test(s)]. *)
Definition matches (pattern s : string) : option bool :=
  match compile pattern with
  | Some r => Some (test r (list_ascii_of_string s))
  | None => None
  end.

(** ** Arithmetic and random draws

    Sums, differences and products of doubles are rounded, and
    [Math.random] is the engine's: the library functions that compute with
    numbers take them from the engine.  [Math_random k] is the value of the
    k-th call of [Math.random()] that one invocation makes, counted from
    zero. *)

Record Arithmetic : Type := mkArithmetic {
  Math_random : nat -> number;
  number_add : number -> number -> number;
  number_sub : number -> number -> number;
  number_mul : number -> number -> number;
  Math_floor : number -> number
}.

(** [s.charAt(pos)]: the position is truncated towards zero, NaN counts as
    zero, and a position outside the string gives the empty string. *)
Definition charAt (s : string) (pos : number) : string :=
  match pos with
  | NaN => String.substring 0 1 s
  | PosInf | NegInf => ""
  | Fin q =>
      let k := Z.quot (Qnum q) (Zpos (Qden q)) in
      if ((0 <=? k) && (k <? Z.of_nat (String.length s)))%Z
      then String.substring (Z.to_nat k) 1 s
      else ""
  end.

(** ** The stricter variant *)

Module Strict.
Section WithHost.

Variable h : Host.
Local Abbreviation E := (engine h).
Local Abbreviation pm_response := (response h).

(** [COMMON]. *)
Definition ERROR_OFFSET : nat := 3.
Definition TYPE_ERROR_MESSAGE : string := "Wrong argument type for function".
Definition RANGE_ERROR_MESSAGE : string := "Argument out of range for function".

(** [Object.prototype.toString.call(value).replace(/^\[object |\]$/g, "")] *)
Definition getType (v : value) : string :=
  let s := object_toString v in
  strip_suffix_char "]"%char
    (match strip_prefix "[object " s with Some r => r | None => s end).

Definition getFunctionNameFromInside (error : value) : M string :=
  if String.eqb (getType error) "Error" then
    match error with
    | VErr _ e =>
        match nth_error (split_lines (err_stack e)) 1 with
        | Some line =>
            let functionName := trim line in
            ret (substr functionName ERROR_OFFSET
                   (indexOf functionName "(" - 1 - Z.of_nat ERROR_OFFSET))
        | None =>
            throw (native_type_error "Cannot read properties of undefined"
                     "getFunctionNameFromInside")
        end
    | _ =>
        throw (native_type_error "Cannot read properties of undefined"
                 "getFunctionNameFromInside")
    end
  else
    throw (new_error TypeErrorK
             (TYPE_ERROR_MESSAGE ++ " getFunctionNameFromInside")
             "getFunctionNameFromInside").

(** [throw new K(`${MESSAGE} ${getFunctionNameFromInside(new Error())}`)]
    evaluated inside the function [fname]. *)
Definition throw_named {A : Type} (k : error_kind) (MESSAGE fname : string) : M A :=
  a <- fresh ;;
  name <- getFunctionNameFromInside (VErr a (new_error ErrorK "" fname)) ;;
  throw (new_error k (MESSAGE ++ " " ++ name) fname).

Definition getIndexObjectInArray (array property val : value) : M value :=
  if isArray array
     && forallb (fun item => String.eqb (getType item) "Object") (array_items array)
     && String.eqb (getType property) "String"
  then
    i <- findIndex
           (fun item =>
              x <- get_property E "getIndexObjectInArray" item (to_string E property) ;;
              ret (strict_equals x val))
           (array_items array) ;;
    ret (VNum (num i))
  else throw_named TypeErrorK TYPE_ERROR_MESSAGE "getIndexObjectInArray".

Definition convertTime (time : value) : M string :=
  if String.eqb (getType time) "Number" then
    ret (if js_le E (VNum (num 1000)) time
         then to_string E (VNum (number_div (to_number E time) (num 1000))) ++ "s"
         else to_string E time ++ "ms")
  else throw_named TypeErrorK TYPE_ERROR_MESSAGE "convertTime".

Definition checkTime (time : value) : M unit :=
  if String.eqb (getType time) "Number" then
    if js_gt E time (VNum (num 0)) then
      shown <- convertTime time ;;
      emit (Test ("Response Time < " ++ shown) [TimeBelow time])
    else throw_named RangeErrorK RANGE_ERROR_MESSAGE "checkTime"
  else throw_named TypeErrorK TYPE_ERROR_MESSAGE "checkTime".

Definition ERROR_CODES : list Z := [503; 500; 502; 504; 401; 403]%Z.

(** The [for] loop over [ERROR_CODES], left at the first hit. *)
Fixpoint abort_on (codes : list Z) : M unit :=
  match codes with
  | [] => ret tt
  | c :: rest =>
      if strict_equals (VNum (code pm_response)) (VNum (num c))
      then emit (SetNextRequest VNull)
      else abort_on rest
  end.

Definition checkStatusCode (statusCode : value) : M unit :=
  if String.eqb (getType statusCode) "Number" then
    let descriptionStatusCode := "Status Code " in
    let within lo hi :=
      js_le E (VNum (num lo)) statusCode && js_le E statusCode (VNum (num hi)) in
    description <-
      (if within 100 199 then ret (descriptionStatusCode ++ "(Information)")
       else if within 200 299 then ret (descriptionStatusCode ++ "(Success)")
       else if within 300 399 then ret (descriptionStatusCode ++ "(Redirection)")
       else if within 400 499 then ret (descriptionStatusCode ++ "(Client Error)")
       else if within 500 599 then ret (descriptionStatusCode ++ "(Server Error)")
       else throw_named RangeErrorK RANGE_ERROR_MESSAGE "checkStatusCode")%Z ;;
    emit (Test description [HaveStatus statusCode]) ;;
    if negb (loose_equals E (VNum (code pm_response)) statusCode)
    then abort_on ERROR_CODES
    else ret tt
  else throw_named TypeErrorK TYPE_ERROR_MESSAGE "checkStatusCode".

Definition checkContentType (contentType : value) : M unit :=
  if String.eqb (getType contentType) "String" then
    emit (Test "Content Type"
            [HaveHeader "Content-Type"; HeaderInclude "Content-Type" contentType])
  else throw_named TypeErrorK TYPE_ERROR_MESSAGE "checkContentType".

Definition checkJSONSchema (jsonSchema : value) : M unit :=
  if String.eqb (getType jsonSchema) "Object" then
    let error := tv4_validate h (json pm_response) jsonSchema in
    let VALID := match error with None => true | Some _ => false end in
    let DESCRIPTION_JSON_SCHEMA :=
      match error with
      | None => "JSON Schema"
      | Some (message, dataPath) =>
          "JSON Schema (" ++ message ++ " for data path "
            ++ (if to_boolean (VStr dataPath) then dataPath else "/") ++ ")"
      end in
    emit (Test DESCRIPTION_JSON_SCHEMA [ExpectTrue (VBool VALID)])
  else throw_named TypeErrorK TYPE_ERROR_MESSAGE "checkJSONSchema".

Definition checkLocation (location : value) : M unit :=
  if String.eqb (getType location) "String" then
    emit (Test "Location" [HaveHeaderValue "Location" location])
  else throw_named TypeErrorK TYPE_ERROR_MESSAGE "checkLocation".

Definition logResponseBody : M unit :=
  let RESPONSE_BODY := VStr (text pm_response) in
  when_truthy RESPONSE_BODY
    (emit (Test ("Response Body: " ++ to_string E RESPONSE_BODY) [])).

Definition testCommon (statusCode contentType jsonSchema location : value) : M unit :=
  logResponseBody ;;
  when_truthy statusCode (checkStatusCode statusCode) ;;
  if strict_equals (VNum (code pm_response)) statusCode then
    when_truthy contentType (checkContentType contentType) ;;
    when_truthy jsonSchema (checkJSONSchema jsonSchema) ;;
    when_truthy location (checkLocation location)
  else ret tt.

Definition testCommonAndTime (statusCode time contentType jsonSchema location : value)
  : M unit :=
  testCommon statusCode contentType jsonSchema location ;;
  when_truthy time (checkTime time).

Definition getRegexGUID : string := regex_GUID.

Definition getRegexISODateTime : string := regex_ISODateTime.

Definition getRegexURL : string :=
  "^https?://[0-9a-zA-Z-]+\.[0-9a-zA-Z-]+|https?://localhost".

Definition href_schema (types : literal) : literal :=
  LObj [("type", types);
        ("required", LArr [LStr "href"]);
        ("properties",
          LObj [("href", LObj [("type", LStr "string");
                               ("pattern", LStr getRegexURL)])])].

Definition page_number (minimum : Z) : literal :=
  LObj [("type", LStr "number"); ("minimum", LNum minimum); ("multipleOf", LNum 1)].

(** The object literal returned by [getSchemaHAL]. *)
Definition schemaHAL (schemaResourceItems : value) : literal :=
  LObj [
    ("type", LStr "object");
    ("required", LArr [LStr "_links"; LStr "_embedded"; LStr "_page"]);
    ("properties", LObj [
      ("_links", LObj [
        ("type", LStr "object");
        ("required", LArr [LStr "self"; LStr "first"; LStr "last"]);
        ("properties", LObj [
          ("self", href_schema (LStr "object"));
          ("next", href_schema (LArr [LStr "object"; LStr "null"]));
          ("previous", href_schema (LArr [LStr "object"; LStr "null"]));
          ("first", href_schema (LStr "object"));
          ("last", href_schema (LStr "object"))])]);
      ("_embedded", LObj [
        ("type", LStr "object");
        ("required", LArr [LStr "resourceList"]);
        ("properties", LObj [
          ("resourceList", LObj [
            ("type", LStr "array");
            ("items", LVal schemaResourceItems)])])]);
      ("_page", LObj [
        ("type", LStr "object");
        ("required", LArr [LStr "size"; LStr "number"]);
        ("properties", LObj [
          ("size", page_number 0);
          ("totalElements", page_number 0);
          ("totalPages", page_number 0);
          ("number", page_number 1)])])])].

(** [function getSchemaHAL(schemaResourceItems = {})]: an argument that
    is missing or [undefined] is replaced by a new empty object. *)
Definition getSchemaHAL (argument : value) : M value :=
  schemaResourceItems <-
    (match argument with
     | VUndefined => build (LObj [])
     | _ => ret argument
     end) ;;
  if String.eqb (getType schemaResourceItems) "Object" then
    build (schemaHAL schemaResourceItems)
  else throw_named TypeErrorK TYPE_ERROR_MESSAGE "getSchemaHAL".

Variable R : Arithmetic.

Definition generateNumber (min max : value) : M value :=
  if String.eqb (getType min) "Number" && String.eqb (getType max) "Number" then
    if js_le E min max then
      ret (VNum (Math_floor R
                   (number_add R
                      (number_mul R (Math_random R 0)
                         (number_add R
                            (number_sub R (to_number E max) (to_number E min))
                            (num 1)))
                      (to_number E min))))
    else throw_named RangeErrorK RANGE_ERROR_MESSAGE "generateNumber"
  else throw_named TypeErrorK TYPE_ERROR_MESSAGE "generateNumber".

Definition CHARACTERS : string :=
  "ABCDEFGHIJKLMNOPQRSTUVWXYZabcdefghijklmnopqrstuvwxyz".

(** The [for] loop of [generateString], from the counter [i] on.  It ends
    when [i < length] fails; [None] when that takes more than [fuel]
    turns.  The counter is exact, as it is below 2^53. *)
Fixpoint generateString_loop (fuel : nat) (length : value) (i : nat) (text : string)
  : option string :=
  match fuel with
  | O => None
  | S fuel' =>
      if js_lt E (VNum (num (Z.of_nat i))) length then
        generateString_loop fuel' length (S i)
          (text ++ charAt CHARACTERS
                     (Math_floor R
                        (number_mul R (Math_random R i)
                           (num (Z.of_nat (String.length CHARACTERS))))))
      else Some text
  end.

Definition generateString (fuel : nat) (length : value) : M (option string) :=
  if String.eqb (getType length) "Number" then
    ret (generateString_loop fuel length 0 "")
  else throw_named TypeErrorK TYPE_ERROR_MESSAGE "generateString".

End WithHost.
End Strict.

(** ** The looser variant ([Commontests.js]) *)

Module Loose.
Section WithHost.

Variable h : Host.
Local Abbreviation E := (engine h).
Local Abbreviation responseBody := (VStr (text (response h))).

Definition logResponseBody : M unit :=
  when_truthy responseBody
    (emit (Test ("response body: " ++ to_string E responseBody) [])).

Definition convertTime (time : value) : M string :=
  if String.eqb (typeof time) "number" then
    ret (if js_le E (VNum (num 1000)) time
         then to_string E (VNum (number_div (to_number E time) (num 1000))) ++ "s"
         else to_string E time ++ "ms")
  else
    throw (new_error TypeErrorK
             ("Parameter value must be of type " ++ dq ++ "number" ++ dq
                ++ " for function " ++ dq ++ "convertTime(time)" ++ dq)
             "convertTime").

Definition getIndexObjectInArray (array property val : value) : M value :=
  if isArray array
     && forallb (fun item => String.eqb (typeof item) "object") (array_items array)
     && String.eqb (typeof property) "string"
  then
    i <- findIndex
           (fun item =>
              x <- get_property E "getIndexObjectInArray" item (to_string E property) ;;
              ret (strict_equals x val))
           (array_items array) ;;
    ret (VNum (num i))
  else
    throw (new_error TypeErrorK
             ("Parameter values must be of type " ++ dq
                ++ "Array.<Object>, string, any" ++ dq ++ " for function " ++ dq
                ++ "getIndexObjectInArray(array, property, value)" ++ dq)
             "getIndexObjectInArray").

Definition checkTime (time : value) : M unit :=
  if js_gt E time (VNum (num 0)) then
    shown <- convertTime time ;;
    emit (Test ("should respond within " ++ shown) [TimeBelow time])
  else
    throw (new_error RangeErrorK
             ("Parameter value must be a strictly positive number for function "
                ++ dq ++ "checkTime(time)" ++ dq)
             "checkTime").

Definition checkStatusCode (statusCode : value) : M unit :=
  let within lo hi :=
    js_le E (VNum (num lo)) statusCode && js_le E statusCode (VNum (num hi)) in
  (if within 100 199 then
     emit (Test "should be an information response" [HaveStatus statusCode])
   else if within 200 299 then
     emit (Test "should be a successful response" [HaveStatus statusCode])
   else if within 300 399 then
     emit (Test "should be a redirection response" [HaveStatus statusCode])
   else if within 400 499 then
     emit (Test "should be a client error response" [HaveStatus statusCode])
   else if within 500 599 then
     emit (Test "should be a server error response" [HaveStatus statusCode])
   else
     throw (new_error RangeErrorK
              ("Parameter value must be an existing status code number for function "
                 ++ dq ++ "checkStatusCode(statusCode)" ++ dq)
              "checkStatusCode"))%Z.

Definition checkContentType (contentType : value) : M unit :=
  emit (Test ("should be of type " ++ dq ++ to_string E contentType ++ dq)
          [TypeEqual contentType]).

Definition checkJSONSchema (jsonSchema : value) : M unit :=
  if String.eqb (typeof jsonSchema) "object" then
    emit (Test "should match against the JSON schema" [BodyHaveSchema jsonSchema])
  else
    throw (new_error TypeErrorK
             ("Parameter value must be a JSON schema object for function "
                ++ dq ++ "checkJSONSchema(jsonSchema)" ++ dq)
             "checkJSONSchema").

Definition checkLocation (location : value) : M unit :=
  emit (Test ("should return the location " ++ dq ++ to_string E location ++ dq)
          [HaveHeaderValue "Location" location]).

Definition testCommon (statusCode contentType jsonSchema location : value) : M unit :=
  logResponseBody ;;
  when_truthy statusCode (checkStatusCode statusCode) ;;
  when_truthy contentType (checkContentType contentType) ;;
  when_truthy jsonSchema (checkJSONSchema jsonSchema) ;;
  when_truthy location (checkLocation location).

Definition testCommonAndTime (statusCode time contentType jsonSchema location : value)
  : M unit :=
  testCommon statusCode contentType jsonSchema location ;;
  when_truthy time (checkTime time).

Definition getRegexGUID : string := regex_GUID.

Definition getRegexISODateTime : string := regex_ISODateTime.

Definition getRegexURL : string :=
  "^https?://[0-9a-zA-Z-]+\.?[0-9a-zA-Z-]+".

Definition href_schema (types : literal) : literal :=
  LObj [("type", types);
        ("required", LArr [LStr "href"]);
        ("properties",
          LObj [("href", LObj [("type", LStr "string");
                               ("pattern", LStr getRegexURL)])])].

Definition page_number (minimum : Z) : literal :=
  LObj [("type", LStr "number"); ("minimum", LNum minimum); ("multipleOf", LNum 1)].

(** The object literal returned by [getSchemaHAL]. *)
Definition schemaHAL (schemaResourceItems : value) : literal :=
  LObj [
    ("type", LStr "object");
    ("required", LArr [LStr "_links"; LStr "_embedded"; LStr "_page"]);
    ("properties", LObj [
      ("_links", LObj [
        ("type", LStr "object");
        ("required",
          LArr [LStr "self"; LStr "next"; LStr "previous"; LStr "first"; LStr "last"]);
        ("properties", LObj [
          ("self", href_schema (LStr "object"));
          ("next", href_schema (LArr [LStr "object"; LStr "null"]));
          ("previous", href_schema (LArr [LStr "object"; LStr "null"]));
          ("first", href_schema (LStr "object"));
          ("last", href_schema (LStr "object"))])]);
      ("_embedded", LObj [
        ("type", LStr "object");
        ("required", LArr [LStr "resourceList"]);
        ("properties", LObj [
          ("resourceList", LObj [
            ("type", LStr "array");
            ("items", LVal schemaResourceItems)])])]);
      ("_page", LObj [
        ("type", LStr "object");
        ("required", LArr [LStr "size"; LStr "number"]);
        ("properties", LObj [
          ("size", page_number 0);
          ("totalElements", page_number 0);
          ("totalPages", page_number 0);
          ("number", page_number 0)])])])].

(** [function getSchemaHAL(schemaResourceItems = {})]. *)
Definition getSchemaHAL (argument : value) : M value :=
  schemaResourceItems <-
    (match argument with
     | VUndefined => build (LObj [])
     | _ => ret argument
     end) ;;
  build (schemaHAL schemaResourceItems).

Variable R : Arithmetic.

Definition generateNumber (min max : value) : M value :=
  if String.eqb (typeof min) "number" && String.eqb (typeof max) "number" then
    if js_le E min max then
      ret (VNum (Math_floor R
                   (number_add R
                      (number_mul R (Math_random R 0)
                         (number_add R
                            (number_sub R (to_number E max) (to_number E min))
                            (num 1)))
                      (to_number E min))))
    else
      ret (VNum (Math_floor R
                   (number_add R
                      (number_mul R (Math_random R 0)
                         (number_add R
                            (number_sub R (to_number E min) (to_number E max))
                            (num 1)))
                      (to_number E max))))
  else
    throw (new_error TypeErrorK
             ("Parameter values must be of type " ++ dq ++ "number" ++ dq
                ++ " for function " ++ dq ++ "generateNumber(min, max)" ++ dq)
             "generateNumber").

Definition characters : string :=
  "ABCDEFGHIJKLMNOPQRSTUVWXYZabcdefghijklmnopqrstuvwxyz".

(** The [for] loop of [generateString], from the counter [i] on; [None]
    when it takes more than [fuel] turns. *)
Fixpoint generateString_loop (fuel : nat) (length : value) (i : nat) (text : string)
  : option string :=
  match fuel with
  | O => None
  | S fuel' =>
      if js_lt E (VNum (num (Z.of_nat i))) length then
        generateString_loop fuel' length (S i)
          (text ++ charAt characters
                     (Math_floor R
                        (number_mul R (Math_random R i)
                           (num (Z.of_nat (String.length characters))))))
      else Some text
  end.

Definition generateString (fuel : nat) (length : value) : M (option string) :=
  if String.eqb (typeof length) "number" then
    ret (generateString_loop fuel length 0 "")
  else
    throw (new_error TypeErrorK
             ("Parameter value must be of type " ++ dq ++ "number" ++ dq
                ++ " for function " ++ dq ++ "generateString(length)" ++ dq)
             "generateString").

End WithHost.
End Loose.

(** ** The earlier functions bundled with the stricter variant

    [commonTest], [commonTestWithoutTime] and [commonTestWithSchema], written
    against postman-bdd like the looser variant. *)

Module Legacy.
Section WithHost.

Variable h : Host.
Local Abbreviation E := (engine h).

Definition commonTest (responseCode contentType time : value) : M unit :=
  (if js_le E (VNum (num 200)) responseCode && js_le E responseCode (VNum (num 399))
   then emit (Test "should be a successful response" [HaveStatus responseCode])
   else if js_le E (VNum (num 400)) responseCode
           && js_le E responseCode (VNum (num 599))
   then emit (Test "should be a unsuccessful response" [HaveStatus responseCode])
   else ret tt) ;;
  (if to_boolean time
   then emit (Test "should respond in a timely manner" [TimeBelow time])
   else ret tt) ;;
  (if to_boolean contentType
   then emit (Test ("should return " ++ to_string E contentType)
                [HaveHeaderValue "Content-Type" contentType])
   else ret tt).

Definition commonTestWithoutTime (responseCode contentType : value) : M unit :=
  (if js_le E (VNum (num 200)) responseCode && js_le E responseCode (VNum (num 399))
   then emit (Test "should be a successful response" [HaveStatus responseCode])
   else if js_le E (VNum (num 400)) responseCode
           && js_le E responseCode (VNum (num 599))
   then emit (Test "should be a unsuccessful response" [HaveStatus responseCode])
   else ret tt) ;;
  (if to_boolean contentType
   then emit (Test ("should return " ++ to_string E contentType)
                [HaveHeaderValue "Content-Type" contentType])
   else ret tt).

Definition commonTestWithSchema (responseCode contentType time jsonSchema : value)
  : M unit :=
  (if js_le E (VNum (num 200)) responseCode && js_le E responseCode (VNum (num 399))
   then emit (Test "should be a successful response" [HaveStatus responseCode])
   else if js_le E (VNum (num 400)) responseCode
           && js_le E responseCode (VNum (num 599))
   then emit (Test "should be a unsuccessful response" [HaveStatus responseCode])
   else ret tt) ;;
  (if to_boolean time
   then emit (Test "should respond in a timely manner" [TimeBelow time])
   else ret tt) ;;
  (if to_boolean contentType
   then emit (Test ("should return " ++ to_string E contentType)
                [HaveHeaderValue "Content-Type" contentType])
   else ret tt) ;;
  (if to_boolean jsonSchema
   then emit (Test "should match against a JSON Schema" [BodyHaveSchema jsonSchema])
   else ret tt).

End WithHost.
End Legacy.

(** ** What a registered assertion checks

    The two assertions the claims speak about, evaluated on the response:
    the status assertion with a numeric expectation and the elapsed-time
    assertion with a numeric bound.  The meaning of the other assertions
    belongs to the assertion library of the host. *)

Definition assertion_holds (h : Host) (a : assertion) : option bool :=
  match a with
  | HaveStatus (VNum n) => Some (number_eq (code (response h)) n)
  | HaveStatus (VStr s) => Some (String.eqb (status (response h)) s)
  | TimeBelow (VNum n) => Some (number_lt (responseTime (response h)) n)
  | ExpectTrue v => Some (strict_equals v (VBool true))
  | _ => None
  end.

(** ** The five assertion functions, by name *)

Inductive assertion_function : Type :=
| CheckStatusCode
| CheckContentType
| CheckTime
| CheckJSONSchema
| CheckLocation.

Definition strict_call (h : Host) (f : assertion_function) : value -> M unit :=
  match f with
  | CheckStatusCode => Strict.checkStatusCode h
  | CheckContentType => Strict.checkContentType
  | CheckTime => Strict.checkTime h
  | CheckJSONSchema => Strict.checkJSONSchema h
  | CheckLocation => Strict.checkLocation
  end.

Definition loose_call (h : Host) (f : assertion_function) : value -> M unit :=
  match f with
  | CheckStatusCode => Loose.checkStatusCode h
  | CheckContentType => Loose.checkContentType h
  | CheckTime => Loose.checkTime h
  | CheckJSONSchema => Loose.checkJSONSchema
  | CheckLocation => Loose.checkLocation h
  end.

(** The kind each function documents for its argument. *)
Definition documented_kind (f : assertion_function) : string :=
  match f with
  | CheckStatusCode | CheckTime => "Number"
  | CheckContentType | CheckLocation => "String"
  | CheckJSONSchema => "Object"
  end.

(** ** A host for closed examples

    The engine prints a number that is a finite decimal by its digits, which
    is what the language does below 10^21, parses decimal integers, and
    knows the methods every object inherits from [Object.prototype]. *)

(** The least [k <= fuel] for which [n * 10^k] is a multiple of [d]. *)
Fixpoint decimal_places (fuel : nat) (n d : Z) : option nat :=
  if (n mod d =? 0)%Z then Some 0%nat
  else match fuel with
       | O => None
       | S fuel' => option_map S (decimal_places fuel' (n * 10) d)
       end.

Fixpoint pad_zeros (width : nat) (s : string) : string :=
  if (width <=? String.length s)%nat then s
  else match width with
       | O => s
       | S w => String "0"%char (pad_zeros w s)
       end.

Definition print_Z (z : Z) : string := NilZero.string_of_int (Z.to_int z).

Definition print_number (n : number) : string :=
  match n with
  | NaN => "NaN"
  | PosInf => "Infinity"
  | NegInf => "-Infinity"
  | Fin q =>
      let n := Qnum q in
      let d := Zpos (Qden q) in
      match decimal_places 20 (Z.abs n) d with
      | Some O => print_Z (n / d)
      | Some k =>
          let scaled := (Z.abs n * 10 ^ Z.of_nat k / d)%Z in
          (if (n <? 0)%Z then "-" else "")
            ++ print_Z (scaled / 10 ^ Z.of_nat k) ++ "."
            ++ pad_zeros k (print_Z (scaled mod 10 ^ Z.of_nat k))
      | None => print_Z (n / d)
      end
  end.

Definition parse_number (s : string) : number :=
  if String.eqb s "" then num 0
  else match NilZero.int_of_string s with
       | Some d => num (Z.of_int d)
       | None => NaN
       end.

Definition Object_prototype_methods : list string :=
  ["constructor"; "hasOwnProperty"; "isPrototypeOf"; "propertyIsEnumerable";
   "toLocaleString"; "toString"; "valueOf"].

Fixpoint position (p : string) (l : list string) (i : nat) : option nat :=
  match l with
  | [] => None
  | x :: rest => if String.eqb x p then Some i else position p rest (S i)
  end.

Definition sample_engine : Engine :=
  mkEngine print_number parse_number
    (fun _ => "function () { [native code] }")
    (fun _ p => match position p Object_prototype_methods 0 with
                | Some i => VFun i
                | None => VUndefined
                end).

Definition sample_response : Response :=
  mkResponse (num 500) "Internal Server Error"
    [("Content-Type", "application/json")] "{}" (VObj 100 []) (num 120).

Definition sample_host : Host :=
  mkHost sample_engine sample_response (fun _ _ => None).

Definition initial_state : state := mkState 1000 [].

(** ** Vocabulary of the properties *)

(** The events a call added to the trace. *)
Definition emitted {A : Type} (st : state) (r : completion A * state) : list event :=
  skipn (List.length (events st)) (events (snd r)).

Definition raises {A : Type} (k : error_kind) (r : completion A * state) : Prop :=
  exists e, fst r = Throw e /\ err_kind e = k.

Definition returns {A : Type} (r : completion A * state) : Prop :=
  exists a, fst r = Normal a.


(** The hundred-buckets of the status codes, with the label each variant
    gives them (stricter, looser). *)
Definition status_buckets : list (Z * Z * string * string) :=
  [(100, 199, "Status Code (Information)", "should be an information response");
   (200, 299, "Status Code (Success)", "should be a successful response");
   (300, 399, "Status Code (Redirection)", "should be a redirection response");
   (400, 499, "Status Code (Client Error)", "should be a client error response");
   (500, 599, "Status Code (Server Error)", "should be a server error response")]%Z.

Definition in_range (lo hi : Z) (c : number) : bool :=
  number_le (num lo) c && number_le c (num hi).

(** A code that falls in one of the buckets. *)
Definition recognised (c : number) : bool :=
  existsb (fun b => match b with (lo, hi, _, _) => in_range lo hi c end) status_buckets.

(** The first bucket that holds [c]. *)
Definition bucket_of (c : number) : option (Z * Z * string * string) :=
  find (fun b => match b with (lo, hi, _, _) => in_range lo hi c end) status_buckets.

(** The statuses taken as infrastructural failures. *)
Definition infrastructure_codes : list Z := [500; 502; 503; 504; 401; 403]%Z.

Definition is_infrastructure_code (c : number) : bool :=
  existsb (fun z => number_eq c (num z)) infrastructure_codes.

(** What the abort loop adds for an expected code [c]. *)
Definition abort_events (h : Host) (c : number) : list event :=
  if negb (number_eq (code (response h)) c)
     && existsb (fun z => number_eq (code (response h)) (num z)) Strict.ERROR_CODES
  then [SetNextRequest VNull] else [].

(** *** Patterns *)

Definition chars (s : string) : list ascii := list_ascii_of_string s.

(** [r] matches the input from position [p] to position [q]. *)
Fixpoint denote (r : regex) (p q : position_in) : Prop :=
  match r with
  | Eps => q = p
  | Atom a =>
      exists c, snd p = c :: snd q /\ atom_matches a c = true /\ fst q = S (fst p)
  | Repeat a lo hi =>
      exists run,
        snd p = (run ++ snd q)%list
        /\ forallb (atom_matches a) run = true
        /\ (lo <= List.length run)%nat
        /\ match hi with Some m => (List.length run <= m)%nat | None => True end
        /\ fst q = (fst p + List.length run)%nat
  | Seq r1 r2 => exists m, denote r1 p m /\ denote r2 m q
  | Alt r1 r2 => denote r1 p q \/ denote r2 p q
  | Group r1 => denote r1 p q
  | NegLookahead r1 => q = p /\ forall m, ~ denote r1 p m
  | Bol => q = p /\ fst p = 0%nat
  | Eol => q = p /\ snd p = []
  end.

(** Some match of [r] starts at [p]. *)
Definition matchable (r : regex) (p : position_in) : Prop := exists q, denote r p q.

(** The characters of [l], one after the other, then [k]. *)
Fixpoint literal_regex (l : list ascii) (k : regex) : regex :=
  match l with
  | [] => k
  | c :: rest => Seq (Atom (AChar c)) (literal_regex rest k)
  end.

Definition optional (c : ascii) : regex := Repeat (AChar c) 0 (Some 1).

(** [[0-9a-zA-Z-]] *)
Definition host_class : atom :=
  AClass false [("0", "9"); ("a", "z"); ("A", "Z"); ("-", "-")]%char.

Definition host_char (c : ascii) : bool := atom_matches host_class c.

(** [[0-9a-zA-Z]] *)
Definition alnum_class : atom :=
  AClass false [("0", "9"); ("a", "z"); ("A", "Z")]%char.

Definition alnum_char (c : ascii) : bool := atom_matches alnum_class c.

(** A hexadecimal digit. *)
Definition hex_char (c : ascii) : bool :=
  existsb (in_char_range c) [("0", "9"); ("a", "f"); ("A", "F")]%char.

(** The patterns for URLs as [new RegExp] reads them. *)
Definition loose_URL : regex :=
  Seq Bol
    (literal_regex (chars "http")
       (Seq (optional "s")
          (literal_regex (chars "://")
             (Seq (Repeat host_class 1 None)
                (Seq (optional ".")
                   (Seq (Repeat host_class 1 None) Eps)))))).

Definition strict_URL : regex :=
  Alt
    (Seq Bol
       (literal_regex (chars "http")
          (Seq (optional "s")
             (literal_regex (chars "://")
                (Seq (Repeat host_class 1 None)
                   (Seq (Atom (AChar "."))
                      (Seq (Repeat host_class 1 None) Eps)))))))
    (literal_regex (chars "http")
       (Seq (optional "s") (literal_regex (chars "://localhost") Eps))).

Definition zero_GUID : string := "00000000-0000-0000-0000-000000000000".

(** [a{n}] *)
Definition exactly (a : atom) (n : nat) : regex := Repeat a n (Some n).

(** The GUID pattern as [new RegExp] reads it. *)
Definition GUID_groups : regex :=
  Seq (exactly alnum_class 8)
    (Seq (Atom (AChar "-"))
       (Seq (exactly alnum_class 4)
          (Seq (Atom (AChar "-"))
             (Seq (exactly alnum_class 4)
                (Seq (Atom (AChar "-"))
                   (Seq (exactly alnum_class 4)
                      (Seq (Atom (AChar "-"))
                         (Seq (exactly alnum_class 12) Eps)))))))).

Definition GUID_regex : regex :=
  Seq Bol
    (Seq (NegLookahead (literal_regex (chars zero_GUID) Eps))
       (Seq (Group GUID_groups) (Seq Eol Eps))).

(** The strings made of five groups of 8, 4, 4, 4 and 12 characters of
    [[0-9a-zA-Z]] joined by hyphens. *)
Definition alnum_group (n : nat) (g : list ascii) : Prop :=
  List.length g = n /\ forallb alnum_char g = true.

Definition alnum_GUID (l : list ascii) : Prop :=
  exists g1 g2 g3 g4 g5,
    l = (g1 ++ "-"%char :: g2 ++ "-"%char :: g3 ++ "-"%char :: g4 ++ "-"%char :: g5)%list
    /\ alnum_group 8 g1 /\ alnum_group 4 g2 /\ alnum_group 4 g3
    /\ alnum_group 4 g4 /\ alnum_group 12 g5.

(** Some match of [r] starts at [p] and ends at a position satisfying
    [P]. *)
Definition reaches (r : regex) (p : position_in) (P : position_in -> Prop) : Prop :=
  exists q, denote r p q /\ P q.

(** Shapes of an input. *)
Definition after_scheme (s t : list ascii) : Prop :=
  s = (chars "http://" ++ t)%list \/ s = (chars "https://" ++ t)%list.

Definition begins_with (l t : list ascii) : Prop := exists rest, t = (l ++ rest)%list.

Definition contains (l s : list ascii) : Prop :=
  exists before rest, s = (before ++ l ++ rest)%list.

(** One or more host characters, a dot, one more host character. *)
Definition dotted_host (t : list ascii) : Prop :=
  exists a c rest,
    a <> [] /\ forallb host_char a = true /\ host_char c = true
    /\ t = (a ++ "."%char :: c :: rest)%list.

(** Two host characters. *)
Definition plain_host (t : list ascii) : Prop :=
  exists c1 c2 rest,
    host_char c1 = true /\ host_char c2 = true /\ t = c1 :: c2 :: rest.

(** The claim about the URL pattern, for one pattern: a string matches
    exactly when it begins with a scheme followed by a host with a dot in
    it, or by localhost. *)
Definition URL_claim (pattern : string) : Prop :=
  forall s : string,
    matches pattern s = Some true
    <-> exists t, after_scheme (chars s) t
                  /\ (In "."%char t \/ begins_with (chars "localhost") t).

(** A canonical GUID: hexadecimal groups of 8, 4, 4, 4 and 12 digits joined
    by hyphens. *)
Definition hex_group (n : nat) (g : list ascii) : bool :=
  (List.length g =? n)%nat && forallb hex_char g.

Definition is_canonical_GUID (s : string) : bool :=
  match chars s with
  | a1 :: a2 :: a3 :: a4 :: a5 :: a6 :: a7 :: a8 :: h1 ::
    b1 :: b2 :: b3 :: b4 :: h2 ::
    c1 :: c2 :: c3 :: c4 :: h3 ::
    d1 :: d2 :: d3 :: d4 :: h4 :: e =>
      forallb hex_char [a1; a2; a3; a4; a5; a6; a7; a8; b1; b2; b3; b4;
                        c1; c2; c3; c4; d1; d2; d3; d4]
      && forallb (Ascii.eqb "-"%char) [h1; h2; h3; h4]
      && hex_group 12 e
  | _ => false
  end.

(** *** Further vocabulary *)

(** [[0-9]] *)
Definition digit_class : atom := AClass false [("0", "9")]%char.

Definition digit_char (c : ascii) : bool := atom_matches digit_class c.

Definition zero_date : string := "0001-01-01T00:00:00Z".

(** The ISO-datetime pattern as [new RegExp] reads it. *)
Definition ISO_body : regex :=
  Seq (exactly digit_class 4)
    (Seq (Atom (AChar "-"))
       (Seq (exactly digit_class 2)
          (Seq (Atom (AChar "-"))
             (Seq (exactly digit_class 2)
                (Seq (Atom (AChar "T"))
                   (Seq (exactly digit_class 2)
                      (Seq (Atom (AChar ":"))
                         (Seq (exactly digit_class 2)
                            (Seq (Atom (AChar ":"))
                               (Seq (exactly digit_class 2)
                                  (Seq (Repeat AAny 0 (Some 1))
                                     (Seq (Repeat digit_class 0 None)
                                        (Seq (Atom (AChar "Z")) Eps))))))))))))).

Definition ISO_regex : regex :=
  Seq Bol
    (Seq (NegLookahead (literal_regex (chars zero_date) Eps))
       (Seq (Group ISO_body) (Seq Eol Eps))).

Definition digit_group (n : nat) (g : list ascii) : Prop :=
  List.length g = n /\ forallb digit_char g = true.

(** Date and time in digits, then at most one character that is not a line
    break, then any number of digits, then [Z]. *)
Definition ISO_datetime (l : list ascii) : Prop :=
  exists y mo d hh mi ss sep frac,
    l = (y ++ "-"%char :: mo ++ "-"%char :: d ++ "T"%char :: hh ++ ":"%char
           :: mi ++ ":"%char :: ss ++ sep ++ frac ++ ["Z"%char])%list
    /\ digit_group 4 y /\ digit_group 2 mo /\ digit_group 2 d
    /\ digit_group 2 hh /\ digit_group 2 mi /\ digit_group 2 ss
    /\ (sep = [] \/ exists c, sep = [c] /\ atom_matches AAny c = true)
    /\ forallb digit_char frac = true.

(** A function name as it can stand in a stack frame: without an opening
    parenthesis and without a line break. *)
Definition plain_name (fname : string) : bool :=
  forallb (fun c => negb (Ascii.eqb c "("%char || Ascii.eqb c LF || Ascii.eqb c CR))
    (chars fname).

(** A computation that leaves the trace as it found it. *)
Definition silent {A : Type} (m : M A) : Prop :=
  forall st, events (snd (m st)) = events st.

(** A computation that only adds to the trace: at most [tests] tests and
    at most [signals] abort signals, and never an address given back. *)
Definition adds {A : Type} (tests signals : nat) (m : M A) : Prop :=
  forall st,
    exists new,
      events (snd (m st)) = (events st ++ new)%list
      /\ (List.length (registered new) <= tests)%nat
      /\ (aborts new <= signals)%nat
      /\ (next_addr st <= next_addr (snd (m st)))%nat.


(** The checks [testCommon] is described to run, in order: the status check
    when a status is supplied, then the three secondary checks that are
    supplied, behind the gate "the response has the expected status" where
    the variant is gated. *)
Definition supplied (f : assertion_function) (v : value)
  : list (assertion_function * value) :=
  if to_boolean v then [(f, v)] else [].

Definition checks_to_run (gated : bool) (h : Host)
           (statusCode contentType jsonSchema location : value)
  : list (assertion_function * value) :=
  (supplied CheckStatusCode statusCode ++
     (if negb gated || strict_equals (VNum (code (response h))) statusCode
      then supplied CheckContentType contentType
             ++ supplied CheckJSONSchema jsonSchema
             ++ supplied CheckLocation location
      else []))%list.

Fixpoint run_checks (call : assertion_function -> value -> M unit)
         (checks : list (assertion_function * value)) : M unit :=
  match checks with
  | [] => ret tt
  | (f, v) :: rest => call f v ;; run_checks call rest
  end.

(** Reading a value down a path of property names. *)
Fixpoint get_path (path : list string) (v : value) : option value :=
  match path with
  | [] => Some v
  | p :: rest =>
      match own_property v p with
      | Some x => get_path rest x
      | None => None
      end
  end.

Definition items_path : list string :=
  ["properties"; "_embedded"; "properties"; "resourceList"; "items"].

(** The top-level keys a schema requires. *)
Definition required_keys (schema : value) : option (list value) :=
  match get_path ["required"] schema with
  | Some (VArr _ keys) => Some keys
  | _ => None
  end.

(** The call returned a schema that requires the three top-level keys and
    whose resource list has [items] as item schema. *)
Definition yields_schema (r : completion value * state) (items : value) : Prop :=
  exists schema,
    fst r = Normal schema
    /\ required_keys schema = Some [VStr "_links"; VStr "_embedded"; VStr "_page"]
    /\ get_path items_path schema = Some items.

(** The claim that an argument which is not an object is refused, for one
    variant of [getSchemaHAL]. *)
Definition refuses_non_object (getSchemaHAL : value -> M value) : Prop :=
  forall (s : value) (st : state),
    s <> VUndefined -> class_of s <> "Object" ->
    raises TypeErrorK (getSchemaHAL s st).

(** [item[p]] for an item that is neither [null] nor [undefined]. *)
Definition property_value (E : Engine) (item : value) (p : string) : value :=
  match own_property item p with
  | Some x => x
  | None => inherited E item p
  end.

(** [i] is the index of the first element of [items] whose property [p]
    is [val], or -1 when there is none. *)
Definition first_match (E : Engine) (items : list value) (p : string) (val : value)
           (i : Z) : Prop :=
  (i = (-1)%Z
   /\ forall x, In x items -> strict_equals (property_value E x p) val = false)
  \/ (exists n x,
         i = Z.of_nat n
         /\ nth_error items n = Some x
         /\ strict_equals (property_value E x p) val = true
         /\ forall m y, (m < n)%nat -> nth_error items m = Some y ->
                        strict_equals (property_value E y p) val = false).

(** The claim that an array with an element that is not of kind Object is
    refused, for one variant of [getIndexObjectInArray]. *)
Definition refuses_other_elements
           (getIndexObjectInArray : Host -> value -> value -> value -> M value) : Prop :=
  forall (h : Host) (a : addr) (items : list value) (p : string) (val : value)
         (st : state),
    (exists x, In x items /\ class_of x <> "Object") ->
    raises TypeErrorK (getIndexObjectInArray h (VArr a items) (VStr p) val st).

(** The index at which [f] first holds, counted from [i]. *)
Fixpoint first_index (f : value -> bool) (items : list value) (i : Z) : Z :=
  match items with
  | [] => (-1)%Z
  | x :: rest => if f x then i else first_index f rest (i + 1)%Z
  end.

Definition is_null (v : value) : bool :=
  match v with VNull => true | _ => false end.

Definition function_name (f : assertion_function) : string :=
  match f with
  | CheckStatusCode => "checkStatusCode"
  | CheckContentType => "checkContentType"
  | CheckTime => "checkTime"
  | CheckJSONSchema => "checkJSONSchema"
  | CheckLocation => "checkLocation"
  end.

(** The names under which the library functions appear in a stack. *)
Definition library_functions : list string :=
  ["getIndexObjectInArray"; "convertTime"; "checkTime"; "checkStatusCode";
   "checkContentType"; "checkJSONSchema"; "checkLocation"; "getSchemaHAL"].

(** *** Stacks, messages and random draws *)

(** The text of [s] before its first line break. *)
Fixpoint first_line (s : string) : string :=
  match s with
  | EmptyString => EmptyString
  | String c rest =>
      if Ascii.eqb c CR || Ascii.eqb c LF then EmptyString
      else String c (first_line rest)
  end.

Definition unbroken (s : string) : bool :=
  forallb (fun c => negb (Ascii.eqb c LF || Ascii.eqb c CR)) (chars s).

(** Spaces and tabs. *)
Definition is_indent (s : string) : bool :=
  forallb (fun c => Ascii.eqb c " "%char || Ascii.eqb c "009"%char) (chars s).

Definition no_parenthesis (s : string) : bool :=
  forallb (fun c => negb (Ascii.eqb c "("%char)) (chars s).


(** The call raised an error of kind [k] with the message [msg]. *)
Definition raises_with {A : Type} (k : error_kind) (msg : string)
           (r : completion A * state) : Prop :=
  exists e, fst r = Throw e /\ err_kind e = k /\ err_message e = msg.

(** A letter of the Latin alphabet. *)
Definition is_letter (c : ascii) : bool :=
  existsb (in_char_range c) [("A", "Z"); ("a", "z")]%char.

(** The first [n] draws of [Math.floor(Math.random() * 52)] are integers
    from 0 to 51, as they are for a [Math.random] that answers in [0, 1). *)
Definition draws_in_alphabet (R : Arithmetic) (n : nat) : Prop :=
  forall k, (k < n)%nat ->
    exists z, Math_floor R (number_mul R (Math_random R k) (num 52)) = num z
              /\ (0 <= z < 52)%Z.

(** * Properties *)

Unset Implicit Arguments.

(** ** Numbers *)

Lemma number_le_Fin (x y : Q) : number_le (Fin x) (Fin y) = Qle_bool x y.
Proof. unfold number_le; simpl. now rewrite negb_involutive. Qed.

Lemma number_le_trans (a b c : number) :
  number_le a b = true -> number_le b c = true -> number_le a c = true.
Proof.
  destruct a as [ | | |x], b as [ | | |y], c as [ | | |z];
    try reflexivity; try discriminate.
  rewrite !number_le_Fin, !Qle_bool_iff. apply Qle_trans.
Qed.

Lemma number_le_lt (a b : number) :
  number_le a b = true -> number_lt b a = false.
Proof.
  unfold number_le. intros H.
  apply andb_true_iff in H as [_ H]. now apply negb_true_iff in H.
Qed.

Lemma in_range_narrow (lo hi lo' hi' : Z) (c : number) :
  (lo' <= lo)%Z -> (hi <= hi')%Z ->
  in_range lo hi c = true -> in_range lo' hi' c = true.
Proof.
  unfold in_range. intros Hlo Hhi H.
  apply andb_true_iff in H as [H1 H2]. apply andb_true_iff. split.
  - apply number_le_trans with (num lo); [|exact H1].
    unfold num. rewrite number_le_Fin, Qle_bool_iff, <- Zle_Qle. exact Hlo.
  - apply number_le_trans with (num hi); [exact H2|].
    unfold num. rewrite number_le_Fin, Qle_bool_iff, <- Zle_Qle. exact Hhi.
Qed.

Lemma in_range_disjoint (lo hi lo' hi' : Z) (c : number) :
  (hi < lo')%Z ->
  in_range lo' hi' c = true -> in_range lo hi c = false.
Proof.
  unfold in_range. intros Hlt H.
  apply andb_true_iff in H as [H1 _].
  destruct (number_le (num lo) c); [simpl|reflexivity].
  destruct (number_le c (num hi)) eqn:H2; [exfalso|reflexivity].
  pose proof (number_le_trans _ _ _ H1 H2) as H.
  unfold num in H. rewrite number_le_Fin, Qle_bool_iff, <- Zle_Qle in H. lia.
Qed.

(** ** Traces *)

Lemma emitted_app {A : Type} (st : state) (x : completion A) (n : addr) (l : list event) :
  emitted st (x, mkState n (events st ++ l)) = l.
Proof.
  unfold emitted; simpl.
  rewrite skipn_app, skipn_all, Nat.sub_diag. reflexivity.
Qed.

Lemma emitted_same {A : Type} (st : state) (x : completion A) (n : addr) :
  emitted st (x, mkState n (events st)) = [].
Proof.
  unfold emitted; simpl. apply skipn_all.
Qed.

(** ** Sequencing *)

Lemma bind_ret {A B : Type} (a : A) (k : A -> M B) (st : state) :
  bind (ret a) k st = k a st.
Proof. reflexivity. Qed.

Lemma bind_emit {B : Type} (ev : event) (k : unit -> M B) (st : state) :
  bind (emit ev) k st = k tt (mkState (next_addr st) (events st ++ [ev])).
Proof. reflexivity. Qed.

(** ** Kinds and names *)

Lemma getType_class (v : value) : Strict.getType v = class_of v.
Proof. destruct v; reflexivity. Qed.

(** The name read back from the stack of an error made inside a library
    function is the name of that function. *)
Lemma getFunctionName_known (fname : string) (a : addr) (st : state) :
  In fname library_functions ->
  Strict.getFunctionNameFromInside (VErr a (new_error ErrorK "" fname)) st
  = (Normal fname, st).
Proof.
  intros H. simpl in H.
  repeat (destruct H as [<- | H]; [reflexivity|]). contradiction.
Qed.

Lemma throw_named_known {A : Type} (k : error_kind) (MESSAGE fname : string) (st : state) :
  In fname library_functions ->
  @Strict.throw_named A k MESSAGE fname st
  = (Throw (new_error k (MESSAGE ++ " " ++ fname) fname),
     mkState (S (next_addr st)) (events st)).
Proof.
  intros H. unfold Strict.throw_named, bind, fresh.
  rewrite getFunctionName_known by exact H. reflexivity.
Qed.

Ltac known_function := simpl; tauto.

(** ** Comparisons between numbers *)

Lemma js_lt_num (E : Engine) (a b : number) : js_lt E (VNum a) (VNum b) = number_lt a b.
Proof. reflexivity. Qed.

Lemma js_gt_num (E : Engine) (a b : number) : js_gt E (VNum a) (VNum b) = number_lt b a.
Proof. reflexivity. Qed.

Lemma js_le_num (E : Engine) (a b : number) : js_le E (VNum a) (VNum b) = number_le a b.
Proof. reflexivity. Qed.

Lemma strict_equals_num (a b : number) : strict_equals (VNum a) (VNum b) = number_eq a b.
Proof. reflexivity. Qed.

Lemma loose_equals_num (E : Engine) (a b : number) :
  loose_equals E (VNum a) (VNum b) = number_eq a b.
Proof. reflexivity. Qed.

(** ** checkTime *)

Lemma strict_checkTime_number (h : Host) (t : number) (st : state) :
  Strict.checkTime h (VNum t) st
  = if number_lt (num 0) t then
      (Normal tt,
       mkState (next_addr st)
         (events st ++
            [Test ("Response Time < " ++
                     (if number_le (num 1000) t
                      then number_to_string (engine h) (number_div t (num 1000)) ++ "s"
                      else number_to_string (engine h) t ++ "ms"))
                  [TimeBelow (VNum t)]]))
    else
      (Throw (new_error RangeErrorK
                (Strict.RANGE_ERROR_MESSAGE ++ " checkTime") "checkTime"),
       mkState (S (next_addr st)) (events st)).
Proof.
  unfold Strict.checkTime. rewrite getType_class, js_gt_num.
  change (String.eqb (class_of (VNum t)) "Number") with true. cbv iota.
  destruct (number_lt (num 0) t).
  - unfold bind, Strict.convertTime. rewrite getType_class, js_le_num. reflexivity.
  - apply throw_named_known. known_function.
Qed.

Lemma loose_checkTime_number (h : Host) (t : number) (st : state) :
  Loose.checkTime h (VNum t) st
  = if number_lt (num 0) t then
      (Normal tt,
       mkState (next_addr st)
         (events st ++
            [Test ("should respond within " ++
                     (if number_le (num 1000) t
                      then number_to_string (engine h) (number_div t (num 1000)) ++ "s"
                      else number_to_string (engine h) t ++ "ms"))
                  [TimeBelow (VNum t)]]))
    else
      (Throw (new_error RangeErrorK
                ("Parameter value must be a strictly positive number for function "
                   ++ dq ++ "checkTime(time)" ++ dq) "checkTime"),
       st).
Proof.
  unfold Loose.checkTime. rewrite js_gt_num.
  destruct (number_lt (num 0) t); [|reflexivity].
  unfold bind, Loose.convertTime. rewrite js_le_num. reflexivity.
Qed.

(** C8. For every number [t]: when [t <= 0], [checkTime(t)] raises a
    RangeError and registers nothing; when [t > 0] it registers exactly one
    test, whose assertion holds exactly when the elapsed time of the
    response is strictly below [t].  Both variants. *)
Theorem checkTime_range (h : Host) (t : number) (st : state) :
  (number_le t (num 0) = true ->
     raises RangeErrorK (Strict.checkTime h (VNum t) st)
     /\ emitted st (Strict.checkTime h (VNum t) st) = []
     /\ raises RangeErrorK (Loose.checkTime h (VNum t) st)
     /\ emitted st (Loose.checkTime h (VNum t) st) = [])
  /\ (number_gt t (num 0) = true ->
        returns (Strict.checkTime h (VNum t) st)
        /\ (exists d, emitted st (Strict.checkTime h (VNum t) st)
                      = [Test d [TimeBelow (VNum t)]])
        /\ returns (Loose.checkTime h (VNum t) st)
        /\ (exists d, emitted st (Loose.checkTime h (VNum t) st)
                      = [Test d [TimeBelow (VNum t)]])
        /\ assertion_holds h (TimeBelow (VNum t))
           = Some (number_lt (responseTime (response h)) t)).
Proof.
  rewrite strict_checkTime_number, loose_checkTime_number. split.
  - intros H. rewrite (number_le_lt _ _ H).
    repeat split.
    + eexists; split; reflexivity.
    + apply emitted_same.
    + eexists; split; reflexivity.
    + destruct st; apply emitted_same.
  - unfold number_gt. intros ->. repeat split.
    + eexists; reflexivity.
    + eexists. apply emitted_app.
    + eexists; reflexivity.
    + eexists. apply emitted_app.
Qed.

(** [checkTime(0)] and [checkTime(-5)] raise a RangeError; [checkTime(500)]
    registers a test asserting an elapsed time below 500. *)
Lemma checkTime_range_witness :
  (number_le (num 0) (num 0) = true
   /\ raises RangeErrorK (Strict.checkTime sample_host (VNum (num 0)) initial_state))
  /\ (number_le (num (-5)) (num 0) = true
      /\ raises RangeErrorK (Loose.checkTime sample_host (VNum (num (-5))) initial_state))
  /\ (number_gt (num 500) (num 0) = true
      /\ exists d, emitted initial_state
                     (Strict.checkTime sample_host (VNum (num 500)) initial_state)
                   = [Test d [TimeBelow (VNum (num 500))]]).
Proof.
  split; [|split].
  - split; [reflexivity|].
    apply (proj1 (checkTime_range sample_host (num 0) initial_state)). reflexivity.
  - split; [reflexivity|].
    apply (proj1 (checkTime_range sample_host (num (-5)) initial_state)). reflexivity.
  - split; [reflexivity|].
    apply (proj2 (checkTime_range sample_host (num 500) initial_state)). reflexivity.
Defined.

(** ** checkStatusCode *)

Lemma abort_on_events (h : Host) (codes : list Z) (st : state) :
  Strict.abort_on h codes st
  = (Normal tt,
     mkState (next_addr st)
       (events st ++
          (if existsb (fun z => number_eq (code (response h)) (num z)) codes
           then [SetNextRequest VNull] else []))).
Proof.
  induction codes as [|c rest IH]; cbn [Strict.abort_on existsb].
  - rewrite app_nil_r. now destruct st.
  - rewrite strict_equals_num.
    destruct (number_eq (code (response h)) (num c)); cbn [orb].
    + reflexivity.
    + exact IH.
Qed.

Lemma strict_checkStatusCode_number (h : Host) (c : number) (st : state) :
  Strict.checkStatusCode h (VNum c) st
  = match bucket_of c with
    | Some (_, _, label, _) =>
        (Normal tt,
         mkState (next_addr st)
           (events st ++ Test label [HaveStatus (VNum c)] :: abort_events h c))
    | None =>
        (Throw (new_error RangeErrorK
                  (Strict.RANGE_ERROR_MESSAGE ++ " checkStatusCode") "checkStatusCode"),
         mkState (S (next_addr st)) (events st))
    end.
Proof.
  unfold Strict.checkStatusCode. rewrite getType_class.
  change (String.eqb (class_of (VNum c)) "Number") with true. cbv iota zeta.
  rewrite !js_le_num, loose_equals_num.
  unfold bucket_of, status_buckets, find.
  fold (in_range 100 199 c) (in_range 200 299 c) (in_range 300 399 c)
       (in_range 400 499 c) (in_range 500 599 c).
  unfold abort_events.
  destruct (in_range 100 199 c); [|destruct (in_range 200 299 c);
    [|destruct (in_range 300 399 c); [|destruct (in_range 400 499 c);
      [|destruct (in_range 500 599 c)]]]];
    try (rewrite bind_ret, bind_emit;
         destruct (negb (number_eq (code (response h)) c)); cbn [andb];
         [rewrite abort_on_events; cbn [events next_addr];
          rewrite <- app_assoc; reflexivity
         |unfold ret; reflexivity]).
  unfold bind. rewrite throw_named_known by known_function. reflexivity.
Qed.

Lemma loose_checkStatusCode_number (h : Host) (c : number) (st : state) :
  Loose.checkStatusCode h (VNum c) st
  = match bucket_of c with
    | Some (_, _, _, label) =>
        (Normal tt,
         mkState (next_addr st) (events st ++ [Test label [HaveStatus (VNum c)]]))
    | None =>
        (Throw (new_error RangeErrorK
                  ("Parameter value must be an existing status code number for function "
                     ++ dq ++ "checkStatusCode(statusCode)" ++ dq) "checkStatusCode"),
         st)
    end.
Proof.
  unfold Loose.checkStatusCode. cbv zeta.
  rewrite !js_le_num.
  unfold bucket_of, status_buckets, find.
  fold (in_range 100 199 c) (in_range 200 299 c) (in_range 300 399 c)
       (in_range 400 499 c) (in_range 500 599 c).
  destruct (in_range 100 199 c); [|destruct (in_range 200 299 c);
    [|destruct (in_range 300 399 c); [|destruct (in_range 400 499 c);
      [|destruct (in_range 500 599 c)]]]]; reflexivity.
Qed.

Lemma bucket_of_in (lo hi : Z) (strict_label loose_label : string) (c : number) :
  In (lo, hi, strict_label, loose_label) status_buckets ->
  in_range lo hi c = true ->
  bucket_of c = Some (lo, hi, strict_label, loose_label).
Proof.
  intros Hin Hc. unfold bucket_of, status_buckets, find. simpl in Hin.
  repeat (destruct Hin as [Heq | Hin];
          [injection Heq as <- <- <- <-;
           repeat match goal with
             | |- context [in_range ?a ?b c] =>
                 first [ rewrite Hc
                       | assert (in_range a b c = false) as ->
                           by (eapply in_range_disjoint; [|exact Hc]; lia) ]
             end;
           reflexivity
          |]).
  contradiction.
Qed.

Lemma bucket_of_outside (c : number) :
  in_range 100 599 c = false -> bucket_of c = None.
Proof.
  intros H. unfold bucket_of, status_buckets, find.
  assert (narrow : forall lo hi, (100 <= lo)%Z -> (hi <= 599)%Z -> in_range lo hi c = false).
  { intros lo hi Hlo Hhi. destruct (in_range lo hi c) eqn:Hc; [|reflexivity].
    rewrite (in_range_narrow _ _ _ _ _ Hlo Hhi Hc) in H. discriminate. }
  rewrite !narrow by lia. reflexivity.
Qed.

Lemma registered_abort_events (h : Host) (c : number) :
  registered (abort_events h c) = [].
Proof. unfold abort_events. now destruct (_ && _). Qed.

(** C2. For every number [c]: when [c] lies in one of the hundred-buckets
    100-199, 200-299, 300-399, 400-499, 500-599, the status-code check
    registers one test labelled by that bucket (Information, Success,
    Redirection, Client Error, Server Error) whose assertion holds exactly
    when the status of the response equals [c]; when [c] lies outside
    [100,599] it raises a RangeError and registers nothing.  Both
    variants. *)
Theorem checkStatusCode_buckets (h : Host) (c : number) (st : state) :
  (forall lo hi strict_label loose_label,
      In (lo, hi, strict_label, loose_label) status_buckets ->
      in_range lo hi c = true ->
      returns (Strict.checkStatusCode h (VNum c) st)
      /\ registered (emitted st (Strict.checkStatusCode h (VNum c) st))
         = [Test strict_label [HaveStatus (VNum c)]]
      /\ returns (Loose.checkStatusCode h (VNum c) st)
      /\ emitted st (Loose.checkStatusCode h (VNum c) st)
         = [Test loose_label [HaveStatus (VNum c)]]
      /\ assertion_holds h (HaveStatus (VNum c))
         = Some (number_eq (code (response h)) c))
  /\ (in_range 100 599 c = false ->
      raises RangeErrorK (Strict.checkStatusCode h (VNum c) st)
      /\ emitted st (Strict.checkStatusCode h (VNum c) st) = []
      /\ raises RangeErrorK (Loose.checkStatusCode h (VNum c) st)
      /\ emitted st (Loose.checkStatusCode h (VNum c) st) = []).
Proof.
  rewrite strict_checkStatusCode_number, loose_checkStatusCode_number. split.
  - intros lo hi strict_label loose_label Hin Hc.
    rewrite (bucket_of_in _ _ _ _ _ Hin Hc). repeat split.
    + eexists; reflexivity.
    + rewrite emitted_app. cbn [registered filter is_test].
      fold (registered (abort_events h c)).
      now rewrite registered_abort_events.
    + eexists; reflexivity.
    + apply emitted_app.
  - intros Hc. rewrite (bucket_of_outside _ Hc). repeat split.
    + eexists; split; reflexivity.
    + apply emitted_same.
    + eexists; split; reflexivity.
    + destruct st; apply emitted_same.
Qed.

(** An expected 204 is labelled as a success; an expected 600 is refused. *)
Lemma checkStatusCode_buckets_witness :
  (In (200, 299, "Status Code (Success)", "should be a successful response")%Z
      status_buckets
   /\ in_range 200 299 (num 204) = true
   /\ registered (emitted initial_state
                    (Strict.checkStatusCode sample_host (VNum (num 204)) initial_state))
      = [Test "Status Code (Success)" [HaveStatus (VNum (num 204))]])
  /\ (in_range 100 599 (num 600) = false
      /\ raises RangeErrorK
           (Strict.checkStatusCode sample_host (VNum (num 600)) initial_state)).
Proof.
  split.
  - assert (Hin : In (200, 299, "Status Code (Success)",
                      "should be a successful response")%Z status_buckets)
      by (simpl; tauto).
    split; [exact Hin|]. split; [reflexivity|].
    apply (proj1 (checkStatusCode_buckets sample_host (num 204) initial_state)
             _ _ _ _ Hin eq_refl).
  - split; [reflexivity|].
    apply (proj2 (checkStatusCode_buckets sample_host (num 600) initial_state) eq_refl).
Defined.

(** ** Arguments of the wrong kind, stricter variant *)

Lemma strict_call_wrong_kind (h : Host) (f : assertion_function) (v : value) (st : state) :
  class_of v <> documented_kind f ->
  strict_call h f v st
  = (Throw (new_error TypeErrorK
              (Strict.TYPE_ERROR_MESSAGE ++ " " ++ function_name f) (function_name f)),
     mkState (S (next_addr st)) (events st)).
Proof.
  intros Hkind.
  destruct f; cbn [strict_call function_name];
    unfold Strict.checkStatusCode, Strict.checkContentType, Strict.checkTime,
      Strict.checkJSONSchema, Strict.checkLocation;
    rewrite getType_class;
    destruct v; cbn [class_of documented_kind] in *;
    try (exfalso; apply Hkind; reflexivity);
    apply throw_named_known; known_function.
Qed.

(** ** The abort signal *)

Lemma recognised_bucket (c : number) :
  recognised c = true -> exists b, bucket_of c = Some b.
Proof.
  unfold recognised, bucket_of.
  induction status_buckets as [|b rest IH]; cbn [existsb find]; [discriminate|].
  destruct b as [[[lo hi] l1] l2].
  destruct (in_range lo hi c); [eauto|exact IH].
Qed.

Lemma ERROR_CODES_infrastructure (c : number) :
  existsb (fun z => number_eq c (num z)) Strict.ERROR_CODES = is_infrastructure_code c.
Proof.
  unfold is_infrastructure_code, Strict.ERROR_CODES, infrastructure_codes.
  cbn [existsb].
  destruct (number_eq c (num 500)), (number_eq c (num 502)), (number_eq c (num 503));
    reflexivity.
Qed.

Lemma is_infrastructure_code_in (c : number) (z : Z) :
  In z infrastructure_codes -> number_eq c (num z) = true ->
  is_infrastructure_code c = true.
Proof.
  intros Hin Heq. unfold is_infrastructure_code.
  apply existsb_exists. exists z. split; assumption.
Qed.

Lemma aborts_abort_events (h : Host) (c : number) :
  aborts (abort_events h c)
  = if negb (number_eq (code (response h)) c)
       && is_infrastructure_code (code (response h))
    then 1%nat else 0%nat.
Proof.
  unfold abort_events. rewrite ERROR_CODES_infrastructure.
  now destruct (_ && _).
Qed.

(** C3. In the stricter variant, for every [c] among 500, 502, 503, 504,
    401, 403: when the check runs for a recognised expected code that
    differs from the status of the response, and that status is [c], the
    abort signal [setNextRequest(null)] is sent exactly once during the
    call; when the status matches the expected value or is not one of these
    codes, the signal is not sent. *)
Theorem abort_signal (h : Host) (st : state) :
  (forall c expected,
      In c infrastructure_codes ->
      recognised expected = true ->
      number_eq (code (response h)) expected = false ->
      number_eq (code (response h)) (num c) = true ->
      aborts (emitted st (Strict.checkStatusCode h (VNum expected) st)) = 1%nat)
  /\ (forall v,
         strict_equals (VNum (code (response h))) v = true
         \/ is_infrastructure_code (code (response h)) = false ->
         aborts (emitted st (Strict.checkStatusCode h v st)) = 0%nat).
Proof.
  split.
  - intros c expected Hin Hrec Hne Hc.
    rewrite strict_checkStatusCode_number.
    destruct (recognised_bucket _ Hrec) as [[[[lo hi] l1] l2] ->].
    rewrite emitted_app.
    change (aborts (abort_events h expected) = 1%nat).
    rewrite aborts_abort_events, Hne, (is_infrastructure_code_in _ _ Hin Hc).
    reflexivity.
  - intros v Hv.
    destruct (String.eqb (class_of v) "Number") eqn:Hkind.
    + destruct v; try discriminate Hkind.
      rewrite strict_checkStatusCode_number.
      destruct (bucket_of n) as [[[[lo hi] l1] l2]|].
      * rewrite emitted_app.
        change (aborts (abort_events h n) = 0%nat).
        rewrite aborts_abort_events.
        destruct Hv as [Hv | Hv].
        -- rewrite strict_equals_num in Hv. now rewrite Hv.
        -- rewrite Hv. now rewrite andb_false_r.
      * now rewrite emitted_same.
    + change (Strict.checkStatusCode h v st) with (strict_call h CheckStatusCode v st).
      rewrite strict_call_wrong_kind.
      * now rewrite emitted_same.
      * intros Heq. cbn [documented_kind] in Heq. rewrite Heq in Hkind. discriminate.
Qed.

(** A response 503 against an expected 200 aborts the run once; a response
    500 against an expected 500 does not. *)
Lemma abort_signal_witness :
  (In 503%Z infrastructure_codes
   /\ recognised (num 200) = true
   /\ number_eq (num 503) (num 200) = false
   /\ number_eq (num 503) (num 503) = true
   /\ aborts (emitted initial_state
                (Strict.checkStatusCode
                   (mkHost sample_engine
                      (mkResponse (num 503) "Service Unavailable" [] "" VNull (num 30))
                      (fun _ _ => None))
                   (VNum (num 200)) initial_state)) = 1%nat)
  /\ (strict_equals (VNum (num 500)) (VNum (num 500)) = true
      /\ aborts (emitted initial_state
                   (Strict.checkStatusCode sample_host (VNum (num 500)) initial_state))
         = 0%nat).
Proof.
  split.
  - assert (Hin : In 503%Z infrastructure_codes) by (simpl; tauto).
    split; [exact Hin|]. repeat (split; [reflexivity|]).
    apply (proj1 (abort_signal
                    (mkHost sample_engine
                       (mkResponse (num 503) "Service Unavailable" [] "" VNull (num 30))
                       (fun _ _ => None))
                    initial_state) 503%Z (num 200) Hin eq_refl eq_refl eq_refl).
  - split; [reflexivity|].
    apply (proj2 (abort_signal sample_host initial_state) (VNum (num 500))).
    left. reflexivity.
Defined.

(** ** One outcome or one error *)







(** ** Arguments of the wrong kind *)



Lemma not_raises_returns {A : Type} (k : error_kind) (r : completion A * state) :
  returns r -> ~ raises k r.
Proof. intros [a Ha] [e [He _]]. rewrite Ha in He. discriminate. Qed.




(** ** testCommon *)

Lemma bind_cong {A B : Type} (m : M A) (k k' : A -> M B) (st : state) :
  (forall a st', k a st' = k' a st') -> bind m k st = bind m k' st.
Proof.
  intros H. unfold bind. destruct (m st) as [[a|e] st']; [apply H|reflexivity].
Qed.

Lemma bind_ret_unit (m : M unit) (st : state) :
  bind m (fun _ => ret tt) st = m st.
Proof. unfold bind, ret. destruct (m st) as [[[]|e] st']; reflexivity. Qed.

Ltac same_sequence :=
  repeat first
         [ reflexivity
         | apply bind_ret_unit
         | symmetry; apply bind_ret_unit
         | rewrite bind_ret
         | apply bind_cong; intros ].

(** C5. For all arguments, [testCommon] logs the body and then runs, in
    order: the status-code check when a status code is supplied (truthy),
    in both variants; and the content-type, JSON-schema and Location checks
    that are supplied, which the stricter variant runs only when the status
    of the response is the expected one and the looser variant runs
    whatever the status. *)
Theorem testCommon_checks
        (h : Host) (statusCode contentType jsonSchema location : value) (st : state) :
  Strict.testCommon h statusCode contentType jsonSchema location st
  = (Strict.logResponseBody h ;;
     run_checks (strict_call h)
       (checks_to_run true h statusCode contentType jsonSchema location)) st
  /\ Loose.testCommon h statusCode contentType jsonSchema location st
     = (Loose.logResponseBody h ;;
        run_checks (loose_call h)
          (checks_to_run false h statusCode contentType jsonSchema location)) st.
Proof.
  unfold Strict.testCommon, Loose.testCommon, checks_to_run, supplied, when_truthy.
  split.
  - destruct (to_boolean statusCode), (to_boolean contentType),
      (to_boolean jsonSchema), (to_boolean location),
      (strict_equals (VNum (code (response h))) statusCode);
      cbn [negb orb app run_checks strict_call]; same_sequence.
  - destruct (to_boolean statusCode), (to_boolean contentType),
      (to_boolean jsonSchema), (to_boolean location);
      cbn [negb orb app run_checks loose_call]; same_sequence.
Qed.

(** ** getSchemaHAL *)

Ltac compute_schema :=
  unfold yields_schema;
  match goal with
  | |- exists schema, fst ?r = Normal schema /\ _ =>
      let v := eval vm_compute in (fst r) in
      match v with
      | Normal ?x => exists x
      end
  end;
  split; [vm_compute; reflexivity|];
  split; vm_compute; reflexivity.

Lemma strict_getSchemaHAL_object (a : addr) (props : list (string * value)) (st : state) :
  yields_schema (Strict.getSchemaHAL (VObj a props) st) (VObj a props).
Proof.
  compute_schema.
Qed.

Lemma strict_getSchemaHAL_default (st : state) :
  yields_schema (Strict.getSchemaHAL VUndefined st) (VObj (next_addr st) []).
Proof.
  compute_schema.
Qed.

Lemma loose_getSchemaHAL_any (s : value) (st : state) :
  s <> VUndefined -> yields_schema (Loose.getSchemaHAL s st) s.
Proof.
  intros Hs. destruct s; try contradiction; compute_schema.
Qed.

Lemma loose_getSchemaHAL_default (st : state) :
  yields_schema (Loose.getSchemaHAL VUndefined st) (VObj (next_addr st) []).
Proof.
  compute_schema.
Qed.

Lemma yields_schema_returns (r : completion value * state) (items : value) :
  yields_schema r items -> returns r.
Proof. intros [schema [H _]]. now exists schema. Qed.

(** The looser variant accepts the number 5 as item schema: the claim
    fails there. *)
Lemma loose_getSchemaHAL_accepts_number : ~ refuses_non_object Loose.getSchemaHAL.
Proof.
  intros H.
  assert (Hr : raises TypeErrorK (Loose.getSchemaHAL (VNum (num 5)) initial_state))
    by (apply H; discriminate).
  revert Hr. apply not_raises_returns.
  apply yields_schema_returns with (VNum (num 5)).
  apply loose_getSchemaHAL_any. discriminate.
Qed.

(** C6, amended. In the stricter variant [getSchemaHAL(s)] raises a
    TypeError when [s] is supplied and is not of kind Object, and for an
    [s] of kind Object returns a schema requiring [_links], [_embedded] and
    [_page] whose [_embedded.properties.resourceList.items] is [s] itself.
    The looser variant never refuses: for every supplied [s], of any kind,
    it returns that schema with [s] as items.  In both variants a missing
    (undefined) argument is replaced by a new empty object. *)
Theorem getSchemaHAL_items :
  refuses_non_object Strict.getSchemaHAL
  /\ (forall s st, class_of s = "Object" -> yields_schema (Strict.getSchemaHAL s st) s)
  /\ (forall s st, s <> VUndefined -> yields_schema (Loose.getSchemaHAL s st) s)
  /\ (forall st, yields_schema (Strict.getSchemaHAL VUndefined st) (VObj (next_addr st) [])
                 /\ yields_schema (Loose.getSchemaHAL VUndefined st)
                      (VObj (next_addr st) [])).
Proof.
  split; [|split; [|split]].
  - intros s st Hs Hkind. unfold Strict.getSchemaHAL.
    destruct s; try contradiction; try (exfalso; apply Hkind; reflexivity);
      rewrite bind_ret, getType_class; cbn [class_of];
      match goal with
      | |- context [String.eqb ?x "Object"] =>
          change (String.eqb x "Object") with false
      end; cbv iota;
      rewrite throw_named_known by known_function;
      (eexists; split; reflexivity).
  - intros s st Hkind. destruct s; try discriminate Hkind.
    apply strict_getSchemaHAL_object.
  - intros s st Hs. apply loose_getSchemaHAL_any. exact Hs.
  - intros st. split.
    + apply strict_getSchemaHAL_default.
    + apply loose_getSchemaHAL_default.
Qed.

(** The stricter variant refuses an array and embeds an object that asks
    for an [id]. *)
Lemma getSchemaHAL_items_witness :
  (VArr 1 [] <> VUndefined /\ class_of (VArr 1 []) <> "Object"
   /\ raises TypeErrorK (Strict.getSchemaHAL (VArr 1 []) initial_state))
  /\ (let s := VObj 1 [("type", VStr "object"); ("required", VArr 2 [VStr "id"])] in
      class_of s = "Object"
      /\ yields_schema (Strict.getSchemaHAL s initial_state) s)
  /\ (VNum (num 5) <> VUndefined
      /\ yields_schema (Loose.getSchemaHAL (VNum (num 5)) initial_state) (VNum (num 5))).
Proof.
  split; [|split].
  - assert (H1 : VArr 1 [] <> VUndefined) by discriminate.
    assert (H2 : class_of (VArr 1 []) <> "Object") by discriminate.
    split; [exact H1|]. split; [exact H2|].
    apply (proj1 getSchemaHAL_items (VArr 1 []) initial_state H1 H2).
  - cbv zeta. split; [reflexivity|].
    apply (proj1 (proj2 getSchemaHAL_items)
             (VObj 1 [("type", VStr "object"); ("required", VArr 2 [VStr "id"])])
             initial_state eq_refl).
  - assert (H1 : VNum (num 5) <> VUndefined) by discriminate.
    split; [exact H1|].
    apply (proj1 (proj2 (proj2 getSchemaHAL_items)) (VNum (num 5)) initial_state H1).
Defined.

(** ** getIndexObjectInArray *)

Lemma findIndex_from_pure (callback : value -> M bool) (f : value -> bool)
      (items : list value) (i : Z) (st : state) :
  (forall x, In x items -> callback x st = (Normal (f x), st)) ->
  findIndex_from callback items i st = (Normal (first_index f items i), st).
Proof.
  revert i. induction items as [|x rest IH]; intros i Hpure.
  - reflexivity.
  - cbn [findIndex_from first_index]. unfold bind.
    rewrite (Hpure x (in_eq x rest)).
    destruct (f x); [reflexivity|].
    apply IH. intros y Hy. apply Hpure. now right.
Qed.

Lemma first_index_none (f : value -> bool) (items : list value) (i : Z) :
  (forall x, In x items -> f x = false) -> first_index f items i = (-1)%Z.
Proof.
  revert i. induction items as [|x rest IH]; intros i Hf; [reflexivity|].
  cbn [first_index]. rewrite (Hf x (in_eq x rest)).
  apply IH. intros y Hy. apply Hf. now right.
Qed.

Lemma first_index_found (f : value -> bool) (items : list value) (i : Z) :
  (exists x, In x items /\ f x = true) ->
  exists n x,
    first_index f items i = (i + Z.of_nat n)%Z
    /\ nth_error items n = Some x
    /\ f x = true
    /\ forall m y, (m < n)%nat -> nth_error items m = Some y -> f y = false.
Proof.
  revert i. induction items as [|x rest IH]; intros i [y [Hy Hfy]].
  - destruct Hy.
  - cbn [first_index]. destruct (f x) eqn:Hfx.
    + exists 0%nat, x. split; [lia|]. split; [reflexivity|]. split; [exact Hfx|].
      intros m z Hm. lia.
    + destruct Hy as [-> | Hy]; [congruence|].
      destruct (IH (i + 1)%Z (ex_intro _ y (conj Hy Hfy))) as [n [z [H1 [H2 [H3 H4]]]]].
      exists (S n), z. split; [rewrite H1; lia|]. split; [exact H2|].
      split; [exact H3|].
      intros m w Hm Hw. destruct m as [|m].
      * cbn in Hw. injection Hw as <-. exact Hfx.
      * apply (H4 m w); [lia|exact Hw].
Qed.

Lemma first_index_first_match (E : Engine) (items : list value) (p : string) (val : value) :
  first_match E items p val
    (first_index (fun x => strict_equals (property_value E x p) val) items 0).
Proof.
  set (f := fun x => strict_equals (property_value E x p) val).
  destruct (existsb f items) eqn:Hex.
  - right. apply existsb_exists in Hex.
    destruct (first_index_found f items 0 Hex) as [n [x [H1 [H2 [H3 H4]]]]].
    exists n, x. split; [rewrite H1; lia|]. split; [exact H2|].
    split; [exact H3|exact H4].
  - assert (Hall : forall x, In x items -> f x = false).
    { intros x Hx. destruct (f x) eqn:Hfx; [|reflexivity].
      assert (Hsome : existsb f items = true)
        by (apply existsb_exists; exists x; split; assumption).
      congruence. }
    left. split; [|exact Hall].
    apply first_index_none. exact Hall.
Qed.

Lemma get_property_defined (E : Engine) (fname : string) (x : value) (p : string)
      (st : state) :
  x <> VUndefined -> x <> VNull ->
  get_property E fname x p st = (Normal (property_value E x p), st).
Proof. intros H1 H2. destruct x; try contradiction; reflexivity. Qed.

Lemma search_result (E : Engine) (fname : string) (items : list value)
      (p : string) (val : value) (st : state) :
  (forall x, In x items -> x <> VUndefined /\ x <> VNull) ->
  exists i,
    bind (findIndex
            (fun item => x <- get_property E fname item p ;; ret (strict_equals x val))
            items)
         (fun i => ret (VNum (num i))) st
    = (Normal (VNum (num i)), st)
    /\ first_match E items p val i.
Proof.
  intros Hitems.
  exists (first_index (fun x => strict_equals (property_value E x p) val) items 0).
  split; [|apply first_index_first_match].
  unfold bind at 1, findIndex.
  rewrite findIndex_from_pure
    with (f := fun x => strict_equals (property_value E x p) val).
  - reflexivity.
  - intros x Hx. destruct (Hitems x Hx) as [H1 H2].
    unfold bind. now rewrite get_property_defined.
Qed.

Lemma forallb_getType (tag : string) (items : list value) :
  forallb (fun item => String.eqb (Strict.getType item) tag) items
  = forallb (fun item => String.eqb (class_of item) tag) items.
Proof.
  induction items as [|x rest IH]; [reflexivity|].
  cbn [forallb]. now rewrite getType_class, IH.
Qed.

Lemma forallb_broken {A : Type} (f : A -> bool) (l : list A) (x : A) :
  In x l -> f x = false -> forallb f l = false.
Proof.
  intros Hin Hf. destruct (forallb f l) eqn:Hall; [|reflexivity].
  rewrite forallb_forall in Hall. rewrite (Hall x Hin) in Hf. discriminate.
Qed.

Lemma strict_index_guard_fails (array property : value) :
  isArray array = false
  \/ (exists x, In x (array_items array) /\ class_of x <> "Object")
  \/ class_of property <> "String" ->
  isArray array
  && forallb (fun item => String.eqb (Strict.getType item) "Object") (array_items array)
  && String.eqb (Strict.getType property) "String" = false.
Proof.
  rewrite forallb_getType, getType_class.
  intros [H | [[x [Hin Hx]] | H]].
  - now rewrite H.
  - rewrite (forallb_broken _ _ x Hin).
    + now rewrite andb_false_r.
    + now apply String.eqb_neq.
  - apply String.eqb_neq in H. rewrite H. apply andb_false_r.
Qed.

Lemma loose_index_guard_fails (array property : value) :
  isArray array = false
  \/ (exists x, In x (array_items array) /\ typeof x <> "object")
  \/ typeof property <> "string" ->
  isArray array
  && forallb (fun item => String.eqb (typeof item) "object") (array_items array)
  && String.eqb (typeof property) "string" = false.
Proof.
  intros [H | [[x [Hin Hx]] | H]].
  - now rewrite H.
  - rewrite (forallb_broken _ _ x Hin).
    + now rewrite andb_false_r.
    + now apply String.eqb_neq.
  - apply String.eqb_neq in H. rewrite H. apply andb_false_r.
Qed.

(** In the looser variant an element that is an array passes the element
    test and is searched: the claim fails there. *)
Lemma loose_index_searches_arrays : ~ refuses_other_elements Loose.getIndexObjectInArray.
Proof.
  intros H.
  assert (Hr : raises TypeErrorK
                 (Loose.getIndexObjectInArray sample_host (VArr 1 [VArr 2 []])
                    (VStr "length") (VNum (num 0)) initial_state)).
  { apply H. exists (VArr 2 []). split; [now left|discriminate]. }
  revert Hr. apply not_raises_returns.
  exists (VNum (num 0)). reflexivity.
Qed.

(** C7, amended. In the stricter variant, for every array whose elements
    are all of kind Object and every string property name,
    [getIndexObjectInArray] returns the index of the first element whose
    named property is the given value, or -1 when there is none; a first
    argument that is not an array, an element of another kind (Null
    included) or a property name that is not a string raises a TypeError.
    The looser variant tests the elements with [typeof]: it returns that
    index for every array of non-null elements whose [typeof] is "object"
    (arrays and errors included), and raises a TypeError for a first
    argument that is not an array, an element whose [typeof] is not
    "object", or a property name that is not a string.  In both,
    [getIndexObjectInArray([{id:1},{id:2}], "id", 2)] is 1 and
    [getIndexObjectInArray([{id:1}], "id", 9)] is -1. *)
Theorem getIndexObjectInArray_first_match :
  (forall h a items p val st,
      forallb (fun x => String.eqb (class_of x) "Object") items = true ->
      exists i,
        Strict.getIndexObjectInArray h (VArr a items) (VStr p) val st
        = (Normal (VNum (num i)), st)
        /\ first_match (engine h) items p val i)
  /\ (forall h array property val st,
         isArray array = false
         \/ (exists x, In x (array_items array) /\ class_of x <> "Object")
         \/ class_of property <> "String" ->
         raises TypeErrorK (Strict.getIndexObjectInArray h array property val st))
  /\ (forall h a items p val st,
         forallb (fun x => String.eqb (typeof x) "object" && negb (is_null x)) items
         = true ->
         exists i,
           Loose.getIndexObjectInArray h (VArr a items) (VStr p) val st
           = (Normal (VNum (num i)), st)
           /\ first_match (engine h) items p val i)
  /\ (forall h array property val st,
         isArray array = false
         \/ (exists x, In x (array_items array) /\ typeof x <> "object")
         \/ typeof property <> "string" ->
         raises TypeErrorK (Loose.getIndexObjectInArray h array property val st))
  /\ (forall h st,
         let one := VObj 2 [("id", VNum (num 1))] in
         let two := VObj 3 [("id", VNum (num 2))] in
         Strict.getIndexObjectInArray h (VArr 1 [one; two]) (VStr "id") (VNum (num 2)) st
         = (Normal (VNum (num 1)), st)
         /\ Strict.getIndexObjectInArray h (VArr 1 [one]) (VStr "id") (VNum (num 9)) st
            = (Normal (VNum (num (-1))), st)
         /\ Loose.getIndexObjectInArray h (VArr 1 [one; two]) (VStr "id") (VNum (num 2)) st
            = (Normal (VNum (num 1)), st)
         /\ Loose.getIndexObjectInArray h (VArr 1 [one]) (VStr "id") (VNum (num 9)) st
            = (Normal (VNum (num (-1))), st)).
Proof.
  split; [|split; [|split; [|split]]].
  - intros h a items p val st Hall.
    unfold Strict.getIndexObjectInArray.
    rewrite forallb_getType, getType_class. cbn [isArray array_items class_of].
    rewrite Hall. cbn [andb String.eqb Ascii.eqb Bool.eqb].
    apply search_result. intros x Hx.
    rewrite forallb_forall in Hall. specialize (Hall x Hx).
    destruct x; try discriminate Hall; split; discriminate.
  - intros h array property val st Hbad.
    unfold Strict.getIndexObjectInArray.
    rewrite (strict_index_guard_fails _ _ Hbad).
    rewrite throw_named_known by known_function.
    eexists; split; reflexivity.
  - intros h a items p val st Hall.
    unfold Loose.getIndexObjectInArray. cbn [isArray array_items typeof].
    assert (Htypeof : forallb (fun item => String.eqb (typeof item) "object") items = true).
    { apply forallb_forall. intros x Hx.
      rewrite forallb_forall in Hall. specialize (Hall x Hx).
      now apply andb_true_iff in Hall. }
    rewrite Htypeof. cbn [andb String.eqb Ascii.eqb Bool.eqb].
    apply search_result. intros x Hx.
    rewrite forallb_forall in Hall. specialize (Hall x Hx).
    destruct x; try discriminate Hall; split; discriminate.
  - intros h array property val st Hbad.
    unfold Loose.getIndexObjectInArray.
    rewrite (loose_index_guard_fails _ _ Hbad).
    eexists; split; reflexivity.
  - intros h st. cbv zeta. repeat split; reflexivity.
Qed.

(** An array of two objects is searched by both variants; the stricter
    variant refuses an array that holds [null]. *)
Lemma getIndexObjectInArray_first_match_witness :
  (let items := [VObj 2 [("id", VNum (num 1))]; VObj 3 [("id", VNum (num 2))]] in
   forallb (fun x => String.eqb (class_of x) "Object") items = true
   /\ exists i,
       Strict.getIndexObjectInArray sample_host (VArr 1 items) (VStr "id")
         (VNum (num 2)) initial_state
       = (Normal (VNum (num i)), initial_state)
       /\ first_match (engine sample_host) items "id" (VNum (num 2)) i)
  /\ ((isArray (VArr 1 [VNull]) = false
       \/ (exists x, In x (array_items (VArr 1 [VNull])) /\ class_of x <> "Object")
       \/ class_of (VStr "id") <> "String")
      /\ raises TypeErrorK
           (Strict.getIndexObjectInArray sample_host (VArr 1 [VNull]) (VStr "id")
              (VNum (num 2)) initial_state))
  /\ (let items := [VArr 2 []; VObj 3 [("length", VNum (num 0))]] in
      forallb (fun x => String.eqb (typeof x) "object" && negb (is_null x)) items = true
      /\ exists i,
          Loose.getIndexObjectInArray sample_host (VArr 1 items) (VStr "length")
            (VNum (num 0)) initial_state
          = (Normal (VNum (num i)), initial_state)
          /\ first_match (engine sample_host) items "length" (VNum (num 0)) i)
  /\ ((isArray (VNum (num 3)) = false
       \/ (exists x, In x (array_items (VNum (num 3))) /\ typeof x <> "object")
       \/ typeof (VStr "id") <> "string")
      /\ raises TypeErrorK
           (Loose.getIndexObjectInArray sample_host (VNum (num 3)) (VStr "id")
              (VNum (num 2)) initial_state)).
Proof.
  split; [|split; [|split]].
  - cbv zeta. split; [reflexivity|].
    apply (proj1 getIndexObjectInArray_first_match sample_host 1%nat
             [VObj 2 [("id", VNum (num 1))]; VObj 3 [("id", VNum (num 2))]]
             "id" (VNum (num 2)) initial_state eq_refl).
  - assert (Hbad : isArray (VArr 1 [VNull]) = false
                   \/ (exists x, In x (array_items (VArr 1 [VNull]))
                                 /\ class_of x <> "Object")
                   \/ class_of (VStr "id") <> "String").
    { right; left. exists VNull. split; [now left|discriminate]. }
    split; [exact Hbad|].
    apply (proj1 (proj2 getIndexObjectInArray_first_match) sample_host
             (VArr 1 [VNull]) (VStr "id") (VNum (num 2)) initial_state Hbad).
  - cbv zeta. split; [reflexivity|].
    apply (proj1 (proj2 (proj2 getIndexObjectInArray_first_match)) sample_host 1%nat
             [VArr 2 []; VObj 3 [("length", VNum (num 0))]]
             "length" (VNum (num 0)) initial_state eq_refl).
  - assert (Hbad : isArray (VNum (num 3)) = false
                   \/ (exists x, In x (array_items (VNum (num 3)))
                                 /\ typeof x <> "object")
                   \/ typeof (VStr "id") <> "string") by (now left).
    split; [exact Hbad|].
    apply (proj1 (proj2 (proj2 (proj2 getIndexObjectInArray_first_match))) sample_host
             (VNum (num 3)) (VStr "id") (VNum (num 2)) initial_state Hbad).
Defined.

(** ** Patterns: the matcher computes the denotation *)

Lemma runs_nth (a : atom) (s : list ascii) (i k : nat) (q : position_in) :
  nth_error (runs a i s) k = Some q
  <-> exists run,
        List.length run = k
        /\ s = (run ++ snd q)%list
        /\ forallb (atom_matches a) run = true
        /\ fst q = (i + k)%nat.
Proof.
  revert i k. induction s as [|c rest IH]; intros i k.
  - destruct k as [|k]; cbn [runs nth_error].
    + split.
      * intros [= <-]. exists []. cbn. repeat split. lia.
      * intros [run [Hlen [Hs [_ Hq]]]].
        destruct run; [|discriminate]. destruct q as [j t]. cbn in *.
        subst. f_equal. f_equal. lia.
    + split.
      * destruct k; discriminate.
      * intros [run [Hlen [Hs _]]]. destruct run; discriminate.
  - destruct k as [|k]; cbn [runs nth_error].
    + split.
      * intros [= <-]. exists []. cbn. repeat split. lia.
      * intros [run [Hlen [Hs [_ Hq]]]].
        destruct run; [|discriminate]. destruct q as [j t]. cbn in *.
        subst. f_equal. f_equal. lia.
    + destruct (atom_matches a c) eqn:Hc.
      * rewrite IH. split.
        -- intros [run [Hlen [Hs [Hall Hq]]]]. exists (c :: run). cbn.
           rewrite Hc, Hall, Hlen, Hs. repeat split. lia.
        -- intros [run [Hlen [Hs [Hall Hq]]]].
           destruct run as [|d run]; [discriminate|].
           cbn in Hs, Hall, Hlen. injection Hs as <- Hs.
           apply andb_true_iff in Hall as [_ Hall].
           exists run. repeat split; try assumption; lia.
      * split.
        -- destruct k; discriminate.
        -- intros [run [Hlen [Hs [Hall Hq]]]].
           destruct run as [|d run]; [discriminate|].
           cbn in Hs, Hall. injection Hs as <- Hs.
           rewrite Hc in Hall. discriminate.
Qed.

Lemma in_bounded {A : Type} (l : list A) (lo : nat) (hi : option nat) (x : A) :
  In x (rev (skipn lo match hi with Some m => firstn (S m) l | None => l end))
  <-> exists k, nth_error l k = Some x
                /\ (lo <= k)%nat
                /\ match hi with Some m => (k <= m)%nat | None => True end.
Proof.
  rewrite <- in_rev. split.
  - intros Hin. apply In_nth_error in Hin as [j Hj].
    rewrite nth_error_skipn in Hj. exists (lo + j)%nat.
    destruct hi as [m|].
    + rewrite nth_error_firstn in Hj.
      destruct (Nat.ltb_spec (lo + j) (S m)); [|discriminate].
      repeat split; [exact Hj|lia|lia].
    + repeat split; [exact Hj|lia].
  - intros [k [Hk [Hlo Hhi]]].
    apply nth_error_In with (n := (k - lo)%nat).
    rewrite nth_error_skipn. replace (lo + (k - lo))%nat with k by lia.
    destruct hi as [m|]; [|exact Hk].
    rewrite nth_error_firstn.
    destruct (Nat.ltb_spec k (S m)); [exact Hk|lia].
Qed.

Lemma ends_denote (r : regex) :
  forall p q, In q (ends r p) <-> denote r p q.
Proof.
  induction r as [ |a|a lo hi|r1 IH1 r2 IH2|r1 IH1 r2 IH2|r1 IH1|r1 IH1| | ];
    intros p q; cbn [ends denote].
  - split; [intros [<-|[]]; reflexivity|intros ->; now left].
  - destruct p as [i s]. cbn [fst snd]. destruct s as [|c rest].
    + split; [intros []|intros [c [H _]]; discriminate].
    + destruct (atom_matches a c) eqn:Hc.
      * split.
        -- intros [<-|[]]. exists c. now repeat split.
        -- intros [d [Hs [Hd Hq]]]. destruct q as [j t]. cbn in *.
           injection Hs as <- <-. left. now subst.
      * split; [intros []|].
        intros [d [Hs [Hd _]]]. injection Hs as <- _. congruence.
  - rewrite in_bounded. split.
    + intros [k [Hk [Hlo Hhi]]]. apply runs_nth in Hk as [run [Hlen [Hs [Hall Hq]]]].
      exists run. subst k. repeat split; try assumption.
    + intros [run [Hs [Hall [Hlo [Hhi Hq]]]]].
      exists (List.length run). split; [|split; assumption].
      apply runs_nth. exists run. repeat split; assumption.
  - rewrite in_flat_map. split.
    + intros [m [H1 H2]]. exists m. split; [now apply IH1|now apply IH2].
    + intros [m [H1 H2]]. exists m. split; [now apply IH1|now apply IH2].
  - rewrite in_app_iff, IH1, IH2. reflexivity.
  - apply IH1.
  - destruct (ends r1 p) as [|m rest] eqn:He.
    + split.
      * intros [<-|[]]. split; [reflexivity|].
        intros m Hm. apply IH1 in Hm. rewrite He in Hm. destruct Hm.
      * intros [-> _]. now left.
    + split; [intros []|].
      intros [_ Hno]. apply (Hno m). apply IH1. rewrite He. now left.
  - destruct (Nat.eqb_spec (fst p) 0).
    + split; [intros [<-|[]]; now split|intros [-> _]; now left].
    + split; [intros []|intros [_ H]; contradiction].
  - destruct (snd p) eqn:Hs.
    + split; [intros [<-|[]]; now split|intros [-> _]; now left].
    + split; [intros []|intros [_ H]; discriminate].
Qed.

Lemma can_match_matchable (r : regex) (p : position_in) :
  can_match r p = true <-> matchable r p.
Proof.
  unfold can_match, matchable. destruct (ends r p) as [|q rest] eqn:He.
  - split; [discriminate|].
    intros [q Hq]. apply ends_denote in Hq. rewrite He in Hq. destruct Hq.
  - split; [|reflexivity].
    intros _. exists q. apply ends_denote. rewrite He. now left.
Qed.

Lemma in_positions (s : list ascii) (i : nat) (p : position_in) :
  In p (positions i s)
  <-> exists before, s = (before ++ snd p)%list /\ fst p = (i + List.length before)%nat.
Proof.
  revert i. induction s as [|c rest IH]; intros i; cbn [positions In].
  - split.
    + intros [<-|[]]. exists []. cbn. split; [reflexivity|lia].
    + intros [before [Hs Hp]]. left.
      destruct before; [|discriminate]. destruct p as [j t]. cbn in *.
      subst. f_equal. lia.
  - rewrite IH. split.
    + intros [<-|[before [Hs Hp]]].
      * exists []. cbn. split; [reflexivity|lia].
      * exists (c :: before). cbn. rewrite Hs. split; [reflexivity|lia].
    + intros [before [Hs Hp]]. destruct before as [|d before].
      * left. destruct p as [j t]. cbn in *. subst. f_equal. lia.
      * right. cbn in Hs. injection Hs as <- Hs.
        exists before. split; [exact Hs|]. cbn in Hp. lia.
Qed.

(** [test] succeeds exactly when a match starts somewhere in the input. *)
Lemma test_matchable (r : regex) (s : list ascii) :
  test r s = true
  <-> exists before rest,
        s = (before ++ rest)%list /\ matchable r (List.length before, rest).
Proof.
  unfold test. rewrite existsb_exists. split.
  - intros [[i t] [Hin Hm]]. apply in_positions in Hin as [before [Hs Hi]].
    cbn in Hs, Hi. subst i. exists before, t. split; [exact Hs|].
    now apply can_match_matchable.
  - intros [before [rest [Hs Hm]]]. exists (List.length before, rest). split.
    + apply in_positions. exists before. now split.
    + now apply can_match_matchable.
Qed.

(** ** Patterns: building blocks *)

Lemma matchable_seq (r k : regex) (p : position_in) :
  matchable (Seq r k) p <-> exists m, denote r p m /\ matchable k m.
Proof.
  unfold matchable. cbn [denote]. split.
  - intros [q [m [H1 H2]]]. exists m. split; [exact H1|now exists q].
  - intros [m [H1 [q H2]]]. exists q, m. now split.
Qed.

Lemma matchable_eps (p : position_in) : matchable Eps p.
Proof. now exists p. Qed.

Lemma matchable_literal (l : list ascii) (k : regex) (i : nat) (s : list ascii) :
  matchable (literal_regex l k) (i, s)
  <-> exists rest, s = (l ++ rest)%list /\ matchable k ((i + List.length l)%nat, rest).
Proof.
  revert i s. induction l as [|c l IH]; intros i s; cbn [literal_regex].
  - cbn [app List.length]. rewrite Nat.add_0_r. split.
    + intros H. now exists s.
    + intros [rest [-> H]]. exact H.
  - rewrite matchable_seq. split.
    + intros [[j t] [[d [Hs [Hd Hj]]] Hk]]. cbn in Hs, Hd, Hj.
      apply Ascii.eqb_eq in Hd. subst d j.
      apply IH in Hk as [rest [-> Hk]].
      exists rest. split; [now rewrite Hs|].
      cbn [List.length]. now rewrite Nat.add_succ_r.
    + intros [rest [-> Hk]]. exists (S i, (l ++ rest)%list). split.
      * exists c. cbn. rewrite Ascii.eqb_refl. now repeat split.
      * apply IH. exists rest. split; [reflexivity|].
        cbn [List.length] in Hk. now rewrite Nat.add_succ_r in Hk.
Qed.

Lemma denote_optional (c : ascii) (i : nat) (s : list ascii) (q : position_in) :
  denote (optional c) (i, s) q
  <-> q = (i, s) \/ (exists rest, s = c :: rest /\ q = (S i, rest)).
Proof.
  unfold optional. cbn [denote fst snd]. split.
  - intros [run [Hs [Hall [_ [Hhi Hq]]]]]. destruct q as [j t]. cbn in *.
    destruct run as [|d run].
    + left. cbn in *. subst. f_equal. lia.
    + destruct run; [|cbn in Hhi; lia]. right.
      cbn in Hall. rewrite andb_true_r in Hall. apply Ascii.eqb_eq in Hall. subst d.
      exists t. cbn in *. subst. split; [reflexivity|]. f_equal. lia.
  - intros [->|[rest [-> ->]]].
    + exists []. cbn. repeat split; lia.
    + exists [c]. cbn. rewrite Ascii.eqb_refl. repeat split; lia.
Qed.

Lemma matchable_optional (c : ascii) (k : regex) (i : nat) (s : list ascii) :
  matchable (Seq (optional c) k) (i, s)
  <-> matchable k (i, s) \/ (exists rest, s = c :: rest /\ matchable k (S i, rest)).
Proof.
  rewrite matchable_seq. split.
  - intros [m [Hm Hk]]. apply denote_optional in Hm as [->|[rest [-> ->]]].
    + now left.
    + right. now exists rest.
  - intros [Hk|[rest [-> Hk]]].
    + exists (i, s). split; [apply denote_optional; now left|exact Hk].
    + exists (S i, rest). split; [|exact Hk].
      apply denote_optional. right. now exists rest.
Qed.

Lemma denote_some (a : atom) (i : nat) (s : list ascii) (q : position_in) :
  denote (Repeat a 1 None) (i, s) q
  <-> exists run,
        run <> []
        /\ forallb (atom_matches a) run = true
        /\ s = (run ++ snd q)%list
        /\ fst q = (i + List.length run)%nat.
Proof.
  cbn [denote fst snd]. split.
  - intros [run [Hs [Hall [Hlo [_ Hq]]]]]. exists run. repeat split; try assumption.
    intros ->. cbn in Hlo. lia.
  - intros [run [Hne [Hall [Hs Hq]]]]. exists run. repeat split; try assumption.
    destruct run; [contradiction|cbn; lia].
Qed.

Lemma matchable_atom (a : atom) (k : regex) (i : nat) (s : list ascii) :
  matchable (Seq (Atom a) k) (i, s)
  <-> exists c rest, s = c :: rest /\ atom_matches a c = true /\ matchable k (S i, rest).
Proof.
  rewrite matchable_seq. cbn [denote fst snd]. split.
  - intros [[j t] [[c [Hs [Hc Hj]]] Hk]]. cbn in *. subst j.
    exists c, t. now repeat split.
  - intros [c [rest [-> [Hc Hk]]]]. exists (S i, rest). split; [|exact Hk].
    exists c. now repeat split.
Qed.

Lemma matchable_bol (k : regex) (i : nat) (s : list ascii) :
  matchable (Seq Bol k) (i, s) <-> i = 0%nat /\ matchable k (0%nat, s).
Proof.
  rewrite matchable_seq. cbn [denote fst snd]. split.
  - intros [m [[-> Hi] Hk]]. cbn in Hi. subst i. now split.
  - intros [-> Hk]. exists (0%nat, s). now repeat split.
Qed.

Lemma denote_some_one (a : atom) (c : ascii) (i : nat) (rest : list ascii) :
  atom_matches a c = true ->
  denote (Repeat a 1 None) (i, c :: rest) (S i, rest).
Proof.
  intros Hc. apply denote_some. exists [c]. cbn [forallb snd fst List.length app].
  rewrite Hc. repeat split; [discriminate|lia].
Qed.

(** What follows the scheme in the looser pattern. *)
Lemma matchable_loose_host (i : nat) (t : list ascii) :
  matchable (Seq (Repeat host_class 1 None)
               (Seq (optional ".") (Seq (Repeat host_class 1 None) Eps))) (i, t)
  <-> dotted_host t \/ plain_host t.
Proof.
  rewrite matchable_seq. split.
  - intros [[j u] [Ha Hrest]].
    apply denote_some in Ha as [a [Hne [Hall [Ht _]]]]. cbn [snd] in Ht.
    apply matchable_optional in Hrest.
    assert (Hb : forall n w, matchable (Seq (Repeat host_class 1 None) Eps) (n, w) ->
                             exists c rest, host_char c = true /\ w = c :: rest).
    { intros n w Hw. apply matchable_seq in Hw as [[n' w'] [Hb _]].
      apply denote_some in Hb as [b [Hbne [Hball [Hw _]]]]. cbn [snd] in Hw.
      destruct b as [|c b]; [contradiction|].
      cbn in Hball. apply andb_true_iff in Hball as [Hc _].
      exists c, (b ++ w')%list. now split. }
    destruct Hrest as [Hrest|[rest [-> Hrest]]].
    + apply Hb in Hrest as [c [rest [Hc ->]]].
      right. destruct a as [|c1 a]; [contradiction|].
      cbn in Hall. apply andb_true_iff in Hall as [Hc1 Hall].
      destruct a as [|c2 a].
      * exists c1, c, rest. now repeat split.
      * cbn in Hall. apply andb_true_iff in Hall as [Hc2 _].
        exists c1, c2, (a ++ c :: rest)%list. now repeat split.
    + apply Hb in Hrest as [c [rest' [Hc ->]]].
      left. exists a, c, rest'. now repeat split.
  - intros [[a [c [rest [Hne [Hall [Hc ->]]]]]]|[c1 [c2 [rest [Hc1 [Hc2 ->]]]]]].
    + exists ((i + List.length a)%nat, "."%char :: c :: rest). split.
      * apply denote_some. exists a. now repeat split.
      * apply matchable_optional. right. exists (c :: rest). split; [reflexivity|].
        apply matchable_seq. exists (S (S (i + List.length a)), rest).
        split; [|apply matchable_eps].
        now apply denote_some_one.
    + exists (S i, c2 :: rest). split.
      * now apply denote_some_one.
      * apply matchable_optional. left.
        apply matchable_seq. exists (S (S i), rest). split; [|apply matchable_eps].
        now apply denote_some_one.
Qed.

(** What follows the scheme in the first alternative of the stricter
    pattern. *)
Lemma matchable_strict_host (i : nat) (t : list ascii) :
  matchable (Seq (Repeat host_class 1 None)
               (Seq (Atom (AChar ".")) (Seq (Repeat host_class 1 None) Eps))) (i, t)
  <-> dotted_host t.
Proof.
  rewrite matchable_seq. split.
  - intros [[j u] [Ha Hrest]].
    apply denote_some in Ha as [a [Hne [Hall [Ht _]]]]. cbn [snd] in Ht.
    apply matchable_atom in Hrest as [d [rest [-> [Hd Hrest]]]].
    cbn [atom_matches] in Hd. apply Ascii.eqb_eq in Hd. subst d.
    apply matchable_seq in Hrest as [[n' w'] [Hb _]].
    apply denote_some in Hb as [b [Hbne [Hball [Hw _]]]]. cbn [snd] in Hw.
    destruct b as [|c b]; [contradiction|].
    cbn in Hball. apply andb_true_iff in Hball as [Hc _].
    exists a, c, (b ++ w')%list. subst. now repeat split.
  - intros [a [c [rest [Hne [Hall [Hc ->]]]]]].
    exists ((i + List.length a)%nat, "."%char :: c :: rest). split.
    + apply denote_some. exists a. now repeat split.
    + apply matchable_atom. exists "."%char, (c :: rest).
      split; [reflexivity|]. split; [reflexivity|].
      apply matchable_seq. exists (S (S (i + List.length a)), rest).
      split; [|apply matchable_eps].
      now apply denote_some_one.
Qed.

(** The scheme, [http] then an optional [s] then [://], before [k]. *)
Lemma matchable_scheme (k : regex) (i : nat) (s : list ascii) :
  matchable (literal_regex (chars "http")
               (Seq (optional "s") (literal_regex (chars "://") k))) (i, s)
  <-> (exists t, s = (chars "http://" ++ t)%list /\ matchable k ((i + 7)%nat, t))
      \/ (exists t, s = (chars "https://" ++ t)%list /\ matchable k ((i + 8)%nat, t)).
Proof.
  rewrite matchable_literal. split.
  - intros [rest [-> H]]. apply matchable_optional in H as [H|[rest' [-> H]]].
    + apply matchable_literal in H as [t [-> H]].
      left. exists t. split; [reflexivity|].
      cbn [chars list_ascii_of_string List.length] in H.
      now replace (i + 7)%nat with (i + 4 + 3)%nat by lia.
    + apply matchable_literal in H as [t [-> H]].
      right. exists t. split; [reflexivity|].
      cbn [chars list_ascii_of_string List.length] in H.
      now replace (i + 8)%nat with (S (i + 4) + 3)%nat by lia.
  - intros [[t [-> H]]|[t [-> H]]].
    + exists (chars "://" ++ t)%list. split; [reflexivity|].
      apply matchable_optional. left. apply matchable_literal.
      exists t. split; [reflexivity|].
      cbn [chars list_ascii_of_string List.length].
      now replace (i + 4 + 3)%nat with (i + 7)%nat by lia.
    + exists (chars "s://" ++ t)%list. split; [reflexivity|].
      apply matchable_optional. right. exists (chars "://" ++ t)%list.
      split; [reflexivity|]. apply matchable_literal.
      exists t. split; [reflexivity|].
      cbn [chars list_ascii_of_string List.length].
      now replace (S (i + 4) + 3)%nat with (i + 8)%nat by lia.
Qed.

(** ** The URL patterns *)

Lemma compile_loose_URL : compile Loose.getRegexURL = Some loose_URL.
Proof. vm_compute. reflexivity. Qed.

Lemma compile_strict_URL : compile Strict.getRegexURL = Some strict_URL.
Proof. vm_compute. reflexivity. Qed.

Lemma matches_compiled (pattern : string) (r : regex) (s : string) :
  compile pattern = Some r ->
  (matches pattern s = Some true <-> test r (chars s) = true).
Proof.
  intros H. unfold matches. rewrite H. fold (chars s). split.
  - now intros [= ->].
  - now intros ->.
Qed.

Lemma matches_loose_URL (s : string) :
  matches Loose.getRegexURL s = Some true
  <-> exists t, after_scheme (chars s) t /\ (dotted_host t \/ plain_host t).
Proof.
  rewrite (matches_compiled _ _ s compile_loose_URL), test_matchable.
  unfold loose_URL. split.
  - intros [before [rest [Hs Hm]]].
    apply matchable_bol in Hm as [Hlen Hm].
    destruct before; [|discriminate Hlen]. cbn [app] in Hs. subst rest.
    apply matchable_scheme in Hm as [[t [Ht Hm]]|[t [Ht Hm]]];
      apply matchable_loose_host in Hm; exists t; split; try assumption.
    + now left.
    + now right.
  - intros [t [Hscheme Hhost]]. exists [], (chars s). split; [reflexivity|].
    apply matchable_bol. split; [reflexivity|].
    apply matchable_scheme.
    destruct Hscheme as [Ht|Ht]; [left|right]; exists t; (split; [exact Ht|]);
      now apply matchable_loose_host.
Qed.

Lemma matchable_alt (r1 r2 : regex) (p : position_in) :
  matchable (Alt r1 r2) p <-> matchable r1 p \/ matchable r2 p.
Proof.
  unfold matchable. cbn [denote]. split.
  - intros [q [H|H]]; [left|right]; now exists q.
  - intros [[q H]|[q H]]; exists q; [now left|now right].
Qed.

(** The second alternative of the stricter pattern, which no [^] anchors:
    a scheme and [localhost], wherever the match starts. *)
Lemma matchable_localhost (i : nat) (s : list ascii) :
  matchable (literal_regex (chars "http")
               (Seq (optional "s") (literal_regex (chars "://localhost") Eps))) (i, s)
  <-> exists t, after_scheme s t /\ begins_with (chars "localhost") t.
Proof.
  change (literal_regex (chars "://localhost") Eps)
    with (literal_regex (chars "://") (literal_regex (chars "localhost") Eps)).
  rewrite matchable_scheme. split.
  - intros [[t [Ht Hm]]|[t [Ht Hm]]];
      apply matchable_literal in Hm as [rest [Hrest _]]; exists t; split.
    + now left.
    + now exists rest.
    + now right.
    + now exists rest.
  - intros [t [[Ht|Ht] [rest Hrest]]]; [left|right]; exists t; (split; [exact Ht|]);
      apply matchable_literal; exists rest; (split; [exact Hrest|apply matchable_eps]).
Qed.

Lemma matchable_strict_URL (before rest : list ascii) :
  matchable strict_URL (List.length before, rest)
  <-> (before = [] /\ exists t, after_scheme rest t /\ dotted_host t)
      \/ (exists t, after_scheme rest t /\ begins_with (chars "localhost") t).
Proof.
  unfold strict_URL. rewrite matchable_alt, matchable_bol, matchable_localhost.
  split.
  - intros [[Hlen Hm]|H]; [left|now right].
    split; [now destruct before|].
    apply matchable_scheme in Hm as [[t [Ht Hm]]|[t [Ht Hm]]];
      apply matchable_strict_host in Hm; exists t; split; try assumption.
    + now left.
    + now right.
  - intros [[-> [t [Hscheme Hhost]]]|H]; [left|now right].
    split; [reflexivity|]. apply matchable_scheme.
    destruct Hscheme as [Ht|Ht]; [left|right]; exists t; (split; [exact Ht|]);
      now apply matchable_strict_host.
Qed.

(** The strings the stricter pattern matches: those that begin with a
    scheme and a dotted host, and those that hold a scheme followed by
    localhost anywhere. *)
Lemma matches_strict_URL (s : string) :
  matches Strict.getRegexURL s = Some true
  <-> (exists t, after_scheme (chars s) t /\ dotted_host t)
      \/ (exists before rest t,
            chars s = (before ++ rest)%list
            /\ after_scheme rest t /\ begins_with (chars "localhost") t).
Proof.
  rewrite (matches_compiled _ _ s compile_strict_URL), test_matchable. split.
  - intros [before [rest [Hs Hm]]].
    apply matchable_strict_URL in Hm as [[-> Hm]|[t [Hscheme Hlocal]]].
    + left. cbn [app] in Hs. now rewrite Hs.
    + right. now exists before, rest, t.
  - intros [[t [Hscheme Hhost]]|[before [rest [t [Hs [Hscheme Hlocal]]]]]].
    + exists [], (chars s). split; [reflexivity|].
      apply (proj2 (matchable_strict_URL [] (chars s))).
      left. split; [reflexivity|]. now exists t.
    + exists before, rest. split; [exact Hs|].
      apply matchable_strict_URL. right. now exists t.
Qed.

(** The looser pattern accepts a host without a dot that is not localhost:
    the claim fails there. *)
Lemma loose_URL_accepts_dotless_host : ~ URL_claim Loose.getRegexURL.
Proof.
  intros H.
  destruct (proj1 (H "http://ab") eq_refl) as [t [[Ht|Ht] Hhost]].
  - injection Ht as <-.
    destruct Hhost as [Hdot|[rest Hrest]].
    + cbn in Hdot. destruct Hdot as [Hd|[Hd|[]]]; discriminate Hd.
    + discriminate Hrest.
  - discriminate Ht.
Qed.

(** C10, amended. For every string [s]: [s] matches the looser pattern if
    and only if it begins with [http://] or [https://] followed by one or
    more characters of [[0-9a-zA-Z-]], a dot and one more such character,
    or followed by two such characters (a host without a dot, localhost
    among them).  [s] matches the stricter pattern whenever it begins with
    [http://] or [https://] followed by one or more characters of
    [[0-9a-zA-Z-]], a dot and one more such character, or followed by
    [localhost]; and a string in which the text localhost does not occur
    matches the stricter pattern only if it begins in the first of these
    two ways. *)
Theorem URL_patterns (s : string) :
  (matches Loose.getRegexURL s = Some true
   <-> exists t, after_scheme (chars s) t /\ (dotted_host t \/ plain_host t))
  /\ (forall t, after_scheme (chars s) t ->
                dotted_host t \/ begins_with (chars "localhost") t ->
                matches Strict.getRegexURL s = Some true)
  /\ (matches Strict.getRegexURL s = Some true ->
      ~ contains (chars "localhost") (chars s) ->
      exists t, after_scheme (chars s) t /\ dotted_host t).
Proof.
  split; [apply matches_loose_URL|].
  split.
  - intros t Hscheme Hhost.
    apply (matches_compiled _ _ s compile_strict_URL), test_matchable.
    exists [], (chars s). split; [reflexivity|].
    apply (proj2 (matchable_strict_URL [] (chars s))).
    destruct Hhost as [Hhost|Hhost]; [left|right].
    + split; [reflexivity|]. now exists t.
    + now exists t.
  - rewrite (matches_compiled _ _ s compile_strict_URL), test_matchable.
    intros [before [rest [Hs Hm]]] Hno.
    apply matchable_strict_URL in Hm as [[-> Hm]|[t [Hscheme [rest' Hrest]]]].
    + cbn [app] in Hs. now rewrite Hs.
    + exfalso. apply Hno. subst t.
      destruct Hscheme as [-> | ->].
      * exists (before ++ chars "http://")%list, rest'.
        now rewrite Hs, <- app_assoc.
      * exists (before ++ chars "https://")%list, rest'.
        now rewrite Hs, <- app_assoc.
Qed.

(** [http://example.com/x] matches the stricter pattern, [http://ab] the
    looser one, and [http://a.b], which holds no localhost, matches the
    stricter pattern by its dotted host. *)
Lemma URL_patterns_witness :
  (after_scheme (chars "http://example.com/x") (chars "example.com/x")
   /\ (dotted_host (chars "example.com/x")
       \/ begins_with (chars "localhost") (chars "example.com/x"))
   /\ matches Strict.getRegexURL "http://example.com/x" = Some true)
  /\ (matches Strict.getRegexURL "http://a.b" = Some true
      /\ ~ contains (chars "localhost") (chars "http://a.b")
      /\ exists t, after_scheme (chars "http://a.b") t /\ dotted_host t).
Proof.
  split.
  - assert (H1 : after_scheme (chars "http://example.com/x") (chars "example.com/x"))
      by (now left).
    assert (H2 : dotted_host (chars "example.com/x")
                 \/ begins_with (chars "localhost") (chars "example.com/x")).
    { left. exists (chars "example"), "c"%char, (chars "om/x").
      repeat split. discriminate. }
    split; [exact H1|]. split; [exact H2|].
    apply (proj1 (proj2 (URL_patterns "http://example.com/x")) _ H1 H2).
  - assert (H1 : matches Strict.getRegexURL "http://a.b" = Some true) by reflexivity.
    assert (H2 : ~ contains (chars "localhost") (chars "http://a.b")).
    { intros [before [rest H]]. cbn in H.
      repeat (destruct before as [|? before]; cbn in H;
              [discriminate H|injection H as _ H]).
      destruct before; discriminate H. }
    split; [exact H1|]. split; [exact H2|].
    apply (proj2 (proj2 (URL_patterns "http://a.b")) H1 H2).
Defined.

(** The slip in the stricter pattern: its second alternative is not
    anchored, so a string that merely contains [http://localhost]
    matches. *)
Lemma strict_URL_matches_inside :
  matches Strict.getRegexURL "see http://localhost" = Some true.
Proof. reflexivity. Qed.

(** ** The GUID pattern *)

Lemma compile_GUID : compile regex_GUID = Some GUID_regex.
Proof. vm_compute. reflexivity. Qed.

Lemma reaches_seq (r k : regex) (p : position_in) (P : position_in -> Prop) :
  reaches (Seq r k) p P <-> reaches r p (fun m => reaches k m P).
Proof.
  unfold reaches. cbn [denote]. split.
  - intros [q [[m [H1 H2]] HP]]. exists m. split; [exact H1|]. now exists q.
  - intros [m [H1 [q [H2 HP]]]]. exists q. split; [now exists m|exact HP].
Qed.

Lemma reaches_eps (p : position_in) (P : position_in -> Prop) :
  reaches Eps p P <-> P p.
Proof.
  unfold reaches. cbn [denote]. split.
  - now intros [q [-> HP]].
  - intros HP. now exists p.
Qed.

Lemma reaches_exactly (a : atom) (n i : nat) (s : list ascii) (P : position_in -> Prop) :
  reaches (exactly a n) (i, s) P
  <-> exists run rest,
        s = (run ++ rest)%list
        /\ List.length run = n /\ forallb (atom_matches a) run = true
        /\ P ((i + n)%nat, rest).
Proof.
  unfold reaches, exactly. cbn [denote fst snd]. split.
  - intros [[j t] [[run [Hs [Hall [Hlo [Hhi Hj]]]]] HP]]. cbn [fst snd] in *.
    assert (Hlen : List.length run = n) by lia.
    exists run, t. subst j. rewrite Hlen in HP. now repeat split.
  - intros [run [rest [Hs [Hlen [Hall HP]]]]].
    exists ((i + n)%nat, rest). split; [|exact HP].
    exists run. cbn [fst snd]. rewrite Hlen. repeat split; try assumption; lia.
Qed.

Lemma reaches_char (c : ascii) (i : nat) (s : list ascii) (P : position_in -> Prop) :
  reaches (Atom (AChar c)) (i, s) P <-> exists rest, s = c :: rest /\ P (S i, rest).
Proof.
  unfold reaches. cbn [denote fst snd atom_matches]. split.
  - intros [[j t] [[d [Hs [Hd Hj]]] HP]]. cbn [fst snd] in *.
    apply Ascii.eqb_eq in Hd. subst d j. now exists t.
  - intros [rest [-> HP]]. exists (S i, rest). split; [|exact HP].
    exists c. cbn [fst snd]. rewrite Ascii.eqb_refl. now repeat split.
Qed.

Lemma reaches_ext (r : regex) (p : position_in) (P Q : position_in -> Prop) :
  (forall q, P q <-> Q q) -> (reaches r p P <-> reaches r p Q).
Proof.
  intros H. unfold reaches. split; intros [q [Hq HP]]; exists q; split;
    try assumption; now apply H.
Qed.

Lemma reaches_GUID_groups (i : nat) (s : list ascii) (P : position_in -> Prop) :
  reaches GUID_groups (i, s) P
  <-> exists g1 g2 g3 g4 g5 rest,
        s = (g1 ++ "-"%char :: g2 ++ "-"%char :: g3 ++ "-"%char :: g4
                ++ "-"%char :: g5 ++ rest)%list
        /\ alnum_group 8 g1 /\ alnum_group 4 g2 /\ alnum_group 4 g3
        /\ alnum_group 4 g4 /\ alnum_group 12 g5
        /\ P ((i + 36)%nat, rest).
Proof.
  unfold GUID_groups, alnum_group, alnum_char. split.
  - intros H.
    apply reaches_seq, reaches_exactly in H as [g1 [r1 [-> [L1 [A1 H]]]]].
    apply reaches_seq, reaches_char in H as [r1' [-> H]].
    apply reaches_seq, reaches_exactly in H as [g2 [r2 [-> [L2 [A2 H]]]]].
    apply reaches_seq, reaches_char in H as [r2' [-> H]].
    apply reaches_seq, reaches_exactly in H as [g3 [r3 [-> [L3 [A3 H]]]]].
    apply reaches_seq, reaches_char in H as [r3' [-> H]].
    apply reaches_seq, reaches_exactly in H as [g4 [r4 [-> [L4 [A4 H]]]]].
    apply reaches_seq, reaches_char in H as [r4' [-> H]].
    apply reaches_seq, reaches_exactly in H as [g5 [r5 [-> [L5 [A5 H]]]]].
    apply reaches_eps in H.
    exists g1, g2, g3, g4, g5, r5. repeat split; try assumption.
    now replace (i + 36)%nat with (S (S (S (S (i + 8) + 4) + 4) + 4) + 12)%nat by lia.
  - intros [g1 [g2 [g3 [g4 [g5 [rest [-> [[L1 A1] [[L2 A2] [[L3 A3] [[L4 A4] [[L5 A5] HP]]]]]]]]]]]].
    apply reaches_seq, reaches_exactly. eexists g1, _. repeat split; try eassumption.
    apply reaches_seq, reaches_char. eexists. split; [reflexivity|].
    apply reaches_seq, reaches_exactly. eexists g2, _. repeat split; try eassumption.
    apply reaches_seq, reaches_char. eexists. split; [reflexivity|].
    apply reaches_seq, reaches_exactly. eexists g3, _. repeat split; try eassumption.
    apply reaches_seq, reaches_char. eexists. split; [reflexivity|].
    apply reaches_seq, reaches_exactly. eexists g4, _. repeat split; try eassumption.
    apply reaches_seq, reaches_char. eexists. split; [reflexivity|].
    apply reaches_seq, reaches_exactly. eexists g5, _. repeat split; try eassumption.
    apply reaches_eps.
    now replace (S (S (S (S (i + 8) + 4) + 4) + 4) + 12)%nat with (i + 36)%nat by lia.
Qed.

Lemma matchable_reaches (r : regex) (p : position_in) :
  matchable r p <-> reaches r p (fun _ => True).
Proof.
  unfold matchable, reaches. split.
  - intros [q H]. now exists q.
  - intros [q [H _]]. now exists q.
Qed.

Lemma matchable_end (p : position_in) :
  matchable (Seq Eol Eps) p <-> snd p = [].
Proof.
  rewrite matchable_seq. cbn [denote]. split.
  - now intros [m [[_ H] _]].
  - intros H. exists p. split; [now split|apply matchable_eps].
Qed.

Lemma matchable_GUID (i : nat) (s : list ascii) :
  matchable GUID_regex (i, s)
  <-> i = 0%nat /\ alnum_GUID s /\ ~ begins_with (chars zero_GUID) s.
Proof.
  unfold GUID_regex. rewrite matchable_bol, matchable_seq.
  cbn [denote]. split.
  - intros [-> [m [[-> Hno] Hm]]]. split; [reflexivity|].
    apply matchable_seq in Hm as [m [Hg He]]. cbn [denote] in Hg.
    apply matchable_end in He.
    assert (Hr : reaches GUID_groups (0%nat, s) (fun q => snd q = []))
      by (exists m; now split).
    apply reaches_GUID_groups in Hr
      as [g1 [g2 [g3 [g4 [g5 [rest [-> [G1 [G2 [G3 [G4 [G5 Hrest]]]]]]]]]]]].
    cbn [snd] in Hrest. subst rest. rewrite app_nil_r in *. split.
    + exists g1, g2, g3, g4, g5. split; [reflexivity|tauto].
    + intros [rest Hrest].
      assert (Hz : matchable (literal_regex (chars zero_GUID) Eps)
                     (0%nat, (g1 ++ "-"%char :: g2 ++ "-"%char :: g3 ++ "-"%char
                                 :: g4 ++ "-"%char :: g5)%list)).
      { apply matchable_literal. exists rest. split; [exact Hrest|apply matchable_eps]. }
      destruct Hz as [q Hq]. exact (Hno q Hq).
  - intros [-> [[g1 [g2 [g3 [g4 [g5 [-> G]]]]]] Hno]]. split; [reflexivity|].
    eexists. split.
    + split; [reflexivity|]. intros q Hq. apply Hno.
      assert (Hz : matchable (literal_regex (chars zero_GUID) Eps)
                     (0%nat, (g1 ++ "-"%char :: g2 ++ "-"%char :: g3 ++ "-"%char
                                 :: g4 ++ "-"%char :: g5)%list))
        by (now exists q).
      apply matchable_literal in Hz as [rest [Hrest _]]. now exists rest.
    + assert (Hr : reaches GUID_groups
                     (0%nat, (g1 ++ "-"%char :: g2 ++ "-"%char :: g3 ++ "-"%char
                                 :: g4 ++ "-"%char :: g5)%list)
                     (fun q => snd q = [])).
      { apply reaches_GUID_groups. exists g1, g2, g3, g4, g5, [].
        rewrite app_nil_r. split; [reflexivity|]. cbn [snd]. tauto. }
      destruct Hr as [m [Hg He]].
      apply matchable_seq. exists m. split; [exact Hg|now apply matchable_end].
Qed.

(** The strings the GUID pattern matches: five groups of 8, 4, 4, 4 and 12
    characters of [[0-9a-zA-Z]] joined by hyphens, the all-zero GUID
    excepted. *)
Lemma matches_GUID (s : string) :
  matches regex_GUID s = Some true
  <-> alnum_GUID (chars s) /\ ~ begins_with (chars zero_GUID) (chars s).
Proof.
  rewrite (matches_compiled _ _ s compile_GUID), test_matchable. split.
  - intros [before [rest [Hs Hm]]]. apply matchable_GUID in Hm as [Hlen Hm].
    destruct before; [|discriminate Hlen]. cbn [app] in Hs. now subst rest.
  - intros H. exists [], (chars s). split; [reflexivity|].
    apply matchable_GUID. now split.
Qed.

(** C9. The pattern accepts the canonical GUID of the specification and
    rejects the all-zero GUID, but it also accepts a string whose groups
    hold letters beyond [f], which is not a GUID: its character class is
    [[0-9a-zA-Z]], not the hexadecimal digits.  Both variants return the
    same pattern. *)
Theorem GUID_pattern_accepts_non_hex :
  matches Strict.getRegexGUID "zzzzzzzz-zzzz-zzzz-zzzz-zzzzzzzzzzzz" = Some true
  /\ matches Loose.getRegexGUID "zzzzzzzz-zzzz-zzzz-zzzz-zzzzzzzzzzzz" = Some true
  /\ is_canonical_GUID "zzzzzzzz-zzzz-zzzz-zzzz-zzzzzzzzzzzz" = false
  /\ is_canonical_GUID "123e4567-e89b-12d3-a456-426614174000" = true
  /\ matches Strict.getRegexGUID "123e4567-e89b-12d3-a456-426614174000" = Some true
  /\ matches Strict.getRegexGUID zero_GUID = Some false.
Proof. repeat split; vm_compute; reflexivity. Qed.

(** ** Further facts *)

(** Every integer from 100 to 599 falls in a bucket, so for integral status
    codes the buckets and the outside of [100,599] leave nothing out.  A
    number between two buckets, such as 199.5, is in none and is refused. *)
Lemma integer_code_recognised (z : Z) :
  (100 <= z <= 599)%Z -> recognised (num z) = true.
Proof.
  intros Hz. unfold recognised, status_buckets. cbn [existsb].
  assert (Hin : forall lo hi, (lo <= z <= hi)%Z -> in_range lo hi (num z) = true).
  { intros lo hi [H1 H2]. unfold in_range, num.
    rewrite !number_le_Fin. apply andb_true_iff.
    split; apply Qle_bool_iff; rewrite <- Zle_Qle; assumption. }
  destruct (Z_le_gt_dec z 199); [rewrite (Hin 100 199)%Z by lia; reflexivity|].
  destruct (Z_le_gt_dec z 299);
    [rewrite (Hin 200 299)%Z by lia; now rewrite !orb_true_r|].
  destruct (Z_le_gt_dec z 399);
    [rewrite (Hin 300 399)%Z by lia; now rewrite !orb_true_r|].
  destruct (Z_le_gt_dec z 499);
    [rewrite (Hin 400 499)%Z by lia; now rewrite !orb_true_r|].
  rewrite (Hin 500 599)%Z by lia. now rewrite !orb_true_r.
Qed.

Lemma between_buckets_refused (h : Host) (st : state) :
  in_range 100 599 (Fin (399 # 2)) = true
  /\ raises RangeErrorK (Strict.checkStatusCode h (VNum (Fin (399 # 2))) st)
  /\ raises RangeErrorK (Loose.checkStatusCode h (VNum (Fin (399 # 2))) st).
Proof.
  rewrite strict_checkStatusCode_number, loose_checkStatusCode_number.
  split; [reflexivity|]. split; eexists; split; reflexivity.
Qed.

(** How often a call of the stricter [checkStatusCode] sends the abort
    signal, for any argument. *)
Lemma abort_count (h : Host) (v : value) (st : state) :
  aborts (emitted st (Strict.checkStatusCode h v st))
  = match v with
    | VNum c =>
        if recognised c
           && negb (number_eq (code (response h)) c)
           && is_infrastructure_code (code (response h))
        then 1%nat else 0%nat
    | _ => 0%nat
    end.
Proof.
  assert (Hother : class_of v <> "Number" ->
                   aborts (emitted st (Strict.checkStatusCode h v st)) = 0%nat).
  { intros Hkind.
    change (Strict.checkStatusCode h v st) with (strict_call h CheckStatusCode v st).
    rewrite strict_call_wrong_kind by exact Hkind. now rewrite emitted_same. }
  destruct v as [ | |b|c|s|a items|a props|a e|a]; try (apply Hother; discriminate).
  rewrite strict_checkStatusCode_number.
  destruct (recognised c) eqn:Hrec.
  - destruct (recognised_bucket _ Hrec) as [[[[lo hi] l1] l2] ->].
    rewrite emitted_app.
    change (aborts (abort_events h c)
            = if true && negb (number_eq (code (response h)) c)
                 && is_infrastructure_code (code (response h))
              then 1%nat else 0%nat).
    apply aborts_abort_events.
  - assert (Hnone : bucket_of c = None).
    { unfold bucket_of. destruct (find _ status_buckets) as [b|] eqn:Hfind; [|reflexivity].
      apply find_some in Hfind as [Hin Hb].
      assert (Hsome : recognised c = true)
        by (apply existsb_exists; exists b; split; assumption).
      congruence. }
    rewrite Hnone. now rewrite emitted_same.
Qed.

(** The two variants on a response 500 when 200 and a content type are
    expected: the stricter one registers the status test and aborts the
    run, the looser one goes on to register the content-type test. *)
Lemma testCommon_variants_differ :
  emitted initial_state
    (Strict.testCommon sample_host (VNum (num 200)) (VStr "application/json")
       VUndefined VUndefined initial_state)
  = [Test "Response Body: {}" [];
     Test "Status Code (Success)" [HaveStatus (VNum (num 200))];
     SetNextRequest VNull]
  /\ emitted initial_state
       (Loose.testCommon sample_host (VNum (num 200)) (VStr "application/json")
          VUndefined VUndefined initial_state)
     = [Test "response body: {}" [];
        Test "should be a successful response" [HaveStatus (VNum (num 200))];
        Test ("should be of type " ++ dq ++ "application/json" ++ dq)
          [TypeEqual (VStr "application/json")]].
Proof. split; reflexivity. Qed.

(** [convertTime(999)] is "999ms", [convertTime(1000)] is "1s" and
    [convertTime(1500)] is "1.5s", in both variants. *)
Lemma convertTime_examples :
  fst (Strict.convertTime sample_host (VNum (num 999)) initial_state) = Normal "999ms"
  /\ fst (Strict.convertTime sample_host (VNum (num 1000)) initial_state) = Normal "1s"
  /\ fst (Strict.convertTime sample_host (VNum (num 1500)) initial_state) = Normal "1.5s"
  /\ fst (Loose.convertTime sample_host (VNum (num 999)) initial_state) = Normal "999ms"
  /\ fst (Loose.convertTime sample_host (VNum (num 1500)) initial_state) = Normal "1.5s".
Proof. repeat split; reflexivity. Qed.

(** * Further properties of the library *)

(** ** Names read back from a stack *)

Lemma append_assoc (s t u : string) : (s ++ t) ++ u = s ++ (t ++ u).
Proof. induction s as [|c s IH]; cbn; [reflexivity|now rewrite IH]. Qed.

Lemma append_nil_r (s : string) : s ++ "" = s.
Proof. induction s as [|c s IH]; cbn; [reflexivity|now rewrite IH]. Qed.

Lemma length_append (s t : string) :
  String.length (s ++ t) = (String.length s + String.length t)%nat.
Proof. induction s as [|c s IH]; cbn; [reflexivity|now rewrite IH]. Qed.

Lemma chars_append (s t : string) : chars (s ++ t) = (chars s ++ chars t)%list.
Proof.
  unfold chars. induction s as [|c s IH]; cbn; [reflexivity|now rewrite IH].
Qed.

Lemma unbroken_cons (c : ascii) (s : string) :
  unbroken (String c s) = true ->
  Ascii.eqb c LF = false /\ Ascii.eqb c CR = false /\ unbroken s = true.
Proof.
  unfold unbroken. cbn [chars list_ascii_of_string forallb]. intros H.
  apply andb_true_iff in H as [Hc Hs].
  apply negb_true_iff, orb_false_iff in Hc as [Hlf Hcr]. now repeat split.
Qed.

(** The first piece of a split is the first line. *)
Lemma split_lines_from_head (line s : string) :
  nth_error (split_lines_from line s) 0 = Some (line ++ first_line s).
Proof.
  revert line. induction s as [|c s IH]; intros line.
  - cbn. now rewrite append_nil_r.
  - cbn [split_lines_from first_line].
    destruct (Ascii.eqb c CR) eqn:Hcr.
    + cbn [orb]. rewrite append_nil_r.
      destruct s as [|d s]; [reflexivity|]. now destruct (Ascii.eqb d LF).
    + destruct (Ascii.eqb c LF) eqn:Hlf; cbn [orb].
      * now rewrite append_nil_r.
      * rewrite IH. now rewrite append_assoc.
Qed.

(** The second piece of a split whose first line ends with a line feed. *)
Lemma split_lines_second (heading s : string) :
  unbroken heading = true ->
  nth_error (split_lines (heading ++ String LF s)) 1 = Some (first_line s).
Proof.
  unfold split_lines. generalize "". induction heading as [|c heading IH]; intros line H.
  - cbn [append split_lines_from].
    change (Ascii.eqb LF CR) with false. change (Ascii.eqb LF LF) with true.
    cbv iota. cbn [nth_error]. apply (split_lines_from_head "" s).
  - apply unbroken_cons in H as [Hlf [Hcr H]].
    cbn [append split_lines_from]. rewrite Hcr, Hlf. now apply IH.
Qed.

Lemma split_lines_from_unbroken (line s : string) :
  unbroken s = true -> split_lines_from line s = [line ++ s].
Proof.
  revert line. induction s as [|c s IH]; intros line H.
  - cbn. now rewrite append_nil_r.
  - apply unbroken_cons in H as [Hlf [Hcr H]].
    cbn [split_lines_from]. rewrite Hcr, Hlf, IH by exact H.
    now rewrite append_assoc.
Qed.

Lemma split_lines_unbroken (s : string) :
  unbroken s = true -> split_lines s = [s].
Proof. apply (split_lines_from_unbroken "" s). Qed.

Lemma first_line_append (s t : string) :
  unbroken s = true -> first_line (s ++ t) = s ++ first_line t.
Proof.
  induction s as [|c s IH]; intros H; [reflexivity|].
  apply unbroken_cons in H as [Hlf [Hcr H]].
  cbn [append first_line]. rewrite Hcr, Hlf. cbn [orb]. now rewrite IH.
Qed.

Lemma trim_left_indent (indent s : string) :
  is_indent indent = true -> trim_left (indent ++ s) = trim_left s.
Proof.
  unfold is_indent. induction indent as [|c indent IH]; intros H; [reflexivity|].
  cbn [chars list_ascii_of_string forallb] in H.
  apply andb_true_iff in H as [Hc H].
  cbn [append trim_left].
  assert (Hws : is_white_space c = true).
  { apply orb_true_iff in Hc as [Hc|Hc]; apply Ascii.eqb_eq in Hc; now subst c. }
  rewrite Hws. now apply IH.
Qed.

Lemma is_indent_unbroken (indent : string) :
  is_indent indent = true -> unbroken indent = true.
Proof.
  unfold is_indent, unbroken. rewrite !forallb_forall. intros H c Hc.
  specialize (H c Hc).
  apply orb_true_iff in H as [H|H]; apply Ascii.eqb_eq in H; now subst c.
Qed.

Lemma trim_right_keeps (s : string) (c : ascii) (t : string) :
  is_white_space c = false ->
  trim_right (s ++ String c t) = s ++ String c (trim_right t).
Proof.
  intros Hc. induction s as [|d s IH]; cbn [append].
  - cbn [trim_right]. now rewrite Hc.
  - change (trim_right (String d (s ++ String c t)))
      with (if is_white_space d && String.eqb (trim_right (s ++ String c t)) ""
            then "" else String d (trim_right (s ++ String c t))).
    rewrite IH. destruct (is_white_space d); [|reflexivity].
    destruct s; reflexivity.
Qed.

Lemma index_after (s t : string) :
  no_parenthesis s = true ->
  String.index 0 "(" (s ++ String "("%char t) = Some (String.length s).
Proof.
  unfold no_parenthesis. induction s as [|c s IH]; intros H.
  - cbn. destruct t; reflexivity.
  - cbn [chars list_ascii_of_string forallb] in H.
    apply andb_true_iff in H as [Hc Hs]. apply negb_true_iff in Hc.
    cbn [append String.index String.prefix String.length].
    destruct (ascii_dec "("%char c) as [Heq|_].
    + subst c. discriminate Hc.
    + now rewrite IH.
Qed.

Lemma index_absent (s : string) :
  no_parenthesis s = true -> String.index 0 "(" s = None.
Proof.
  unfold no_parenthesis. induction s as [|c s IH]; intros H; [reflexivity|].
  cbn [chars list_ascii_of_string forallb] in H.
  apply andb_true_iff in H as [Hc Hs]. apply negb_true_iff in Hc.
  cbn [String.index String.prefix].
  destruct (ascii_dec "("%char c) as [Heq|_].
  - subst c. discriminate Hc.
  - now rewrite IH.
Qed.

Lemma substring_whole (s t : string) :
  String.substring 0 (String.length s) (s ++ t) = s.
Proof.
  induction s as [|c s IH]; cbn.
  - destruct t; reflexivity.
  - now rewrite IH.
Qed.

Lemma plain_name_parts (fname : string) :
  plain_name fname = true -> unbroken fname = true /\ no_parenthesis fname = true.
Proof.
  unfold plain_name, unbroken, no_parenthesis. rewrite !forallb_forall.
  intros H. split; intros c Hc; specialize (H c Hc);
    apply negb_true_iff in H; apply negb_true_iff;
    apply orb_false_iff in H as [H1 H2]; apply orb_false_iff in H1 as [H0 H1].
  - now rewrite H1, H2.
  - exact H0.
Qed.

(** The name found in a frame line ["at <name> (..."]. *)
Lemma frame_name (fname rest : string) :
  plain_name fname = true ->
  let functionName := trim_right ("at " ++ fname ++ " (" ++ rest) in
  substr functionName Strict.ERROR_OFFSET
    (indexOf functionName "(" - 1 - Z.of_nat Strict.ERROR_OFFSET)
  = fname.
Proof.
  intros Hname. destruct (plain_name_parts _ Hname) as [_ Hparen]. cbv zeta.
  replace ("at " ++ fname ++ " (" ++ rest)
    with (("at " ++ fname ++ " ") ++ String "("%char rest)
    by (now rewrite !append_assoc).
  rewrite trim_right_keeps by reflexivity.
  unfold indexOf. rewrite index_after.
  - rewrite !length_append. unfold substr, Strict.ERROR_OFFSET.
    replace (Z.of_nat (String.length "at " + (String.length fname + String.length " "))
             - 1 - Z.of_nat 3)%Z
      with (Z.of_nat (String.length fname)) by (cbn [String.length]; lia).
    destruct (Z.leb_spec (Z.of_nat (String.length fname)) 0) as [Hempty|_].
    + assert (Hlen : String.length fname = 0%nat) by lia.
      destruct fname; [reflexivity|discriminate Hlen].
    + rewrite Nat2Z.id, !append_assoc.
      change (String.substring 3 (String.length fname)
                ("at " ++ fname ++ " " ++ String "("%char (trim_right rest)))
        with (String.substring 0 (String.length fname)
                (fname ++ " " ++ String "("%char (trim_right rest))).
      apply substring_whole.
  - unfold no_parenthesis in *. rewrite !chars_append, !forallb_app, Hparen. reflexivity.
Qed.

(** X1. An error whose stack has, after its heading, a frame line
    ["at <name> (<location>)"], indented by spaces or tabs, gives back
    [<name>], whatever the heading, the location and the frames below. *)
Theorem getFunctionName_round_trip
        (a : addr) (e : error_obj) (heading indent fname rest : string) (st : state) :
  unbroken heading = true ->
  is_indent indent = true ->
  plain_name fname = true ->
  err_stack e = heading ++ String LF (indent ++ "at " ++ fname ++ " (" ++ rest) ->
  Strict.getFunctionNameFromInside (VErr a e) st = (Normal fname, st).
Proof.
  intros Hheading Hindent Hname Hstack.
  destruct (plain_name_parts _ Hname) as [Hunbroken _].
  unfold Strict.getFunctionNameFromInside. rewrite getType_class.
  change (String.eqb (class_of (VErr a e)) "Error") with true. cbv iota.
  rewrite Hstack, split_lines_second by exact Hheading.
  rewrite first_line_append by (now apply is_indent_unbroken).
  change ("at " ++ fname ++ " (" ++ rest) with ("at " ++ (fname ++ " (" ++ rest)).
  rewrite (first_line_append "at ") by reflexivity.
  rewrite first_line_append by exact Hunbroken.
  rewrite (first_line_append " (") by reflexivity.
  unfold trim. rewrite trim_left_indent by exact Hindent.
  change (trim_left ("at " ++ fname ++ " (" ++ first_line rest))
    with ("at " ++ fname ++ " (" ++ first_line rest).
  now rewrite frame_name.
Qed.

(** The stack of an error made inside [checkTime] names [checkTime]. *)
Lemma getFunctionName_round_trip_witness :
  unbroken "RangeError: out of range" = true
  /\ is_indent "    " = true
  /\ plain_name "checkTime" = true
  /\ Strict.getFunctionNameFromInside
       (VErr 7 (mkError RangeErrorK "out of range"
                  ("RangeError: out of range" ++ String LF
                     ("    " ++ "at " ++ "checkTime" ++ " ("
                        ++ "eval at <anonymous>:183:10)" ++ String LF
                        "    at testCommonAndTime (eval at <anonymous>:46:10)"))))
       initial_state
     = (Normal "checkTime", initial_state).
Proof.
  repeat (split; [reflexivity|]).
  apply (getFunctionName_round_trip 7 _ "RangeError: out of range" "    " "checkTime"
           ("eval at <anonymous>:183:10)" ++ String LF
              "    at testCommonAndTime (eval at <anonymous>:46:10)"));
    reflexivity.
Defined.

Lemma first_line_keeps (P : ascii -> bool) (s : string) :
  forallb P (chars s) = true -> forallb P (chars (first_line s)) = true.
Proof.
  unfold chars. induction s as [|c s IH]; intros H; [reflexivity|].
  cbn [list_ascii_of_string forallb] in H. apply andb_true_iff in H as [Hc H].
  cbn [first_line]. destruct (Ascii.eqb c CR || Ascii.eqb c LF); [reflexivity|].
  cbn [list_ascii_of_string forallb]. now rewrite Hc, IH.
Qed.

Lemma trim_left_keeps (P : ascii -> bool) (s : string) :
  forallb P (chars s) = true -> forallb P (chars (trim_left s)) = true.
Proof.
  unfold chars. induction s as [|c s IH]; intros H; [reflexivity|].
  cbn [trim_left]. destruct (is_white_space c); [|exact H].
  cbn [list_ascii_of_string forallb] in H. apply andb_true_iff in H as [_ H].
  now apply IH.
Qed.

Lemma trim_right_keeps_all (P : ascii -> bool) (s : string) :
  forallb P (chars s) = true -> forallb P (chars (trim_right s)) = true.
Proof.
  unfold chars. induction s as [|c s IH]; intros H; [reflexivity|].
  cbn [list_ascii_of_string forallb] in H. apply andb_true_iff in H as [Hc H].
  cbn [trim_right].
  destruct (is_white_space c && String.eqb (trim_right s) ""); [reflexivity|].
  cbn [list_ascii_of_string forallb]. now rewrite Hc, IH.
Qed.

(** X2. What [getFunctionNameFromInside] does elsewhere: a value that is
    not an error is refused with a TypeError that names
    [getFunctionNameFromInside] itself; an error whose stack is a single
    line raises a TypeError; a frame line without an opening parenthesis
    gives the empty name.  It never touches the trace. *)
Theorem getFunctionName_edges :
  (forall v st, class_of v <> "Error" ->
                exists e, Strict.getFunctionNameFromInside v st = (Throw e, st)
                          /\ err_kind e = TypeErrorK
                          /\ err_message e
                             = "Wrong argument type for function getFunctionNameFromInside")
  /\ (forall a e st, unbroken (err_stack e) = true ->
                     raises TypeErrorK (Strict.getFunctionNameFromInside (VErr a e) st))
  /\ (forall a e heading rest st,
         unbroken heading = true ->
         no_parenthesis rest = true ->
         err_stack e = heading ++ String LF rest ->
         Strict.getFunctionNameFromInside (VErr a e) st = (Normal "", st))
  /\ (forall v, silent (Strict.getFunctionNameFromInside v)).
Proof.
  split; [|split; [|split]].
  - intros v st Hkind. unfold Strict.getFunctionNameFromInside.
    rewrite getType_class.
    destruct (String.eqb_spec (class_of v) "Error") as [Heq|_]; [contradiction|].
    eexists. split; [reflexivity|]. split; reflexivity.
  - intros a e st Hstack. unfold Strict.getFunctionNameFromInside.
    rewrite getType_class.
    change (String.eqb (class_of (VErr a e)) "Error") with true. cbv iota.
    rewrite split_lines_unbroken by exact Hstack. cbn [nth_error].
    eexists. split; reflexivity.
  - intros a e heading rest st Hheading Hrest Hstack.
    unfold Strict.getFunctionNameFromInside. rewrite getType_class.
    change (String.eqb (class_of (VErr a e)) "Error") with true. cbv iota.
    rewrite Hstack, split_lines_second by exact Hheading. cbv zeta.
    unfold indexOf, trim. rewrite index_absent.
    + reflexivity.
    + apply trim_right_keeps_all, trim_left_keeps, first_line_keeps. exact Hrest.
  - intros v st. unfold Strict.getFunctionNameFromInside.
    destruct (String.eqb (Strict.getType v) "Error"); [|reflexivity].
    destruct v; try reflexivity.
    destruct (nth_error (split_lines (err_stack e)) 1); reflexivity.
Qed.

(** The number 5 is no error, a stack of one line has no frame, and a
    frame line without a parenthesis gives no name. *)
Lemma getFunctionName_edges_witness :
  (class_of (VNum (num 5)) <> "Error"
   /\ exists e, Strict.getFunctionNameFromInside (VNum (num 5)) initial_state
                = (Throw e, initial_state)
                /\ err_kind e = TypeErrorK
                /\ err_message e
                   = "Wrong argument type for function getFunctionNameFromInside")
  /\ (unbroken (err_stack (mkError ErrorK "" "Error")) = true
      /\ raises TypeErrorK
           (Strict.getFunctionNameFromInside (VErr 7 (mkError ErrorK "" "Error"))
              initial_state))
  /\ (unbroken "Error" = true
      /\ no_parenthesis "    at <anonymous>:1:1" = true
      /\ Strict.getFunctionNameFromInside
           (VErr 7 (mkError ErrorK ""
                      ("Error" ++ String LF "    at <anonymous>:1:1")))
           initial_state
         = (Normal "", initial_state)).
Proof.
  split; [|split].
  - assert (Hk : class_of (VNum (num 5)) <> "Error") by discriminate.
    split; [exact Hk|].
    apply (proj1 getFunctionName_edges (VNum (num 5)) initial_state Hk).
  - split; [reflexivity|].
    apply (proj1 (proj2 getFunctionName_edges) 7%nat (mkError ErrorK "" "Error")
             initial_state eq_refl).
  - split; [reflexivity|]. split; [reflexivity|].
    apply (proj1 (proj2 (proj2 getFunctionName_edges)) 7%nat
             (mkError ErrorK "" ("Error" ++ String LF "    at <anonymous>:1:1"))
             "Error" "    at <anonymous>:1:1" initial_state eq_refl eq_refl eq_refl).
Defined.

(** ** Computations that only add to the trace *)

Lemma adds_ret {A : Type} (a : A) : adds 0 0 (ret a).
Proof.
  intros st. exists []. cbn. rewrite app_nil_r. repeat split; lia.
Qed.

Lemma adds_throw {A : Type} (e : error_obj) : adds 0 0 (@throw A e).
Proof.
  intros st. exists []. cbn. rewrite app_nil_r. repeat split; lia.
Qed.

Lemma adds_fresh : adds 0 0 fresh.
Proof.
  intros st. exists []. cbn. rewrite app_nil_r. repeat split; lia.
Qed.

Lemma adds_test (d : string) (body : list assertion) : adds 1 0 (emit (Test d body)).
Proof.
  intros st. exists [Test d body]. cbn. repeat split; lia.
Qed.

Lemma adds_signal (v : value) : adds 0 1 (emit (SetNextRequest v)).
Proof.
  intros st. exists [SetNextRequest v]. cbn. repeat split; try lia.
  unfold aborts. cbn. destruct v; cbn; lia.
Qed.

Lemma adds_more {A : Type} (t s t' s' : nat) (m : M A) :
  (t <= t')%nat -> (s <= s')%nat -> adds t s m -> adds t' s' m.
Proof.
  intros Ht Hs H st. destruct (H st) as [new [He [H1 [H2 H3]]]].
  exists new. repeat split; try assumption; lia.
Qed.

Lemma adds_bind {A B : Type} (t s t' s' : nat) (m : M A) (k : A -> M B) :
  adds t s m -> (forall a, adds t' s' (k a)) -> adds (t + t') (s + s') (bind m k).
Proof.
  intros Hm Hk st. unfold bind.
  destruct (Hm st) as [new [He [H1 [H2 H3]]]].
  destruct (m st) as [[a|e] st1]; cbn [snd] in *.
  - destruct (Hk a st1) as [new' [He' [H1' [H2' H3']]]].
    exists (new ++ new')%list. rewrite He', He, app_assoc.
    unfold registered, aborts in *. rewrite !filter_app, !length_app.
    repeat split; lia.
  - exists new. repeat split; try assumption; lia.
Qed.

Lemma adds_if {A : Type} (t s : nat) (b : bool) (m m' : M A) :
  adds t s m -> adds t s m' -> adds t s (if b then m else m').
Proof. now destruct b. Qed.

(** What [adds] says in terms of the events a call emitted. *)
Lemma adds_emitted {A : Type} (t s : nat) (m : M A) (st : state) :
  adds t s m ->
  events (snd (m st)) = (events st ++ emitted st (m st))%list
  /\ (List.length (registered (emitted st (m st))) <= t)%nat
  /\ (aborts (emitted st (m st)) <= s)%nat.
Proof.
  intros H. destruct (H st) as [new [He [H1 [H2 _]]]].
  assert (Hnew : emitted st (m st) = new).
  { unfold emitted. rewrite He, skipn_app, skipn_all, Nat.sub_diag. reflexivity. }
  rewrite Hnew. now repeat split.
Qed.

(** ** The earlier functions *)





(** X4. The three earlier functions are one function: leaving out the
    time, or passing a falsy one, turns [commonTest] into
    [commonTestWithoutTime], and a falsy schema turns
    [commonTestWithSchema] into [commonTest]. *)
Theorem legacy_functions_agree
        (h : Host) (responseCode contentType time jsonSchema : value) (st : state) :
  (to_boolean time = false ->
   Legacy.commonTest h responseCode contentType time st
   = Legacy.commonTestWithoutTime h responseCode contentType st)
  /\ (to_boolean jsonSchema = false ->
      Legacy.commonTestWithSchema h responseCode contentType time jsonSchema st
      = Legacy.commonTest h responseCode contentType time st).
Proof.
  unfold Legacy.commonTest, Legacy.commonTestWithoutTime, Legacy.commonTestWithSchema.
  split; intros ->.
  - apply bind_cong. intros _ st'. apply bind_ret.
  - apply bind_cong. intros _ st1. apply bind_cong. intros _ st2.
    apply bind_ret_unit.
Qed.

Lemma legacy_functions_agree_witness :
  (to_boolean VUndefined = false
   /\ Legacy.commonTest sample_host (VNum (num 200)) (VStr "text/html") VUndefined
        initial_state
      = Legacy.commonTestWithoutTime sample_host (VNum (num 200)) (VStr "text/html")
          initial_state)
  /\ (to_boolean VNull = false
      /\ Legacy.commonTestWithSchema sample_host (VNum (num 200)) (VStr "text/html")
           (VNum (num 500)) VNull initial_state
         = Legacy.commonTest sample_host (VNum (num 200)) (VStr "text/html")
             (VNum (num 500)) initial_state).
Proof.
  split; (split; [reflexivity|]).
  - apply (proj1 (legacy_functions_agree sample_host (VNum (num 200)) (VStr "text/html")
                    VUndefined VUndefined initial_state) eq_refl).
  - apply (proj2 (legacy_functions_agree sample_host (VNum (num 200)) (VStr "text/html")
                    (VNum (num 500)) VNull initial_state) eq_refl).
Defined.

Lemma in_range_below (lo hi lo' hi' : Z) (c : number) :
  (hi' < lo)%Z ->
  in_range lo' hi' c = true -> in_range lo hi c = false.
Proof.
  unfold in_range. intros Hlt H.
  apply andb_true_iff in H as [_ H2].
  destruct (number_le (num lo) c) eqn:H1; [cbn [andb]|reflexivity].
  exfalso.
  pose proof (number_le_trans _ _ _ H1 H2) as H.
  unfold num in H. rewrite number_le_Fin, Qle_bool_iff, <- Zle_Qle in H. lia.
Qed.

Lemma legacy_status_number (h : Host) (c : number) (st : state) :
  Legacy.commonTestWithoutTime h (VNum c) VUndefined st
  = if in_range 200 399 c then
      emit (Test "should be a successful response" [HaveStatus (VNum c)]) st
    else if in_range 400 599 c then
      emit (Test "should be a unsuccessful response" [HaveStatus (VNum c)]) st
    else (Normal tt, st).
Proof.
  unfold Legacy.commonTestWithoutTime. cbn [to_boolean].
  rewrite !js_le_num. fold (in_range 200 399 c) (in_range 400 599 c).
  rewrite bind_ret_unit.
  destruct (in_range 200 399 c); [reflexivity|].
  destruct (in_range 400 599 c); reflexivity.
Qed.

(** X5. Which status codes the earlier functions check, against
    [checkStatusCode].  For a number in a bucket from 200 on, both register
    one test asserting that status; the earlier functions call it
    successful up to 399 and unsuccessful from 400.  An informational
    code, 100 to 199, is not checked at all by the earlier functions, where
    [checkStatusCode] registers a test; and a number outside [100,599] is
    passed over in silence, where [checkStatusCode] raises a RangeError. *)
Theorem legacy_status_coverage (h : Host) (c : number) (st : state) :
  (forall lo hi strict_label loose_label,
      In (lo, hi, strict_label, loose_label) status_buckets ->
      (200 <= lo)%Z ->
      in_range lo hi c = true ->
      emitted st (Legacy.commonTestWithoutTime h (VNum c) VUndefined st)
      = [Test (if (hi <=? 399)%Z then "should be a successful response"
               else "should be a unsuccessful response")
              [HaveStatus (VNum c)]]
      /\ emitted st (Loose.checkStatusCode h (VNum c) st)
         = [Test loose_label [HaveStatus (VNum c)]])
  /\ (in_range 100 199 c = true ->
      Legacy.commonTestWithoutTime h (VNum c) VUndefined st = (Normal tt, st)
      /\ emitted st (Loose.checkStatusCode h (VNum c) st)
         = [Test "should be an information response" [HaveStatus (VNum c)]])
  /\ (in_range 100 599 c = false ->
      Legacy.commonTestWithoutTime h (VNum c) VUndefined st = (Normal tt, st)
      /\ raises RangeErrorK (Loose.checkStatusCode h (VNum c) st)).
Proof.
  rewrite legacy_status_number, loose_checkStatusCode_number.
  split; [|split].
  - intros lo hi l1 l2 Hin Hlo Hc.
    rewrite (bucket_of_in _ _ _ _ _ Hin Hc). split; [|apply emitted_app].
    cbn [In status_buckets] in Hin.
    destruct Hin as [H|[H|[H|[H|[H|[]]]]]]; injection H as <- <- <- <-; try lia.
    + rewrite (in_range_narrow 200 299 200 399 c) by (lia || assumption).
      apply emitted_app.
    + rewrite (in_range_narrow 300 399 200 399 c) by (lia || assumption).
      apply emitted_app.
    + rewrite (in_range_disjoint 200 399 400 499 c) by (lia || assumption).
      rewrite (in_range_narrow 400 499 400 599 c) by (lia || assumption).
      apply emitted_app.
    + rewrite (in_range_disjoint 200 399 500 599 c) by (lia || assumption).
      rewrite (in_range_narrow 500 599 400 599 c) by (lia || assumption).
      apply emitted_app.
  - intros Hc.
    rewrite (in_range_below 200 399 100 199 c) by (lia || assumption).
    rewrite (in_range_below 400 599 100 199 c) by (lia || assumption).
    split; [reflexivity|].
    rewrite (bucket_of_in 100 199 "Status Code (Information)"
               "should be an information response" c)
      by (first [assumption|cbn; tauto]).
    apply emitted_app.
  - intros Hc.
    assert (narrow : forall lo hi, (100 <= lo)%Z -> (hi <= 599)%Z ->
                                   in_range lo hi c = false).
    { intros lo hi Hlo Hhi. destruct (in_range lo hi c) eqn:H; [|reflexivity].
      rewrite (in_range_narrow _ _ _ _ _ Hlo Hhi H) in Hc. discriminate. }
    rewrite !narrow by lia. split; [reflexivity|].
    rewrite (bucket_of_outside _ Hc). eexists; split; reflexivity.
Qed.

(** 404 is unsuccessful for the earlier functions and a client error for
    [checkStatusCode]; 102 and 700 are passed over by the former. *)
Lemma legacy_status_coverage_witness :
  (In (400, 499, "Status Code (Client Error)", "should be a client error response")%Z
      status_buckets
   /\ (200 <= 400)%Z
   /\ in_range 400 499 (num 404) = true
   /\ emitted initial_state
        (Legacy.commonTestWithoutTime sample_host (VNum (num 404)) VUndefined
           initial_state)
      = [Test "should be a unsuccessful response" [HaveStatus (VNum (num 404))]])
  /\ (in_range 100 199 (num 102) = true
      /\ Legacy.commonTestWithoutTime sample_host (VNum (num 102)) VUndefined
           initial_state
         = (Normal tt, initial_state))
  /\ (in_range 100 599 (num 700) = false
      /\ Legacy.commonTestWithoutTime sample_host (VNum (num 700)) VUndefined
           initial_state
         = (Normal tt, initial_state)).
Proof.
  split; [|split].
  - assert (Hin : In (400, 499, "Status Code (Client Error)",
                      "should be a client error response")%Z status_buckets)
      by (cbn; tauto).
    assert (Hlo : (200 <= 400)%Z) by lia.
    split; [exact Hin|]. split; [exact Hlo|]. split; [reflexivity|].
    apply (proj1 (legacy_status_coverage sample_host (num 404) initial_state)
             _ _ _ _ Hin Hlo eq_refl).
  - split; [reflexivity|].
    apply (proj1 (proj2 (legacy_status_coverage sample_host (num 102) initial_state))
             eq_refl).
  - split; [reflexivity|].
    apply (proj2 (proj2 (legacy_status_coverage sample_host (num 700) initial_state))
             eq_refl).
Defined.

(** ** What the library adds to the trace *)

Lemma adds_getFunctionName (v : value) : adds 0 0 (Strict.getFunctionNameFromInside v).
Proof.
  unfold Strict.getFunctionNameFromInside.
  apply adds_if; [|apply adds_throw].
  destruct v; try apply adds_throw.
  destruct (nth_error (split_lines (err_stack e)) 1); [apply adds_ret|apply adds_throw].
Qed.

Lemma adds_throw_named {A : Type} (k : error_kind) (MESSAGE fname : string) :
  adds 0 0 (@Strict.throw_named A k MESSAGE fname).
Proof.
  unfold Strict.throw_named.
  apply (@adds_bind _ _ 0 0 0 0); [apply adds_fresh|intros a].
  apply (@adds_bind _ _ 0 0 0 0); [apply adds_getFunctionName|intros name].
  apply adds_throw.
Qed.

Lemma adds_weaken_test {A : Type} (s : nat) (m : M A) : adds 0 0 m -> adds 1 s m.
Proof. apply adds_more; lia. Qed.

Lemma adds_abort_on (h : Host) (codes : list Z) : adds 0 1 (Strict.abort_on h codes).
Proof.
  induction codes as [|c rest IH]; cbn [Strict.abort_on].
  - apply (@adds_more _ 0 0 0 1); [lia|lia|apply adds_ret].
  - apply adds_if; [apply adds_signal|exact IH].
Qed.

Lemma adds_strict_convertTime (h : Host) (v : value) : adds 0 0 (Strict.convertTime h v).
Proof.
  unfold Strict.convertTime. apply adds_if; [apply adds_ret|apply adds_throw_named].
Qed.

Lemma adds_loose_convertTime (h : Host) (v : value) : adds 0 0 (Loose.convertTime h v).
Proof.
  unfold Loose.convertTime. apply adds_if; [apply adds_ret|apply adds_throw].
Qed.

Lemma adds_strict_call (h : Host) (f : assertion_function) (v : value) :
  adds 1 (match f with CheckStatusCode => 1 | _ => 0 end) (strict_call h f v).
Proof.
  destruct f; cbn [strict_call].
  - unfold Strict.checkStatusCode.
    apply adds_if; [|apply adds_weaken_test, adds_throw_named]. cbv zeta.
    apply (@adds_bind _ _ 0 0 1 1).
    + repeat apply adds_if; try apply adds_ret. apply adds_throw_named.
    + intros d. apply (@adds_bind _ _ 1 0 0 1); [apply adds_test|intros _].
      apply adds_if; [apply adds_abort_on|].
      apply (@adds_more _ 0 0 0 1); [lia|lia|apply adds_ret].
  - unfold Strict.checkContentType.
    apply adds_if; [apply adds_test|apply adds_weaken_test, adds_throw_named].
  - unfold Strict.checkTime.
    apply adds_if; [|apply adds_weaken_test, adds_throw_named].
    apply adds_if; [|apply adds_weaken_test, adds_throw_named].
    apply (@adds_bind _ _ 0 0 1 0); [apply adds_strict_convertTime|intros d].
    apply adds_test.
  - unfold Strict.checkJSONSchema.
    apply adds_if; [|apply adds_weaken_test, adds_throw_named]. cbv zeta.
    apply adds_test.
  - unfold Strict.checkLocation.
    apply adds_if; [apply adds_test|apply adds_weaken_test, adds_throw_named].
Qed.

Lemma adds_loose_call (h : Host) (f : assertion_function) (v : value) :
  adds 1 0 (loose_call h f v).
Proof.
  destruct f; cbn [loose_call].
  - unfold Loose.checkStatusCode. cbv zeta.
    repeat apply adds_if; try apply adds_test.
    apply adds_weaken_test, adds_throw.
  - apply adds_test.
  - unfold Loose.checkTime.
    apply adds_if; [|apply adds_weaken_test, adds_throw].
    apply (@adds_bind _ _ 0 0 1 0); [apply adds_loose_convertTime|intros d].
    apply adds_test.
  - unfold Loose.checkJSONSchema.
    apply adds_if; [apply adds_test|apply adds_weaken_test, adds_throw].
  - apply adds_test.
Qed.

Lemma adds_when_truthy (t s : nat) (v : value) (m : M unit) :
  adds t s m -> adds t s (when_truthy v m).
Proof.
  intros H. unfold when_truthy. apply adds_if; [exact H|].
  apply (@adds_more _ 0 0 t s); [lia|lia|apply adds_ret].
Qed.

Lemma adds_strict_log (h : Host) : adds 1 0 (Strict.logResponseBody h).
Proof. unfold Strict.logResponseBody. cbv zeta. apply adds_when_truthy, adds_test. Qed.

Lemma adds_loose_log (h : Host) : adds 1 0 (Loose.logResponseBody h).
Proof. unfold Loose.logResponseBody. apply adds_when_truthy, adds_test. Qed.

Lemma adds_strict_testCommon (h : Host) (statusCode contentType jsonSchema location : value) :
  adds 5 1 (Strict.testCommon h statusCode contentType jsonSchema location).
Proof.
  unfold Strict.testCommon.
  apply (@adds_bind _ _ 1 0 4 1); [apply adds_strict_log|intros _].
  apply (@adds_bind _ _ 1 1 3 0);
    [apply adds_when_truthy, (adds_strict_call h CheckStatusCode)|intros _].
  apply adds_if; [|apply (@adds_more _ 0 0 3 0); [lia|lia|apply adds_ret]].
  apply (@adds_bind _ _ 1 0 2 0);
    [apply adds_when_truthy, (adds_strict_call h CheckContentType)|intros _].
  apply (@adds_bind _ _ 1 0 1 0);
    [apply adds_when_truthy, (adds_strict_call h CheckJSONSchema)|intros _].
  apply adds_when_truthy, (adds_strict_call h CheckLocation).
Qed.

Lemma adds_loose_testCommon (h : Host) (statusCode contentType jsonSchema location : value) :
  adds 5 0 (Loose.testCommon h statusCode contentType jsonSchema location).
Proof.
  unfold Loose.testCommon.
  apply (@adds_bind _ _ 1 0 4 0); [apply adds_loose_log|intros _].
  apply (@adds_bind _ _ 1 0 3 0);
    [apply adds_when_truthy, (adds_loose_call h CheckStatusCode)|intros _].
  apply (@adds_bind _ _ 1 0 2 0);
    [apply adds_when_truthy, (adds_loose_call h CheckContentType)|intros _].
  apply (@adds_bind _ _ 1 0 1 0);
    [apply adds_when_truthy, (adds_loose_call h CheckJSONSchema)|intros _].
  apply adds_when_truthy, (adds_loose_call h CheckLocation).
Qed.

(** X6. [testCommon] and [testCommonAndTime] only add to the trace of the
    run, whatever their arguments and whether they return or raise:
    [testCommon] registers at most five tests and [testCommonAndTime] at
    most six, the stricter variant sends the abort signal at most once and
    the looser variant never. *)
Theorem testCommon_budget
        (h : Host) (statusCode time contentType jsonSchema location : value) :
  adds 5 1 (Strict.testCommon h statusCode contentType jsonSchema location)
  /\ adds 6 1 (Strict.testCommonAndTime h statusCode time contentType jsonSchema location)
  /\ adds 5 0 (Loose.testCommon h statusCode contentType jsonSchema location)
  /\ adds 6 0 (Loose.testCommonAndTime h statusCode time contentType jsonSchema location).
Proof.
  split; [apply adds_strict_testCommon|]. split; [|split].
  - unfold Strict.testCommonAndTime.
    apply (@adds_bind _ _ 5 1 1 0); [apply adds_strict_testCommon|intros _].
    apply adds_when_truthy, (adds_strict_call h CheckTime).
  - apply adds_loose_testCommon.
  - unfold Loose.testCommonAndTime.
    apply (@adds_bind _ _ 5 0 1 0); [apply adds_loose_testCommon|intros _].
    apply adds_when_truthy, (adds_loose_call h CheckTime).
Qed.

(** All six tests and no abort, on a response that is as expected. *)
Lemma testCommon_budget_reached :
  let h := mkHost sample_engine
             (mkResponse (num 201) "Created"
                [("Content-Type", "application/json"); ("Location", "/items/7")]
                "{}" (VObj 100 []) (num 120))
             (fun _ _ => None) in
  let r := Strict.testCommonAndTime h (VNum (num 201)) (VNum (num 500))
             (VStr "application/json") (VObj 101 []) (VStr "/items/7") initial_state in
  List.length (registered (emitted initial_state r)) = 6%nat
  /\ aborts (emitted initial_state r) = 0%nat.
Proof. cbv zeta. split; reflexivity. Qed.

Lemma adds_strict_checkStatusCode_match (h : Host) (c : number) :
  number_eq (code (response h)) c = true ->
  adds 1 0 (Strict.checkStatusCode h (VNum c)).
Proof.
  intros Hc st. rewrite strict_checkStatusCode_number.
  unfold abort_events. rewrite Hc. cbn [negb andb].
  destruct (bucket_of c) as [[[[lo hi] l1] l2]|]; cbn [snd events next_addr].
  - eexists. split; [reflexivity|]. cbn. repeat split; lia.
  - exists []. rewrite app_nil_r. cbn. repeat split; lia.
Qed.

Lemma strict_equals_number (n : number) (v : value) :
  strict_equals (VNum n) v = true -> exists c, v = VNum c /\ number_eq n c = true.
Proof.
  destruct v; try discriminate. intros H. now exists n0.
Qed.

Lemma adds_strict_testCommon_open
      (h : Host) (statusCode contentType jsonSchema location : value) :
  strict_equals (VNum (code (response h))) statusCode = true ->
  adds 5 0 (Strict.testCommon h statusCode contentType jsonSchema location).
Proof.
  intros Hopen. destruct (strict_equals_number _ _ Hopen) as [c [-> Hc]].
  unfold Strict.testCommon. rewrite Hopen.
  apply (@adds_bind _ _ 1 0 4 0); [apply adds_strict_log|intros _].
  apply (@adds_bind _ _ 1 0 3 0);
    [apply adds_when_truthy, adds_strict_checkStatusCode_match, Hc|intros _].
  apply (@adds_bind _ _ 1 0 2 0);
    [apply adds_when_truthy, (adds_strict_call h CheckContentType)|intros _].
  apply (@adds_bind _ _ 1 0 1 0);
    [apply adds_when_truthy, (adds_strict_call h CheckJSONSchema)|intros _].
  apply adds_when_truthy, (adds_strict_call h CheckLocation).
Qed.

(** X7. In the stricter variant a run that sends the abort signal has
    checked nothing but the status: when [testCommon] aborts, the response
    did not have the expected status, and the content type, the schema and
    the location it was given played no part. *)
Theorem abort_skips_secondary_checks
        (h : Host) (statusCode contentType jsonSchema location : value) (st : state) :
  aborts (emitted st (Strict.testCommon h statusCode contentType jsonSchema location st))
  = 1%nat ->
  strict_equals (VNum (code (response h))) statusCode = false
  /\ Strict.testCommon h statusCode contentType jsonSchema location st
     = Strict.testCommon h statusCode VUndefined VUndefined VUndefined st.
Proof.
  intros Habort.
  destruct (strict_equals (VNum (code (response h))) statusCode) eqn:Hgate.
  - exfalso.
    pose proof (adds_emitted 5 0 _ st
                  (adds_strict_testCommon_open h statusCode contentType jsonSchema
                     location Hgate)) as [_ [_ H]].
    lia.
  - split; [reflexivity|].
    unfold Strict.testCommon. now rewrite Hgate.
Qed.

(** A response 503 against an expected 200 aborts, and the content type is
    not looked at. *)
Lemma abort_skips_secondary_checks_witness :
  let h := mkHost sample_engine
             (mkResponse (num 503) "Service Unavailable" [] "" VNull (num 30))
             (fun _ _ => None) in
  aborts (emitted initial_state
            (Strict.testCommon h (VNum (num 200)) (VStr "text/html") VUndefined
               VUndefined initial_state)) = 1%nat
  /\ Strict.testCommon h (VNum (num 200)) (VStr "text/html") VUndefined VUndefined
       initial_state
     = Strict.testCommon h (VNum (num 200)) VUndefined VUndefined VUndefined
         initial_state.
Proof.
  cbv zeta. split; [reflexivity|].
  apply (abort_skips_secondary_checks
           (mkHost sample_engine
              (mkResponse (num 503) "Service Unavailable" [] "" VNull (num 30))
              (fun _ _ => None))
           (VNum (num 200)) (VStr "text/html") VUndefined VUndefined initial_state
           eq_refl).
Defined.

Lemma falsy_never_the_status (code0 : number) (v : value) :
  to_boolean v = false ->
  number_eq code0 (num 0) = false ->
  strict_equals (VNum code0) v = false.
Proof.
  intros Hfalsy Hcode. destruct v; try reflexivity.
  rewrite strict_equals_num. cbn [to_boolean] in Hfalsy.
  apply negb_false_iff, orb_true_iff in Hfalsy as [Hnan|Hzero].
  - destruct n; try discriminate Hnan. now destruct code0.
  - destruct n as [ | | |q]; try discriminate Hzero.
    destruct code0 as [ | | |x]; try reflexivity.
    cbn [number_eq num] in *.
    destruct (Qeq_bool x q) eqn:Hxq; [|reflexivity].
    apply Qeq_bool_iff in Hxq, Hzero.
    assert (Hx : Qeq_bool x (inject_Z 0) = true)
      by (apply Qeq_bool_iff; now rewrite Hxq).
    congruence.
Qed.

(** X8. Leaving out the status code.  In the stricter variant a falsy
    status code (undefined, null, 0, NaN, the empty string, false) closes
    the gate on the other checks as well: [testCommon] then only logs the
    body, whatever content type, schema and location it is given.  In the
    looser variant the same call still runs the other three checks. *)
Theorem testCommon_without_status
        (h : Host) (statusCode contentType jsonSchema location : value) (st : state) :
  to_boolean statusCode = false ->
  number_eq (code (response h)) (num 0) = false ->
  Strict.testCommon h statusCode contentType jsonSchema location st
  = Strict.logResponseBody h st
  /\ Loose.testCommon h statusCode contentType jsonSchema location st
     = (Loose.logResponseBody h ;;
        when_truthy contentType (Loose.checkContentType h contentType) ;;
        when_truthy jsonSchema (Loose.checkJSONSchema jsonSchema) ;;
        when_truthy location (Loose.checkLocation h location)) st.
Proof.
  intros Hfalsy Hcode. split.
  - unfold Strict.testCommon, when_truthy.
    rewrite Hfalsy, (falsy_never_the_status _ _ Hfalsy Hcode).
    transitivity (bind (Strict.logResponseBody h) (fun _ => ret tt) st);
      [apply bind_cong; intros _ st'; reflexivity|apply bind_ret_unit].
  - unfold Loose.testCommon, when_truthy at 1. rewrite Hfalsy.
    apply bind_cong. intros _ st'. reflexivity.
Qed.

(** With no status code the stricter variant ignores a content type the
    looser variant checks. *)
Lemma testCommon_without_status_witness :
  to_boolean VUndefined = false
  /\ number_eq (code (response sample_host)) (num 0) = false
  /\ emitted initial_state
       (Strict.testCommon sample_host VUndefined (VStr "text/html") VUndefined
          VUndefined initial_state)
     = [Test "Response Body: {}" []]
  /\ emitted initial_state
       (Loose.testCommon sample_host VUndefined (VStr "text/html") VUndefined
          VUndefined initial_state)
     = [Test "response body: {}" [];
        Test ("should be of type " ++ dq ++ "text/html" ++ dq)
          [TypeEqual (VStr "text/html")]].
Proof.
  split; [reflexivity|]. split; [reflexivity|]. split.
  - rewrite (proj1 (testCommon_without_status sample_host VUndefined (VStr "text/html")
                      VUndefined VUndefined initial_state eq_refl eq_refl)).
    reflexivity.
  - rewrite (proj2 (testCommon_without_status sample_host VUndefined (VStr "text/html")
                      VUndefined VUndefined initial_state eq_refl eq_refl)).
    reflexivity.
Defined.

(** X9. A falsy time limit (0, NaN, undefined, ...) is ignored, not
    refused: [testCommonAndTime] then is [testCommon], although
    [checkTime(0)] by itself raises a RangeError.  Both variants. *)
Theorem testCommonAndTime_without_time
        (h : Host) (statusCode time contentType jsonSchema location : value) (st : state) :
  to_boolean time = false ->
  Strict.testCommonAndTime h statusCode time contentType jsonSchema location st
  = Strict.testCommon h statusCode contentType jsonSchema location st
  /\ Loose.testCommonAndTime h statusCode time contentType jsonSchema location st
     = Loose.testCommon h statusCode contentType jsonSchema location st
  /\ raises RangeErrorK (Strict.checkTime h (VNum (num 0)) st)
  /\ raises RangeErrorK (Loose.checkTime h (VNum (num 0)) st).
Proof.
  intros Hfalsy.
  unfold Strict.testCommonAndTime, Loose.testCommonAndTime, when_truthy.
  rewrite Hfalsy. repeat split.
  - apply bind_ret_unit.
  - apply bind_ret_unit.
  - rewrite strict_checkTime_number. eexists; split; reflexivity.
  - rewrite loose_checkTime_number. eexists; split; reflexivity.
Qed.

Lemma testCommonAndTime_without_time_witness :
  to_boolean (VNum (num 0)) = false
  /\ Strict.testCommonAndTime sample_host (VNum (num 500)) (VNum (num 0))
       VUndefined VUndefined VUndefined initial_state
     = Strict.testCommon sample_host (VNum (num 500)) VUndefined VUndefined VUndefined
         initial_state.
Proof.
  split; [reflexivity|].
  apply (proj1 (testCommonAndTime_without_time sample_host (VNum (num 500))
                  (VNum (num 0)) VUndefined VUndefined VUndefined initial_state
                  eq_refl)).
Defined.

(** ** Functions that leave the trace alone *)

Lemma silent_ret {A : Type} (a : A) : silent (ret a).
Proof. intros st. reflexivity. Qed.

Lemma silent_throw {A : Type} (e : error_obj) : silent (@throw A e).
Proof. intros st. reflexivity. Qed.

Lemma silent_fresh : silent fresh.
Proof. intros st. reflexivity. Qed.

Lemma silent_bind {A B : Type} (m : M A) (k : A -> M B) :
  silent m -> (forall a, silent (k a)) -> silent (bind m k).
Proof.
  intros Hm Hk st. unfold bind. specialize (Hm st).
  destruct (m st) as [[a|e] st1]; cbn [snd] in *.
  - now rewrite (Hk a st1).
  - exact Hm.
Qed.

Lemma silent_if {A : Type} (b : bool) (m m' : M A) :
  silent m -> silent m' -> silent (if b then m else m').
Proof. now destruct b. Qed.

Lemma silent_getFunctionName (v : value) : silent (Strict.getFunctionNameFromInside v).
Proof.
  unfold Strict.getFunctionNameFromInside.
  apply silent_if; [|apply silent_throw].
  destruct v; try apply silent_throw.
  destruct (nth_error (split_lines (err_stack e)) 1); [apply silent_ret|apply silent_throw].
Qed.

Lemma silent_throw_named {A : Type} (k : error_kind) (MESSAGE fname : string) :
  silent (@Strict.throw_named A k MESSAGE fname).
Proof.
  unfold Strict.throw_named.
  apply silent_bind; [apply silent_fresh|intros a].
  apply silent_bind; [apply silent_getFunctionName|intros name].
  apply silent_throw.
Qed.

Lemma silent_build (l : literal) : silent (build l).
Proof.
  revert l. fix IH 1. intros [v|items|props]; cbn [build].
  - apply silent_ret.
  - apply silent_bind; [apply silent_fresh|intros a].
    apply silent_bind; [|intros vs; apply silent_ret].
    induction items as [|x rest IHrest]; [apply silent_ret|].
    apply silent_bind; [apply IH|intros v].
    apply silent_bind; [exact IHrest|intros vs; apply silent_ret].
  - apply silent_bind; [apply silent_fresh|intros a].
    apply silent_bind; [|intros ps; apply silent_ret].
    induction props as [|[k x] rest IHrest]; [apply silent_ret|].
    apply silent_bind; [apply IH|intros v].
    apply silent_bind; [exact IHrest|intros ps; apply silent_ret].
Qed.

Lemma silent_get_property (E : Engine) (fname : string) (v : value) (p : string) :
  silent (get_property E fname v p).
Proof. destruct v; first [apply silent_throw|apply silent_ret]. Qed.

Lemma silent_findIndex_from (callback : value -> M bool) (items : list value) (i : Z) :
  (forall x, silent (callback x)) -> silent (findIndex_from callback items i).
Proof.
  intros Hc. revert i. induction items as [|x rest IH]; intros i; cbn [findIndex_from].
  - apply silent_ret.
  - apply silent_bind; [apply Hc|intros found].
    apply silent_if; [apply silent_ret|apply IH].
Qed.

Lemma silent_search (E : Engine) (items : list value) (p : string) (val : value) :
  silent (i <- findIndex
                 (fun item =>
                    x <- get_property E "getIndexObjectInArray" item p ;;
                    ret (strict_equals x val))
                 items ;;
          ret (VNum (num i))).
Proof.
  apply silent_bind; [|intros i; apply silent_ret].
  apply silent_findIndex_from. intros x.
  apply silent_bind; [apply silent_get_property|intros y; apply silent_ret].
Qed.

(** X10. The helper functions only compute: none of them registers a
    test or signals the runner, whatever its arguments and whether it
    returns or raises.  Both variants. *)
Theorem helpers_leave_trace_alone (h : Host) (R : Arithmetic) :
  (forall array property val,
         silent (Strict.getIndexObjectInArray h array property val)
         /\ silent (Loose.getIndexObjectInArray h array property val))
  /\ (forall time, silent (Strict.convertTime h time) /\ silent (Loose.convertTime h time))
  /\ (forall items, silent (Strict.getSchemaHAL items) /\ silent (Loose.getSchemaHAL items))
  /\ (forall min max,
         silent (Strict.generateNumber h R min max)
         /\ silent (Loose.generateNumber h R min max))
  /\ (forall fuel length,
         silent (Strict.generateString h R fuel length)
         /\ silent (Loose.generateString h R fuel length)).
Proof.
  split; [|split; [|split; [|split]]].
  - intros array property val. split.
    + unfold Strict.getIndexObjectInArray.
      apply silent_if; [apply silent_search|apply silent_throw_named].
    + unfold Loose.getIndexObjectInArray.
      apply silent_if; [apply silent_search|apply silent_throw].
  - intros time. split.
    + unfold Strict.convertTime.
      apply silent_if; [apply silent_ret|apply silent_throw_named].
    + unfold Loose.convertTime.
      apply silent_if; [apply silent_ret|apply silent_throw].
  - intros items. split.
    + unfold Strict.getSchemaHAL.
      apply silent_bind.
      * destruct items; first [apply silent_build|apply silent_ret].
      * intros s. apply silent_if; [apply silent_build|apply silent_throw_named].
    + unfold Loose.getSchemaHAL.
      apply silent_bind.
      * destruct items; first [apply silent_build|apply silent_ret].
      * intros s. apply silent_build.
  - intros min max. split.
    + unfold Strict.generateNumber.
      apply silent_if; [|apply silent_throw_named].
      apply silent_if; [apply silent_ret|apply silent_throw_named].
    + unfold Loose.generateNumber.
      apply silent_if; [|apply silent_throw].
      apply silent_if; apply silent_ret.
  - intros fuel length. split.
    + unfold Strict.generateString.
      apply silent_if; [apply silent_ret|apply silent_throw_named].
    + unfold Loose.generateString.
      apply silent_if; [apply silent_ret|apply silent_throw].
Qed.

(** ** The messages of the stricter variant *)

Lemma throw_named_generate {A : Type} (k : error_kind) (MESSAGE fname : string)
      (st : state) :
  fname = "generateNumber" \/ fname = "generateString" ->
  @Strict.throw_named A k MESSAGE fname st
  = (Throw (new_error k (MESSAGE ++ " " ++ fname) fname),
     mkState (S (next_addr st)) (events st)).
Proof. intros [-> | ->]; reflexivity. Qed.

Lemma raises_with_new_error {A : Type} (k : error_kind) (msg fname : string) (st : state) :
  @raises_with A k msg (Throw (new_error k msg fname), st).
Proof. eexists. repeat split. Qed.

Lemma unrecognised_bucket (c : number) : recognised c = false -> bucket_of c = None.
Proof.
  intros Hrec. unfold bucket_of.
  destruct (find _ status_buckets) as [b|] eqn:Hfind; [|reflexivity].
  apply find_some in Hfind as [Hin Hb].
  assert (Hsome : recognised c = true)
    by (apply existsb_exists; exists b; split; assumption).
  congruence.
Qed.

(** X11. An error raised by the stricter variant says which function
    refused its argument.  The name is not written in the message: it is
    read back, by [getFunctionNameFromInside], from the stack of an error
    made on the spot.  For every function of the variant that checks its
    arguments the message is the fixed text followed by the name of that
    very function, for a TypeError and for a RangeError alike. *)
Theorem strict_errors_name_their_function (h : Host) (R : Arithmetic) (st : state) :
  (forall f v,
      class_of v <> documented_kind f ->
      raises_with TypeErrorK ("Wrong argument type for function " ++ function_name f)
        (strict_call h f v st))
  /\ (forall v,
         class_of v <> "Number" ->
         raises_with TypeErrorK "Wrong argument type for function convertTime"
           (Strict.convertTime h v st)
         /\ raises_with TypeErrorK "Wrong argument type for function generateString"
              (Strict.generateString h R 0 v st))
  /\ (forall array property val,
         isArray array = false
         \/ (exists x, In x (array_items array) /\ class_of x <> "Object")
         \/ class_of property <> "String" ->
         raises_with TypeErrorK "Wrong argument type for function getIndexObjectInArray"
           (Strict.getIndexObjectInArray h array property val st))
  /\ (forall v,
         v <> VUndefined -> class_of v <> "Object" ->
         raises_with TypeErrorK "Wrong argument type for function getSchemaHAL"
           (Strict.getSchemaHAL v st))
  /\ (forall min max,
         class_of min <> "Number" \/ class_of max <> "Number" ->
         raises_with TypeErrorK "Wrong argument type for function generateNumber"
           (Strict.generateNumber h R min max st))
  /\ (forall a b,
         number_le a b = false ->
         raises_with RangeErrorK "Argument out of range for function generateNumber"
           (Strict.generateNumber h R (VNum a) (VNum b) st))
  /\ (forall t,
         number_lt (num 0) t = false ->
         raises_with RangeErrorK "Argument out of range for function checkTime"
           (Strict.checkTime h (VNum t) st))
  /\ (forall c,
         recognised c = false ->
         raises_with RangeErrorK "Argument out of range for function checkStatusCode"
           (Strict.checkStatusCode h (VNum c) st)).
Proof.
  split; [|split; [|split; [|split; [|split; [|split; [|split]]]]]].
  - intros f v Hkind. rewrite strict_call_wrong_kind by exact Hkind.
    destruct f; apply raises_with_new_error.
  - intros v Hkind. apply String.eqb_neq in Hkind. split.
    + unfold Strict.convertTime. rewrite getType_class, Hkind.
      rewrite throw_named_known by known_function. apply raises_with_new_error.
    + unfold Strict.generateString. rewrite getType_class, Hkind.
      rewrite throw_named_generate by (now right). apply raises_with_new_error.
  - intros array property val Hbad. unfold Strict.getIndexObjectInArray.
    rewrite (strict_index_guard_fails _ _ Hbad).
    rewrite throw_named_known by known_function. apply raises_with_new_error.
  - intros v Hdefined Hkind. apply String.eqb_neq in Hkind.
    unfold Strict.getSchemaHAL.
    assert (Harg : (match v with
                    | VUndefined => build (LObj [])
                    | _ => ret v
                    end) st = (Normal v, st))
      by (destruct v; try reflexivity; contradiction).
    unfold bind at 1. rewrite Harg, getType_class, Hkind.
    rewrite throw_named_known by known_function. apply raises_with_new_error.
  - intros min max Hkind. unfold Strict.generateNumber. rewrite !getType_class.
    assert (Hguard : String.eqb (class_of min) "Number"
                     && String.eqb (class_of max) "Number" = false).
    { destruct Hkind as [H|H]; apply String.eqb_neq in H; rewrite H;
        [reflexivity|apply andb_false_r]. }
    rewrite Hguard. rewrite throw_named_generate by (now left).
    apply raises_with_new_error.
  - intros a b Hle. unfold Strict.generateNumber. rewrite !getType_class.
    change (String.eqb (class_of (VNum a)) "Number") with true.
    change (String.eqb (class_of (VNum b)) "Number") with true.
    cbn [andb]. rewrite js_le_num, Hle.
    rewrite throw_named_generate by (now left). apply raises_with_new_error.
  - intros t Ht. rewrite strict_checkTime_number, Ht. apply raises_with_new_error.
  - intros c Hc. rewrite strict_checkStatusCode_number, (unrecognised_bucket _ Hc).
    apply raises_with_new_error.
Qed.

(** [checkLocation(5)], [generateNumber(9, 1)] and [checkStatusCode(700)]. *)
Lemma strict_errors_name_their_function_witness :
  raises_with TypeErrorK "Wrong argument type for function checkLocation"
    (Strict.checkLocation (VNum (num 5)) initial_state)
  /\ raises_with RangeErrorK "Argument out of range for function generateNumber"
       (Strict.generateNumber sample_host
          (mkArithmetic (fun _ => num 0) (fun a _ => a) (fun a _ => a) (fun a _ => a)
             (fun a => a))
          (VNum (num 9)) (VNum (num 1)) initial_state)
  /\ raises_with RangeErrorK "Argument out of range for function checkStatusCode"
       (Strict.checkStatusCode sample_host (VNum (num 700)) initial_state).
Proof.
  pose (R := mkArithmetic (fun _ => num 0) (fun a _ => a) (fun a _ => a) (fun a _ => a)
               (fun a => a)).
  pose proof (strict_errors_name_their_function sample_host R initial_state) as H.
  split; [|split].
  - apply (proj1 H CheckLocation (VNum (num 5))). discriminate.
  - apply (proj1 (proj2 (proj2 (proj2 (proj2 (proj2 H))))) (num 9) (num 1)).
    reflexivity.
  - apply (proj2 (proj2 (proj2 (proj2 (proj2 (proj2 (proj2 H)))))) (num 700)).
    reflexivity.
Defined.

(** ** Kinds: [getType] against [typeof] *)


(** ** convertTime *)

(** X13. [convertTime] in the two variants: for a number both return the
    same text, in seconds from 1000 on and in milliseconds below, NaN and
    negative numbers included (there is no range check); for anything else
    both raise a TypeError. *)
Theorem convertTime_variants_agree (h : Host) (v : value) (st : state) :
  match v with
  | VNum t =>
      Strict.convertTime h v st
      = (Normal (if number_le (num 1000) t
                 then number_to_string (engine h) (number_div t (num 1000)) ++ "s"
                 else number_to_string (engine h) t ++ "ms"), st)
      /\ Loose.convertTime h v st = Strict.convertTime h v st
  | _ =>
      raises TypeErrorK (Strict.convertTime h v st)
      /\ raises TypeErrorK (Loose.convertTime h v st)
  end.
Proof.
  assert (Hother : class_of v <> "Number" -> typeof v <> "number" ->
                   raises TypeErrorK (Strict.convertTime h v st)
                   /\ raises TypeErrorK (Loose.convertTime h v st)).
  { intros H1 H2. apply String.eqb_neq in H1, H2.
    unfold Strict.convertTime, Loose.convertTime. rewrite getType_class, H1, H2.
    rewrite throw_named_known by known_function.
    split; eexists; split; reflexivity. }
  destruct v; try (apply Hother; discriminate).
  unfold Strict.convertTime, Loose.convertTime. rewrite getType_class, js_le_num.
  split; reflexivity.
Qed.

(** ** An error stops the sequence *)

Lemma emitted_events {A B : Type} (st : state) (r : completion A * state)
      (r' : completion B * state) :
  events (snd r) = events (snd r') -> emitted st r = emitted st r'.
Proof. unfold emitted. now intros ->. Qed.

Lemma log_returns_strict (h : Host) (st : state) :
  exists st', Strict.logResponseBody h st = (Normal tt, st').
Proof.
  unfold Strict.logResponseBody, when_truthy. cbv zeta.
  destruct (to_boolean _); eexists; reflexivity.
Qed.

Lemma log_returns_loose (h : Host) (st : state) :
  exists st', Loose.logResponseBody h st = (Normal tt, st').
Proof.
  unfold Loose.logResponseBody, when_truthy.
  destruct (to_boolean _); eexists; reflexivity.
Qed.

(** X14. A status code that is a number outside the buckets (and not 0 or
    NaN, which count as "not supplied") stops [testCommon] and
    [testCommonAndTime]: they raise the RangeError of [checkStatusCode],
    and nothing but the body log has been registered; the content type,
    schema, location and time they were given are not looked at.  Both
    variants. *)
Theorem bad_status_stops_testCommon
        (h : Host) (c : number) (time contentType jsonSchema location : value)
        (st : state) :
  to_boolean (VNum c) = true ->
  recognised c = false ->
  (raises RangeErrorK (Strict.testCommon h (VNum c) contentType jsonSchema location st)
   /\ emitted st (Strict.testCommon h (VNum c) contentType jsonSchema location st)
      = emitted st (Strict.logResponseBody h st)
   /\ raises RangeErrorK
        (Strict.testCommonAndTime h (VNum c) time contentType jsonSchema location st)
   /\ emitted st
        (Strict.testCommonAndTime h (VNum c) time contentType jsonSchema location st)
      = emitted st (Strict.logResponseBody h st))
  /\ (raises RangeErrorK (Loose.testCommon h (VNum c) contentType jsonSchema location st)
      /\ emitted st (Loose.testCommon h (VNum c) contentType jsonSchema location st)
         = emitted st (Loose.logResponseBody h st)
      /\ raises RangeErrorK
           (Loose.testCommonAndTime h (VNum c) time contentType jsonSchema location st)
      /\ emitted st
           (Loose.testCommonAndTime h (VNum c) time contentType jsonSchema location st)
         = emitted st (Loose.logResponseBody h st)).
Proof.
  intros Htruthy Hrec. pose proof (unrecognised_bucket _ Hrec) as Hnone. split.
  - destruct (log_returns_strict h st) as [st1 Hlog].
    assert (Hcommon : Strict.testCommon h (VNum c) contentType jsonSchema location st
                      = (Throw (new_error RangeErrorK
                                  (Strict.RANGE_ERROR_MESSAGE ++ " checkStatusCode")
                                  "checkStatusCode"),
                         mkState (S (next_addr st1)) (events st1))).
    { unfold Strict.testCommon, when_truthy. rewrite Htruthy.
      unfold bind at 1. rewrite Hlog. unfold bind at 1.
      now rewrite strict_checkStatusCode_number, Hnone. }
    assert (Htime : Strict.testCommonAndTime h (VNum c) time contentType jsonSchema
                      location st
                    = Strict.testCommon h (VNum c) contentType jsonSchema location st).
    { unfold Strict.testCommonAndTime, bind. now rewrite Hcommon. }
    rewrite Htime, Hcommon, Hlog.
    repeat split; try (eexists; split; reflexivity); now apply emitted_events.
  - destruct (log_returns_loose h st) as [st1 Hlog].
    assert (Hcommon : exists e,
               Loose.testCommon h (VNum c) contentType jsonSchema location st
               = (Throw e, st1) /\ err_kind e = RangeErrorK).
    { eexists. unfold Loose.testCommon, when_truthy. rewrite Htruthy.
      unfold bind at 1. rewrite Hlog. unfold bind at 1.
      rewrite loose_checkStatusCode_number, Hnone. split; reflexivity. }
    destruct Hcommon as [e [Hcommon Hkind]].
    assert (Htime : Loose.testCommonAndTime h (VNum c) time contentType jsonSchema
                      location st
                    = Loose.testCommon h (VNum c) contentType jsonSchema location st).
    { unfold Loose.testCommonAndTime, bind. now rewrite Hcommon. }
    rewrite Htime, Hcommon, Hlog.
    repeat split; try (exists e; split; [reflexivity|exact Hkind]);
      now apply emitted_events.
Qed.

(** [testCommon(700, "text/html")] on the sample response. *)
Lemma bad_status_stops_testCommon_witness :
  to_boolean (VNum (num 700)) = true
  /\ recognised (num 700) = false
  /\ raises RangeErrorK
       (Loose.testCommon sample_host (VNum (num 700)) (VStr "text/html") VUndefined
          VUndefined initial_state)
  /\ emitted initial_state
       (Strict.testCommon sample_host (VNum (num 700)) (VStr "text/html") VUndefined
          VUndefined initial_state)
     = [Test "Response Body: {}" []].
Proof.
  pose proof (bad_status_stops_testCommon sample_host (num 700) VUndefined
                (VStr "text/html") VUndefined VUndefined initial_state
                eq_refl eq_refl) as [[_ [Hs _]] [Hl _]].
  split; [reflexivity|]. split; [reflexivity|]. split; [exact Hl|].
  rewrite Hs. reflexivity.
Defined.

(** ** Random numbers and strings *)

Lemma number_lt_num (a b : Z) : number_lt (num a) (num b) = (a <? b)%Z.
Proof.
  unfold number_lt, num.
  destruct (Z.ltb_spec a b) as [H|H].
  - apply negb_true_iff. destruct (Qle_bool (inject_Z b) (inject_Z a)) eqn:Hq;
      [|reflexivity].
    apply Qle_bool_iff in Hq. rewrite <- Zle_Qle in Hq. lia.
  - apply negb_false_iff, Qle_bool_iff. now rewrite <- Zle_Qle.
Qed.

Lemma number_lt_le (a b : number) : number_lt b a = true -> number_le a b = false.
Proof.
  intros H. unfold number_le. rewrite H. cbn [negb]. apply andb_false_r.
Qed.

Lemma number_lt_le_swap (a b : number) : number_lt b a = true -> number_le b a = true.
Proof.
  destruct a as [ | | |x], b as [ | | |y]; try discriminate; try reflexivity.
  rewrite number_le_Fin. cbn [number_lt]. intros H.
  apply negb_true_iff in H. apply Qle_bool_iff.
  destruct (Qlt_le_dec x y) as [Hlt|Hle]; [|].
  - exfalso. apply Qlt_le_weak, Qle_bool_iff in Hlt. congruence.
  - exact Hle.
Qed.

(** X15. The order of the bounds of [generateNumber].  With [min <= max]
    the two variants compute the same number.  With [min > max] the
    stricter variant raises a RangeError, while the looser variant swaps
    the bounds and answers as for [generateNumber(max, min)].  A bound
    that is NaN is out of range for the stricter variant and yields a
    number all the same in the looser one. *)
Theorem generateNumber_bounds_order (h : Host) (R : Arithmetic) (a b : number) (st : state) :
  (number_le a b = true ->
   returns (Strict.generateNumber h R (VNum a) (VNum b) st)
   /\ Loose.generateNumber h R (VNum a) (VNum b) st
      = Strict.generateNumber h R (VNum a) (VNum b) st)
  /\ (number_lt b a = true ->
      raises RangeErrorK (Strict.generateNumber h R (VNum a) (VNum b) st)
      /\ returns (Loose.generateNumber h R (VNum a) (VNum b) st)
      /\ Loose.generateNumber h R (VNum a) (VNum b) st
         = Loose.generateNumber h R (VNum b) (VNum a) st)
  /\ (number_is_nan a || number_is_nan b = true ->
      raises RangeErrorK (Strict.generateNumber h R (VNum a) (VNum b) st)
      /\ returns (Loose.generateNumber h R (VNum a) (VNum b) st)).
Proof.
  assert (Hstrict : number_le a b = false ->
                    raises RangeErrorK (Strict.generateNumber h R (VNum a) (VNum b) st)).
  { intros Hle. unfold Strict.generateNumber. rewrite !getType_class.
    change (String.eqb (class_of (VNum a)) "Number") with true.
    change (String.eqb (class_of (VNum b)) "Number") with true.
    cbn [andb]. rewrite js_le_num, Hle.
    rewrite throw_named_generate by (now left). eexists; split; reflexivity. }
  assert (Hloose : returns (Loose.generateNumber h R (VNum a) (VNum b) st)).
  { unfold Loose.generateNumber. cbn [typeof String.eqb Ascii.eqb Bool.eqb andb].
    destruct (js_le _ _ _); eexists; reflexivity. }
  split; [|split].
  - intros Hle.
    unfold Strict.generateNumber, Loose.generateNumber. rewrite !getType_class.
    change (String.eqb (class_of (VNum a)) "Number") with true.
    change (String.eqb (class_of (VNum b)) "Number") with true.
    cbn [typeof String.eqb Ascii.eqb Bool.eqb andb]. rewrite js_le_num, Hle.
    split; [eexists; reflexivity|reflexivity].
  - intros Hlt. split; [apply Hstrict, number_lt_le, Hlt|]. split; [exact Hloose|].
    unfold Loose.generateNumber.
    cbn [typeof String.eqb Ascii.eqb Bool.eqb andb to_number].
    rewrite !js_le_num, (number_lt_le _ _ Hlt), (number_lt_le_swap _ _ Hlt).
    reflexivity.
  - intros Hnan. split; [|exact Hloose]. apply Hstrict.
    destruct a, b; try discriminate Hnan; reflexivity.
Qed.

(** [generateNumber(1, 6)] and [generateNumber(6, 1)] for a generator that
    answers one half. *)
Lemma generateNumber_bounds_order_witness :
  let R := mkArithmetic (fun _ => Fin (1 # 2)) (fun a _ => a) (fun a _ => a)
             (fun a _ => a) (fun a => a) in
  (number_le (num 1) (num 6) = true
   /\ Loose.generateNumber sample_host R (VNum (num 1)) (VNum (num 6)) initial_state
      = Strict.generateNumber sample_host R (VNum (num 1)) (VNum (num 6)) initial_state)
  /\ (number_lt (num 1) (num 6) = true
      /\ raises RangeErrorK
           (Strict.generateNumber sample_host R (VNum (num 6)) (VNum (num 1))
              initial_state))
  /\ (number_is_nan NaN || number_is_nan (num 1) = true
      /\ raises RangeErrorK
           (Strict.generateNumber sample_host R (VNum NaN) (VNum (num 1)) initial_state)).
Proof.
  cbv zeta.
  set (R := mkArithmetic (fun _ => Fin (1 # 2)) (fun a _ => a) (fun a _ => a)
              (fun a _ => a) (fun a => a)).
  split; [|split]; (split; [reflexivity|]).
  - apply (proj1 (generateNumber_bounds_order sample_host R (num 1) (num 6)
                    initial_state) eq_refl).
  - apply (proj1 (proj2 (generateNumber_bounds_order sample_host R (num 6) (num 1)
                           initial_state)) eq_refl).
  - apply (proj2 (proj2 (generateNumber_bounds_order sample_host R NaN (num 1)
                           initial_state)) eq_refl).
Defined.

Lemma charAt_letter (z : Z) :
  (0 <= z < 52)%Z ->
  exists c, charAt Strict.CHARACTERS (num z) = String c "" /\ is_letter c = true.
Proof.
  intros Hz. unfold charAt, num. cbn [Qnum Qden inject_Z].
  rewrite Z.quot_1_r.
  change (Z.of_nat (String.length Strict.CHARACTERS)) with 52%Z.
  destruct (Z.leb_spec 0 z) as [_|]; [|lia].
  destruct (Z.ltb_spec z 52) as [_|]; [|lia].
  cbn [andb].
  assert (Hk : (Z.to_nat z < 52)%nat) by lia.
  generalize dependent (Z.to_nat z). intros k Hk.
  do 52 (destruct k as [|k]; [eexists; split; reflexivity|]).
  lia.
Qed.

Lemma is_letter_app (s t : string) :
  forallb is_letter (chars s) = true -> forallb is_letter (chars t) = true ->
  forallb is_letter (chars (s ++ t)) = true.
Proof.
  intros Hs Ht. rewrite chars_append, forallb_app, Hs, Ht. reflexivity.
Qed.

Lemma generateString_loop_letters
      (h : Host) (R : Arithmetic) (n : nat) (fuel i : nat) (text : string) :
  draws_in_alphabet R n ->
  (i <= n)%nat -> (n - i < fuel)%nat ->
  forallb is_letter (chars text) = true ->
  exists result,
    Strict.generateString_loop h R fuel (VNum (num (Z.of_nat n))) i text = Some result
    /\ String.length result = (String.length text + (n - i))%nat
    /\ forallb is_letter (chars result) = true.
Proof.
  intros Hdraws. revert i text.
  induction fuel as [|fuel IH]; intros i text Hi Hfuel Htext; [lia|].
  cbn [Strict.generateString_loop]. rewrite js_lt_num, number_lt_num.
  destruct (Z.ltb_spec (Z.of_nat i) (Z.of_nat n)) as [Hlt|Hge].
  - destruct (Hdraws i) as [z [Hz Hrange]]; [lia|].
    change (Z.of_nat (String.length Strict.CHARACTERS)) with 52%Z.
    rewrite Hz. destruct (charAt_letter z Hrange) as [c [Hc Hletter]]. rewrite Hc.
    destruct (IH (S i) (text ++ String c "")) as [result [Hr [Hlen Hall]]];
      try lia.
    + apply is_letter_app; [exact Htext|].
      cbn [chars list_ascii_of_string forallb]. now rewrite Hletter.
    + exists result. split; [exact Hr|]. split; [|exact Hall].
      rewrite Hlen, length_append. cbn [String.length]. lia.
  - exists text. split; [reflexivity|]. split; [lia|exact Htext].
Qed.

Lemma generateString_loop_endless (h : Host) (R : Arithmetic) (fuel i : nat) (text : string) :
  Strict.generateString_loop h R fuel (VNum PosInf) i text = None.
Proof.
  revert i text. induction fuel as [|fuel IH]; intros i text; [reflexivity|].
  cbn [Strict.generateString_loop]. rewrite js_lt_num. cbn [number_lt num]. apply IH.
Qed.

Lemma generateString_same_loop (h : Host) (R : Arithmetic) (fuel : nat) (length : value)
      (i : nat) (text : string) :
  Loose.generateString_loop h R fuel length i text
  = Strict.generateString_loop h R fuel length i text.
Proof.
  revert i text. induction fuel as [|fuel IH]; intros i text; [reflexivity|].
  cbn [Loose.generateString_loop Strict.generateString_loop]. rewrite IH. reflexivity.
Qed.

(** X16. [generateString].  Given enough turns the loop ends: for a
    whole number [n] it returns, in both variants, the same text of
    exactly [n] letters of the Latin alphabet (the draws being integers
    from 0 to 51); for a length that does not compare above zero (zero, a
    negative number, NaN) it returns the empty text; for [Infinity] the
    loop never ends, however many turns it is given. *)
Theorem generateString_length (h : Host) (R : Arithmetic) (st : state) :
  (forall n fuel,
      draws_in_alphabet R n -> (n < fuel)%nat ->
      exists text,
        Strict.generateString h R fuel (VNum (num (Z.of_nat n))) st
        = (Normal (Some text), st)
        /\ Loose.generateString h R fuel (VNum (num (Z.of_nat n))) st
           = (Normal (Some text), st)
        /\ String.length text = n
        /\ forallb is_letter (chars text) = true)
  /\ (forall t fuel,
         number_lt (num 0) t = false ->
         Strict.generateString h R (S fuel) (VNum t) st = (Normal (Some ""), st)
         /\ Loose.generateString h R (S fuel) (VNum t) st = (Normal (Some ""), st))
  /\ (forall fuel,
         Strict.generateString h R fuel (VNum PosInf) st = (Normal None, st)
         /\ Loose.generateString h R fuel (VNum PosInf) st = (Normal None, st)).
Proof.
  assert (Hstrict : forall fuel t,
             Strict.generateString h R fuel (VNum t) st
             = (Normal (Strict.generateString_loop h R fuel (VNum t) 0 ""), st)).
  { intros fuel t. unfold Strict.generateString. now rewrite getType_class. }
  assert (Hloose : forall fuel t,
             Loose.generateString h R fuel (VNum t) st
             = (Normal (Strict.generateString_loop h R fuel (VNum t) 0 ""), st)).
  { intros fuel t. unfold Loose.generateString.
    cbn [typeof String.eqb Ascii.eqb Bool.eqb].
    now rewrite generateString_same_loop. }
  split; [|split].
  - intros n fuel Hdraws Hfuel.
    destruct (generateString_loop_letters h R n fuel 0 "" Hdraws)
      as [text [Hloop [Hlen Hall]]]; try lia; [reflexivity|].
    exists text. rewrite Hstrict, Hloose, Hloop.
    repeat split; try assumption. rewrite Hlen. cbn. lia.
  - intros t fuel Ht. rewrite Hstrict, Hloose.
    cbn [Strict.generateString_loop]. rewrite js_lt_num.
    change (num (Z.of_nat 0)) with (num 0). rewrite Ht. split; reflexivity.
  - intros fuel. rewrite Hstrict, Hloose, generateString_loop_endless.
    split; reflexivity.
Qed.

(** Three letters from a generator that always draws the index 27, and
    the empty text for the length -1. *)
Lemma generateString_length_witness :
  let R := mkArithmetic (fun _ => num 0) (fun a _ => a) (fun a _ => a)
             (fun _ _ => num 27) (fun a => a) in
  (draws_in_alphabet R 3
   /\ (3 < 5)%nat
   /\ exists text,
       Strict.generateString sample_host R 5 (VNum (num 3)) initial_state
       = (Normal (Some text), initial_state)
       /\ Loose.generateString sample_host R 5 (VNum (num 3)) initial_state
          = (Normal (Some text), initial_state)
       /\ String.length text = 3%nat
       /\ forallb is_letter (chars text) = true)
  /\ (number_lt (num 0) (num (-1)) = false
      /\ Strict.generateString sample_host R 1 (VNum (num (-1))) initial_state
         = (Normal (Some ""), initial_state)).
Proof.
  cbv zeta.
  set (R := mkArithmetic (fun _ => num 0) (fun a _ => a) (fun a _ => a)
              (fun _ _ => num 27) (fun a => a)).
  assert (Hdraws : draws_in_alphabet R 3).
  { intros k _. exists 27%Z. split; [reflexivity|lia]. }
  assert (Hfuel : (3 < 5)%nat) by lia.
  split.
  - split; [exact Hdraws|]. split; [exact Hfuel|].
    exact (proj1 (generateString_length sample_host R initial_state) 3%nat 5%nat
             Hdraws Hfuel).
  - split; [reflexivity|].
    apply (proj1 (proj2 (generateString_length sample_host R initial_state))
             (num (-1)) 0%nat eq_refl).
Defined.

(** ** The ISO date-time pattern *)

Lemma compile_ISODateTime : compile regex_ISODateTime = Some ISO_regex.
Proof. vm_compute. reflexivity. Qed.

Lemma reaches_repeat (a : atom) (lo : nat) (hi : option nat) (i : nat) (s : list ascii)
      (P : position_in -> Prop) :
  reaches (Repeat a lo hi) (i, s) P
  <-> exists run rest,
        s = (run ++ rest)%list
        /\ forallb (atom_matches a) run = true
        /\ (lo <= List.length run)%nat
        /\ match hi with Some m => (List.length run <= m)%nat | None => True end
        /\ P ((i + List.length run)%nat, rest).
Proof.
  unfold reaches. cbn [denote fst snd]. split.
  - intros [[j t] [[run [Hs [Hall [Hlo [Hhi Hj]]]]] HP]]. cbn [fst snd] in *.
    exists run, t. subst j. now repeat split.
  - intros [run [rest [Hs [Hall [Hlo [Hhi HP]]]]]].
    exists ((i + List.length run)%nat, rest). split; [|exact HP].
    exists run. cbn [fst snd]. now repeat split.
Qed.

Lemma at_most_one (c : list ascii) :
  forallb (atom_matches AAny) c = true /\ (List.length c <= 1)%nat
  <-> c = [] \/ exists x, c = [x] /\ atom_matches AAny x = true.
Proof.
  split.
  - intros [Hall Hlen]. destruct c as [|x [|y c]]; [now left| |cbn in Hlen; lia].
    right. exists x. split; [reflexivity|].
    cbn [forallb] in Hall. now apply andb_true_iff in Hall.
  - intros [-> | [x [-> Hx]]]; cbn [forallb List.length].
    + split; [reflexivity|lia].
    + rewrite Hx. split; [reflexivity|lia].
Qed.

Lemma reaches_ISO_body (i : nat) (s : list ascii) (Q : list ascii -> Prop) :
  reaches ISO_body (i, s) (fun q => Q (snd q))
  <-> exists y mo d hh mi ss sep frac rest,
        s = (y ++ "-"%char :: mo ++ "-"%char :: d ++ "T"%char :: hh ++ ":"%char
               :: mi ++ ":"%char :: ss ++ sep ++ frac ++ "Z"%char :: rest)%list
        /\ digit_group 4 y /\ digit_group 2 mo /\ digit_group 2 d
        /\ digit_group 2 hh /\ digit_group 2 mi /\ digit_group 2 ss
        /\ (sep = [] \/ exists c, sep = [c] /\ atom_matches AAny c = true)
        /\ forallb digit_char frac = true
        /\ Q rest.
Proof.
  unfold ISO_body, digit_group, digit_char. split.
  - intros H.
    apply reaches_seq, reaches_exactly in H as [y [r1 [-> [L1 [A1 H]]]]].
    apply reaches_seq, reaches_char in H as [r1' [-> H]].
    apply reaches_seq, reaches_exactly in H as [mo [r2 [-> [L2 [A2 H]]]]].
    apply reaches_seq, reaches_char in H as [r2' [-> H]].
    apply reaches_seq, reaches_exactly in H as [d [r3 [-> [L3 [A3 H]]]]].
    apply reaches_seq, reaches_char in H as [r3' [-> H]].
    apply reaches_seq, reaches_exactly in H as [hh [r4 [-> [L4 [A4 H]]]]].
    apply reaches_seq, reaches_char in H as [r4' [-> H]].
    apply reaches_seq, reaches_exactly in H as [mi [r5 [-> [L5 [A5 H]]]]].
    apply reaches_seq, reaches_char in H as [r5' [-> H]].
    apply reaches_seq, reaches_exactly in H as [ss [r6 [-> [L6 [A6 H]]]]].
    apply reaches_seq, reaches_repeat in H as [sep [r7 [-> [A7 [_ [L7 H]]]]]].
    apply reaches_seq, reaches_repeat in H as [frac [r8 [-> [A8 [_ [_ H]]]]]].
    apply reaches_seq, reaches_char in H as [rest [-> H]].
    apply reaches_eps in H. cbn [snd] in H.
    exists y, mo, d, hh, mi, ss, sep, frac, rest.
    repeat split; try assumption.
    apply at_most_one. now split.
  - intros (y & mo & d & hh & mi & ss & sep & frac & rest & -> & [L1 A1] & [L2 A2]
             & [L3 A3] & [L4 A4] & [L5 A5] & [L6 A6] & Hsep & Hfrac & HQ).
    apply at_most_one in Hsep as [A7 L7].
    apply reaches_seq, reaches_exactly. eexists y, _. repeat split; try eassumption.
    apply reaches_seq, reaches_char. eexists. split; [reflexivity|].
    apply reaches_seq, reaches_exactly. eexists mo, _. repeat split; try eassumption.
    apply reaches_seq, reaches_char. eexists. split; [reflexivity|].
    apply reaches_seq, reaches_exactly. eexists d, _. repeat split; try eassumption.
    apply reaches_seq, reaches_char. eexists. split; [reflexivity|].
    apply reaches_seq, reaches_exactly. eexists hh, _. repeat split; try eassumption.
    apply reaches_seq, reaches_char. eexists. split; [reflexivity|].
    apply reaches_seq, reaches_exactly. eexists mi, _. repeat split; try eassumption.
    apply reaches_seq, reaches_char. eexists. split; [reflexivity|].
    apply reaches_seq, reaches_exactly. eexists ss, _. repeat split; try eassumption.
    apply reaches_seq, reaches_repeat. eexists sep, _.
    split; [reflexivity|]. split; [exact A7|]. split; [lia|]. split; [exact L7|].
    apply reaches_seq, reaches_repeat. eexists frac, _.
    split; [reflexivity|]. split; [exact Hfrac|]. split; [lia|]. split; [exact I|].
    apply reaches_seq, reaches_char. eexists. split; [reflexivity|].
    apply reaches_eps. exact HQ.
Qed.

Lemma matchable_ISO (i : nat) (s : list ascii) :
  matchable ISO_regex (i, s)
  <-> i = 0%nat /\ ISO_datetime s /\ ~ begins_with (chars zero_date) s.
Proof.
  unfold ISO_regex. rewrite matchable_bol, matchable_seq.
  cbn [denote]. split.
  - intros [-> [m [[-> Hno] Hm]]]. split; [reflexivity|].
    apply matchable_seq in Hm as [m [Hg He]]. cbn [denote] in Hg.
    apply matchable_end in He.
    assert (Hr : reaches ISO_body (0%nat, s) (fun q => snd q = []))
      by (exists m; now split).
    apply (reaches_ISO_body 0 s (fun l => l = [])) in Hr
      as (y & mo & d & hh & mi & ss & sep & frac & rest & Hs & G1 & G2 & G3 & G4 & G5
          & G6 & Hsep & Hfrac & Hrest).
    subst rest. split.
    + exists y, mo, d, hh, mi, ss, sep, frac. split; [exact Hs|tauto].
    + intros [rest Hrest].
      assert (Hz : matchable (literal_regex (chars zero_date) Eps) (0%nat, s)).
      { apply matchable_literal. exists rest. split; [exact Hrest|apply matchable_eps]. }
      destruct Hz as [q Hq]. exact (Hno q Hq).
  - intros [-> [[y [mo [d [hh [mi [ss [sep [frac [Hs G]]]]]]]]] Hno]].
    split; [reflexivity|].
    eexists. split.
    + split; [reflexivity|]. intros q Hq. apply Hno.
      assert (Hz : matchable (literal_regex (chars zero_date) Eps) (0%nat, s))
        by (now exists q).
      apply matchable_literal in Hz as [rest [Hrest _]]. now exists rest.
    + assert (Hr : reaches ISO_body (0%nat, s) (fun q => snd q = [])).
      { apply (reaches_ISO_body 0 s (fun l => l = [])).
        exists y, mo, d, hh, mi, ss, sep, frac, [].
        split; [exact Hs|]. tauto. }
      destruct Hr as [m [Hg He]].
      apply matchable_seq. exists m. split; [exact Hg|now apply matchable_end].
Qed.

(** X17. The strings the ISO date-time pattern of both variants matches:
    exactly those made of four digits, a hyphen, two digits, a hyphen, two
    digits, [T], two digits, a colon, two digits, a colon, two digits, then
    at most one character of any kind (the dot of the pattern is not
    escaped), then any number of digits and a final [Z], the date
    [0001-01-01T00:00:00Z] excepted.  The digits are not checked as a
    date: month 99 passes, and so does a letter in place of the decimal
    point, while a time with a zone offset does not. *)
Theorem ISODateTime_pattern_language (s : string) :
  (matches Strict.getRegexISODateTime s = Some true
   <-> ISO_datetime (chars s) /\ ~ begins_with (chars zero_date) (chars s))
  /\ Loose.getRegexISODateTime = Strict.getRegexISODateTime
  /\ matches Strict.getRegexISODateTime "2019-05-26T10:15:30.250Z" = Some true
  /\ matches Strict.getRegexISODateTime "2019-99-99T99:99:99Z" = Some true
  /\ matches Strict.getRegexISODateTime "2019-05-26T10:15:30x250Z" = Some true
  /\ matches Strict.getRegexISODateTime "2019-05-26T10:15:30+02:00" = Some false
  /\ matches Strict.getRegexISODateTime zero_date = Some false.
Proof.
  split; [|repeat split; vm_compute; reflexivity].
  change Strict.getRegexISODateTime with regex_ISODateTime.
  rewrite (matches_compiled _ _ s compile_ISODateTime), test_matchable. split.
  - intros [before [rest [Hs Hm]]]. apply matchable_ISO in Hm as [Hlen Hm].
    destruct before; [|discriminate Hlen]. cbn [app] in Hs. now subst rest.
  - intros H. exists [], (chars s). split; [reflexivity|].
    apply matchable_ISO. now split.
Qed.

(** ** The looser search and [null] *)

Lemma findIndex_from_prefix (callback : value -> M bool) (f : value -> bool)
      (before rest : list value) (i : Z) (st : state) :
  (forall x, In x before -> callback x st = (Normal (f x), st)) ->
  findIndex_from callback (before ++ rest)%list i st
  = if existsb f before then (Normal (first_index f before i), st)
    else findIndex_from callback rest (i + Z.of_nat (List.length before))%Z st.
Proof.
  revert i. induction before as [|x before IH]; intros i Hpure.
  - cbn [app existsb List.length Z.of_nat]. now rewrite Z.add_0_r.
  - cbn [app findIndex_from existsb first_index]. unfold bind at 1.
    rewrite (Hpure x (in_eq x before)).
    destruct (f x); cbn [orb]; [reflexivity|].
    rewrite IH by (intros y Hy; apply Hpure; now right).
    destruct (existsb f before); [reflexivity|].
    f_equal. cbn [List.length]. lia.
Qed.

Lemma objects_not_null (items : list value) :
  forallb (fun x => String.eqb (typeof x) "object" && negb (is_null x)) items = true ->
  forallb (fun x => String.eqb (typeof x) "object") items = true
  /\ forall x, In x items -> x <> VUndefined /\ x <> VNull.
Proof.
  intros Hall. rewrite forallb_forall in Hall. split.
  - apply forallb_forall. intros x Hx. specialize (Hall x Hx).
    now apply andb_true_iff in Hall.
  - intros x Hx. specialize (Hall x Hx).
    destruct x; try discriminate Hall; split; discriminate.
Qed.

(** X18. [null] among the elements.  [typeof null] is "object", so the
    looser [getIndexObjectInArray] lets an array with a [null] element
    through and starts to search.  If an element before the [null] has the
    value, its index is returned; if none has, reading the property of
    [null] raises the engine's TypeError.  The stricter variant refuses the
    array in both cases. *)
Theorem loose_search_reaches_null
        (h : Host) (a : addr) (before after : list value) (p : string) (val : value)
        (st : state) :
  forallb (fun x => String.eqb (typeof x) "object" && negb (is_null x)) before = true ->
  forallb (fun x => String.eqb (typeof x) "object") after = true ->
  let items := (before ++ VNull :: after)%list in
  let found := existsb (fun x => strict_equals (property_value (engine h) x p) val)
                 before in
  (found = true ->
   exists i,
     Loose.getIndexObjectInArray h (VArr a items) (VStr p) val st
     = (Normal (VNum (num i)), st)
     /\ (0 <= i < Z.of_nat (List.length before))%Z
     /\ first_match (engine h) before p val i)
  /\ (found = false ->
      raises TypeErrorK (Loose.getIndexObjectInArray h (VArr a items) (VStr p) val st))
  /\ raises TypeErrorK (Strict.getIndexObjectInArray h (VArr a items) (VStr p) val st).
Proof.
  intros Hbefore Hafter items found.
  destruct (objects_not_null _ Hbefore) as [Htypeof Hdefined].
  set (f := fun x => strict_equals (property_value (engine h) x p) val) in *.
  assert (Hguard : forallb (fun item => String.eqb (typeof item) "object") items = true).
  { unfold items. rewrite forallb_app. cbn [forallb typeof].
    now rewrite Htypeof, Hafter. }
  assert (Hsearch :
            findIndex
              (fun item =>
                 x <- get_property (engine h) "getIndexObjectInArray" item p ;;
                 ret (strict_equals x val))
              items st
            = if found then (Normal (first_index f before 0), st)
              else findIndex_from
                     (fun item =>
                        x <- get_property (engine h) "getIndexObjectInArray" item p ;;
                        ret (strict_equals x val))
                     (VNull :: after) (0 + Z.of_nat (List.length before))%Z st).
  { unfold findIndex, items. apply findIndex_from_prefix.
    intros x Hx. destruct (Hdefined x Hx) as [H1 H2].
    unfold bind. now rewrite get_property_defined. }
  assert (Hloose :
            Loose.getIndexObjectInArray h (VArr a items) (VStr p) val st
            = bind (findIndex
                      (fun item =>
                         x <- get_property (engine h) "getIndexObjectInArray" item p ;;
                         ret (strict_equals x val))
                      items)
                (fun i => ret (VNum (num i))) st).
  { unfold Loose.getIndexObjectInArray. cbn [isArray array_items typeof].
    rewrite Hguard. reflexivity. }
  split; [|split].
  - intros Hfound. exists (first_index f before 0).
    rewrite Hloose. unfold bind at 1. rewrite Hsearch, Hfound.
    split; [reflexivity|].
    apply existsb_exists in Hfound.
    destruct (first_index_found f before 0 Hfound) as [n [x [H1 [H2 [H3 H4]]]]].
    assert (Hn : (n < List.length before)%nat)
      by (apply nth_error_Some; congruence).
    split; [lia|].
    right. exists n, x. split; [lia|]. now repeat split.
  - intros Hfound. rewrite Hloose. unfold bind at 1. rewrite Hsearch, Hfound.
    cbn [findIndex_from]. eexists; split; reflexivity.
  - unfold Strict.getIndexObjectInArray.
    rewrite strict_index_guard_fails.
    + rewrite throw_named_known by known_function. eexists; split; reflexivity.
    + right. left. exists VNull. split; [|discriminate].
      cbn [array_items]. unfold items. apply in_or_app. right. now left.
Qed.

(** [[{id: 1}, null]] searched for id 1 and for id 2. *)
Lemma loose_search_reaches_null_witness :
  let one := VObj 2 [("id", VNum (num 1))] in
  Loose.getIndexObjectInArray sample_host (VArr 1 [one; VNull]) (VStr "id")
    (VNum (num 1)) initial_state
  = (Normal (VNum (num 0)), initial_state)
  /\ raises TypeErrorK
       (Loose.getIndexObjectInArray sample_host (VArr 1 [one; VNull]) (VStr "id")
          (VNum (num 2)) initial_state)
  /\ raises TypeErrorK
       (Strict.getIndexObjectInArray sample_host (VArr 1 [one; VNull]) (VStr "id")
          (VNum (num 1)) initial_state).
Proof.
  cbv zeta. split; [reflexivity|].
  pose proof (loose_search_reaches_null sample_host 1
                [VObj 2 [("id", VNum (num 1))]] [] "id" (VNum (num 2)) initial_state
                eq_refl eq_refl) as H.
  cbv zeta in H. split.
  - apply (proj1 (proj2 H)). reflexivity.
  - apply (proj2 (proj2 (loose_search_reaches_null sample_host 1
                           [VObj 2 [("id", VNum (num 1))]] [] "id" (VNum (num 1))
                           initial_state eq_refl eq_refl))).
Defined.

(** ** The GUID pattern, in full *)

Lemma hex_is_alnum (c : ascii) : hex_char c = true -> alnum_char c = true.
Proof.
  destruct c as [[] [] [] [] [] [] [] []]; vm_compute; intros H;
    first [reflexivity|discriminate H].
Qed.

Lemma hex_all_alnum (g : list ascii) :
  forallb hex_char g = true -> forallb alnum_char g = true.
Proof.
  induction g as [|c g IH]; [reflexivity|]. cbn [forallb]. intros H.
  apply andb_true_iff in H as [Hc Hg]. now rewrite (hex_is_alnum c Hc), IH.
Qed.

Lemma alnum_GUID_length (l : list ascii) : alnum_GUID l -> List.length l = 36%nat.
Proof.
  intros [g1 [g2 [g3 [g4 [g5 [-> [[L1 _] [[L2 _] [[L3 _] [[L4 _] [L5 _]]]]]]]]]]].
  repeat (rewrite ?length_app; cbn [List.length]). lia.
Qed.

Lemma canonical_is_alnum (s : string) :
  is_canonical_GUID s = true -> alnum_GUID (chars s).
Proof.
  unfold is_canonical_GUID.
  destruct (chars s) as
    [|a1 [|a2 [|a3 [|a4 [|a5 [|a6 [|a7 [|a8 [|h1
     [|b1 [|b2 [|b3 [|b4 [|h2
     [|c1 [|c2 [|c3 [|c4 [|h3
     [|d1 [|d2 [|d3 [|d4 [|h4 e]]]]]]]]]]]]]]]]]]]]]]]]; try discriminate.
  intros H.
  apply andb_true_iff in H as [H He]. apply andb_true_iff in H as [Hhex Hhyphen].
  unfold hex_group in He. apply andb_true_iff in He as [Hlen He].
  apply Nat.eqb_eq in Hlen.
  cbn [forallb] in Hhyphen.
  repeat (apply andb_true_iff in Hhyphen as [?Hh Hhyphen]).
  repeat match goal with
         | Hh : Ascii.eqb "-"%char _ = true |- _ => apply Ascii.eqb_eq in Hh; subst
         end.
  apply hex_all_alnum in Hhex, He.
  cbn [forallb] in Hhex.
  repeat (apply andb_true_iff in Hhex as [?Hc Hhex]).
  exists [a1; a2; a3; a4; a5; a6; a7; a8], [b1; b2; b3; b4], [c1; c2; c3; c4],
    [d1; d2; d3; d4], e.
  split; [reflexivity|].
  unfold alnum_group. cbn [List.length forallb].
  repeat match goal with
         | Hc : alnum_char _ = true |- _ => rewrite Hc; clear Hc
         end.
  now repeat split.
Qed.

Lemma chars_injective (s t : string) : chars s = chars t -> s = t.
Proof.
  unfold chars. intros H.
  rewrite <- (string_of_list_ascii_of_string s), <- (string_of_list_ascii_of_string t).
  now rewrite H.
Qed.

(** X19. The strings the GUID pattern of both variants matches: exactly
    the five groups of 8, 4, 4, 4 and 12 characters of [[0-9a-zA-Z]] joined
    by hyphens, the all-zero GUID alone excepted.  In particular every
    hexadecimal GUID other than the all-zero one matches, in upper or lower
    case. *)
Theorem GUID_pattern_language (s : string) :
  (matches Strict.getRegexGUID s = Some true
   <-> alnum_GUID (chars s) /\ s <> zero_GUID)
  /\ (is_canonical_GUID s = true /\ s <> zero_GUID
      -> matches Strict.getRegexGUID s = Some true)
  /\ Loose.getRegexGUID = Strict.getRegexGUID.
Proof.
  assert (Hzero : alnum_GUID (chars s) ->
                  (begins_with (chars zero_GUID) (chars s) <-> s = zero_GUID)).
  { intros Hs. split.
    - intros [rest Hrest]. apply chars_injective.
      pose proof (alnum_GUID_length _ Hs) as Hlen.
      rewrite Hrest, length_app in Hlen.
      change (List.length (chars zero_GUID)) with 36%nat in Hlen.
      destruct rest; [|cbn [List.length] in Hlen; lia].
      now rewrite app_nil_r in Hrest.
    - intros ->. exists []. now rewrite app_nil_r. }
  assert (Hiff : matches Strict.getRegexGUID s = Some true
                 <-> alnum_GUID (chars s) /\ s <> zero_GUID).
  { change Strict.getRegexGUID with regex_GUID. rewrite matches_GUID. split.
    - intros [Hs Hno]. split; [exact Hs|]. intros Heq. apply Hno.
      now apply Hzero.
    - intros [Hs Hno]. split; [exact Hs|]. intros Hb. apply Hno.
      now apply Hzero. }
  split; [exact Hiff|]. split; [|reflexivity].
  intros [Hcanon Hno]. apply Hiff. split; [|exact Hno].
  now apply canonical_is_alnum.
Qed.

(** An upper-case hexadecimal GUID. *)
Lemma GUID_pattern_language_witness :
  (is_canonical_GUID "123E4567-E89B-12D3-A456-426614174000" = true
   /\ "123E4567-E89B-12D3-A456-426614174000" <> zero_GUID)
  /\ matches Strict.getRegexGUID "123E4567-E89B-12D3-A456-426614174000" = Some true.
Proof.
  assert (H : is_canonical_GUID "123E4567-E89B-12D3-A456-426614174000" = true
              /\ "123E4567-E89B-12D3-A456-426614174000" <> zero_GUID)
    by (split; [reflexivity|discriminate]).
  split; [exact H|].
  apply (proj1 (proj2 (GUID_pattern_language "123E4567-E89B-12D3-A456-426614174000")) H).
Defined.

(** ** The stricter URL pattern, in full *)

Lemma localhost_inside (s : list ascii) :
  (exists before rest t,
      s = (before ++ rest)%list
      /\ after_scheme rest t /\ begins_with (chars "localhost") t)
  <-> contains (chars "http://localhost") s \/ contains (chars "https://localhost") s.
Proof.
  split.
  - intros [before [rest [t [-> [[-> | ->] [tail ->]]]]]]; [left|right];
      exists before, tail; reflexivity.
  - intros [[before [tail ->]]|[before [tail ->]]].
    + exists before, (chars "http://localhost" ++ tail)%list,
        (chars "localhost" ++ tail)%list.
      split; [reflexivity|]. split; [now left|now exists tail].
    + exists before, (chars "https://localhost" ++ tail)%list,
        (chars "localhost" ++ tail)%list.
      split; [reflexivity|]. split; [now right|now exists tail].
Qed.

(** X20. The strings the URL pattern of the stricter variant matches:
    exactly those that begin with [http://] or [https://], one or more
    characters of [[0-9a-zA-Z-]], a dot and one more such character, and
    those that hold [http://localhost] or [https://localhost] anywhere:
    the second alternative of the pattern is not anchored.  Nothing is
    asked of what follows the host. *)
Theorem strict_URL_language (s : string) :
  matches Strict.getRegexURL s = Some true
  <-> (exists t, after_scheme (chars s) t /\ dotted_host t)
      \/ contains (chars "http://localhost") (chars s)
      \/ contains (chars "https://localhost") (chars s).
Proof.
  rewrite matches_strict_URL, localhost_inside. reflexivity.
Qed.

(** ** The two HAL schemas *)

(** X21. Where the HAL schemas of the two variants differ, for every
    item schema [s] that is an object: the stricter variant requires the
    links [self], [first] and [last], the looser one [next] and [previous]
    as well; the stricter variant numbers pages from 1, the looser one from
    0; and each constrains the [href] of a link by its own URL pattern. *)
Theorem getSchemaHAL_variants_differ (a : addr) (props : list (string * value)) (st : state) :
  exists strict loose,
    fst (Strict.getSchemaHAL (VObj a props) st) = Normal strict
    /\ fst (Loose.getSchemaHAL (VObj a props) st) = Normal loose
    /\ option_map array_items (get_path ["properties"; "_links"; "required"] strict)
       = Some [VStr "self"; VStr "first"; VStr "last"]
    /\ option_map array_items (get_path ["properties"; "_links"; "required"] loose)
       = Some [VStr "self"; VStr "next"; VStr "previous"; VStr "first"; VStr "last"]
    /\ get_path ["properties"; "_page"; "properties"; "number"; "minimum"] strict
       = Some (VNum (num 1))
    /\ get_path ["properties"; "_page"; "properties"; "number"; "minimum"] loose
       = Some (VNum (num 0))
    /\ get_path ["properties"; "_links"; "properties"; "self"; "properties"; "href";
                 "pattern"] strict
       = Some (VStr Strict.getRegexURL)
    /\ get_path ["properties"; "_links"; "properties"; "self"; "properties"; "href";
                 "pattern"] loose
       = Some (VStr Loose.getRegexURL).
Proof.
  match goal with
  | |- exists strict loose, fst ?r = _ /\ fst ?r' = _ /\ _ =>
      let v := eval vm_compute in (fst r) in
      let v' := eval vm_compute in (fst r') in
      match v with
      | Normal ?x => match v' with Normal ?x' => exists x, x' end
      end
  end.
  repeat split; vm_compute; reflexivity.
Qed.
